(** * NewsAnalyzerDashboard: ingestion, normalisation and clustering pipeline

    A shallow embedding of the scraper helpers
    ([app/scrapers/generic_scraper.py]), of the ingestion loop
    ([app/tasks/crawler_tasks.py]) and of the analysis tasks
    ([app/tasks/analysis_tasks.py]) over an explicit model of the relational
    store declared in [app/models.py].

    Conventions.
    - A Python [str] is the list of its Unicode code points ([pystr]); the
      ASCII literals the code uses as status values, labels and global names
      are kept as [string].
    - Python [float] and [numpy.float64] are IEEE binary64: [PrimFloat.float].
    - Instants and durations are integers in microseconds, the resolution of
      [datetime] and [timedelta].
    - Code that can raise lives in [py]; [try: ... except Exception:] is
      [try_except].
    - Third-party libraries (dateutil, pytz zone tables, bs4's CSS selection,
      hazm, scikit-learn, numpy's vectoriser) are parameters of the sections
      that use them; what the repository's own code does with their results
      is modelled in full. *)

From Stdlib Require Import ZArith List Bool String Lia.
From Stdlib Require Import Floats.PrimFloat Numbers.Cyclic.Int63.Uint63.
From Stdlib Require Import Sorting.Permutation Sorting.Sorted.
Import ListNotations.

Open Scope Z_scope.

Set Warnings "-register-all,-inexact-float".

(* ================================================================= *)
(** ** Python values shared by all modules *)

(** A [str]: its code points. *)
Definition pystr := list Z.

Definition pystr_eqb (a b : pystr) : bool :=
  if list_eq_dec Z.eq_dec a b then true else false.

(** An ASCII literal as a [str]. *)
Definition ascii_str (s : string) : pystr :=
  map (fun a => Z.of_N (Ascii.N_of_ascii a)) (list_ascii_of_string s).

(** Truthiness of a [str]: the empty string is falsy. *)
Definition str_truthy (s : pystr) : bool :=
  match s with [] => false | _ :: _ => true end.

(** The exceptions that the modelled code can meet.  All of them derive from
    [Exception], so every [except Exception] clause catches each of them.
    [Retry] is what [self.retry(...)] of a Celery task returns to be raised,
    [MaxRetriesExceededError] what it raises instead once the retries are
    used up, and [OperationalError] what [.delay(...)] raises when the broker
    cannot be reached. *)
Inductive exn : Type :=
| NameError (name : string)
| TypeError
| ValueError
| OverflowError
| IndexError
| IntegrityError
| PendingRollbackError
| Retry (countdown : Z)
| MaxRetriesExceededError
| OperationalError
| LibraryError (tag : nat).

Inductive py (A : Type) : Type :=
| Ok (a : A)
| Raise (e : exn).
Arguments Ok {A} a.
Arguments Raise {A} e.

Definition py_bind {A B} (m : py A) (k : A -> py B) : py B :=
  match m with Ok a => k a | Raise e => Raise e end.

Definition try_except {A} (body : py A) (handler : exn -> py A) : py A :=
  match body with Ok a => Ok a | Raise e => handler e end.

Declare Scope py_scope.
Delimit Scope py_scope with py.
Notation "x <- m ;; k" := (py_bind m (fun x => k))
  (at level 61, m at next level, right associativity) : py_scope.

(** Stateful code that can raise: the state is threaded through, also across
    a raised exception, so that an [except] handler sees what the body did
    before it failed. *)
Definition st (S A : Type) : Type := S -> py A * S.

Definition st_ret {S A} (a : A) : st S A := fun s => (Ok a, s).
Definition st_raise {S A} (e : exn) : st S A := fun s => (Raise e, s).
Definition st_lift {S A} (m : py A) : st S A := fun s => (m, s).
Definition st_get {S} : st S S := fun s => (Ok s, s).
Definition st_put {S} (s' : S) : st S unit := fun _ => (Ok tt, s').
Definition st_bind {S A B} (m : st S A) (f : A -> st S B) : st S B :=
  fun s => match m s with
           | (Ok a, s') => f a s'
           | (Raise e, s') => (Raise e, s')
           end.
Definition st_try {S A} (body : st S A) (handler : exn -> st S A) : st S A :=
  fun s => match body s with
           | (Ok a, s') => (Ok a, s')
           | (Raise e, s') => handler e s'
           end.

Declare Scope st_scope.
Delimit Scope st_scope with st.
Notation "x <- m ;; k" := (st_bind m (fun x => k))
  (at level 61, m at next level, right associativity) : st_scope.

(** The process clock: [clock k] is the UTC time, in microseconds since the
    epoch, returned by the [k]-th reading an operation takes. *)
Definition clock_t := nat -> Z.

(** Code whose only state is the number of clock readings taken so far. *)
Definition io (A : Type) : Type := st nat A.
Definition read_clock (clock : clock_t) : io Z := fun k => (Ok (clock k), S k).

(** [self.retry(countdown=c)] in a task bound with [max_retries=3], where
    [retries] is [self.request.retries]: the request to run the task again,
    or [MaxRetriesExceededError] once it has been retried three times. *)
Definition max_retries : Z := 3.
Definition retry (retries countdown : Z) : exn :=
  if max_retries <? retries + 1 then MaxRetriesExceededError else Retry countdown.

(* ================================================================= *)
(** ** Methods of [str] *)

Module PyStr.

(** [str.isspace] on one character; it is also the class [\s] of [re]. *)
Definition is_space (c : Z) : bool :=
  ((9 <=? c) && (c <=? 13)) || ((28 <=? c) && (c <=? 32)) ||
  (c =? 133) || (c =? 160) || (c =? 5760) ||
  ((8192 <=? c) && (c <=? 8202)) || (c =? 8232) || (c =? 8233) ||
  (c =? 8239) || (c =? 8287) || (c =? 12288).

Fixpoint take_while (p : Z -> bool) (s : pystr) : pystr :=
  match s with
  | c :: t => if p c then c :: take_while p t else []
  | [] => []
  end.

Fixpoint drop_while (p : Z -> bool) (s : pystr) : pystr :=
  match s with
  | c :: t => if p c then drop_while p t else s
  | [] => []
  end.

(** [str.strip()] *)
Definition strip (s : pystr) : pystr :=
  rev (drop_while is_space (rev (drop_while is_space s))).

(** [' '.join(parts)] *)
Fixpoint join_space (parts : list pystr) : pystr :=
  match parts with
  | [] => []
  | [p] => p
  | p :: rest => p ++ 32 :: join_space rest
  end.

(** [len(s)] *)
Definition len (s : pystr) : Z := Z.of_nat (List.length s).

(** [s.split()]: the maximal runs of characters that are not white space;
    [cur] holds the run being read, last character first. *)
Fixpoint split_from (cur : pystr) (s : pystr) : list pystr :=
  match s with
  | [] => match cur with [] => [] | _ => [rev cur] end
  | c :: t =>
      if is_space c
      then match cur with [] => split_from [] t | _ => rev cur :: split_from [] t end
      else split_from (c :: cur) t
  end.

Definition split (s : pystr) : list pystr := split_from [] s.

End PyStr.

(* ================================================================= *)
(** ** Dates and times *)

Module Time.

Definition usec_per_second : Z := 1000000.
Definition usec_per_minute : Z := 60 * usec_per_second.
Definition usec_per_hour : Z := 60 * usec_per_minute.
Definition usec_per_day : Z := 24 * usec_per_hour.

(** [datetime.min] and [datetime.max] as wall-clock microseconds counted from
    1970-01-01T00:00:00: years 1 to 9999. *)
Definition datetime_min : Z := -62135596800 * usec_per_second.
Definition datetime_max : Z := 253402300799 * usec_per_second + 999999.

(** A [datetime]: its wall-clock reading and, when it is aware, the UTC
    offset of its [tzinfo]. *)
Record datetime : Type := mk_datetime {
  wall : Z;
  utcoffset : option Z
}.

Definition datetime_eqb (a b : datetime) : bool :=
  (wall a =? wall b) &&
  match utcoffset a, utcoffset b with
  | Some x, Some y => x =? y
  | None, None => true
  | _, _ => false
  end.

(** An aware datetime in [pytz.UTC]. *)
Definition utc_datetime (instant : Z) : datetime := mk_datetime instant (Some 0).

Definition is_utc (d : datetime) : Prop := utcoffset d = Some 0.

(** The UTC instant an aware datetime denotes. *)
Definition instant_of (d : datetime) : option Z :=
  match utcoffset d with
  | Some off => Some (wall d - off)
  | None => None
  end.

Definition in_range (w : Z) : bool := (datetime_min <=? w) && (w <=? datetime_max).

(** A time zone of the pytz database, seen through the two lookups the code
    relies on: the offset in force at a UTC instant ([datetime.now(tz)]) and
    the offset [localize] picks for a naive wall-clock reading. *)
Record tz_rules : Type := mk_tz {
  offset_at_utc : Z -> Z;
  localize : Z -> py Z
}.

(** [datetime.now(tz)] at UTC instant [t]. *)
Definition now_in (tz : tz_rules) (t : Z) : datetime :=
  mk_datetime (t + offset_at_utc tz t) (Some (offset_at_utc tz t)).

(** [timedelta(minutes=v)], [timedelta(hours=v)], [timedelta(days=v)]: the
    constructor refuses a magnitude above 999999999 days. *)
Definition timedelta (unit_usec value : Z) : py Z :=
  let d := unit_usec * value in
  if Z.abs (d / usec_per_day) <=? 999999999 then Ok d else Raise OverflowError.

(** [dt - delta]: wall-clock arithmetic that keeps the [tzinfo]. *)
Definition sub_timedelta (d : datetime) (delta : Z) : py datetime :=
  let w := wall d - delta in
  if in_range w then Ok (mk_datetime w (utcoffset d)) else Raise OverflowError.

(** [dt.astimezone(pytz.UTC)] for an aware [dt]; a naive one never reaches the
    calls modelled here. *)
Definition astimezone_utc (d : datetime) : py datetime :=
  match utcoffset d with
  | Some off =>
      let w := wall d - off in
      if in_range w then Ok (utc_datetime w) else Raise OverflowError
  | None => Raise ValueError
  end.

End Time.

(* ================================================================= *)
(** ** app/scrapers/generic_scraper.py *)

Module Scraper.
Import Time PyStr.

(** *** Character classes of the [re] module on [str] patterns

    [\d] is the Unicode category Nd and [\s] is [PyStr.is_space]; [int] reads
    any Nd digit.  The Nd digits come in runs of ten starting at a zero: the
    table lists the zeros (Unicode 14, the database of CPython 3.11). *)
Definition nd_zeros : list Z :=
  [48; 1632; 1776; 1984; 2406; 2534; 2662; 2790; 2918; 3046; 3174; 3302;
   3430; 3558; 3664; 3792; 3872; 4160; 4240; 6112; 6160; 6470; 6608; 6784;
   6800; 6992; 7088; 7232; 7248; 42528; 43216; 43264; 43472; 43504; 43600;
   44016; 65296; 66720; 68912; 69734; 69872; 69942; 70096; 70384; 70736;
   70864; 71248; 71360; 71472; 71904; 72016; 72784; 73040; 73120; 92768;
   92864; 93008; 120782; 120792; 120802; 120812; 120822; 123200; 123632;
   125264; 130032].

Definition digit_value (c : Z) : option Z :=
  match find (fun z => (z <=? c) && (c <? z + 10)) nd_zeros with
  | Some z => Some (c - z)
  | None => None
  end.

Definition is_digit (c : Z) : bool :=
  match digit_value c with Some _ => true | None => false end.

(** [c in s] for a one-character [c] *)
Definition contains (c : Z) (s : pystr) : bool := existsb (Z.eqb c) s.

(** The value of a run of Nd digits. *)
Definition int_of_digits (ds : pystr) : Z :=
  fold_left (fun acc c => 10 * acc + match digit_value c with Some v => v | None => 0 end) ds 0.

(** [int(digits)]: CPython refuses a run longer than [sys.int_max_str_digits]
    (4300 unless configured otherwise); 0 lifts the limit, which versions
    before 3.11 do not have. *)
Definition py_int (int_max_str_digits : Z) (ds : pystr) : py Z :=
  if (0 <? int_max_str_digits) && (int_max_str_digits <? len ds)
  then Raise ValueError
  else Ok (int_of_digits ds).

Fixpoint strip_prefix (w s : pystr) : option pystr :=
  match w, s with
  | [], _ => Some s
  | a :: w', b :: s' => if a =? b then strip_prefix w' s' else None
  | _ :: _, [] => None
  end.

(** The words of the relative-time patterns, lines 100 to 102. *)
Definition word_minute : pystr := [1583; 1602; 1740; 1602; 1607].
Definition word_hour : pystr := [1587; 1575; 1593; 1578].
Definition word_day : pystr := [1585; 1608; 1586].
Definition word_ago : pystr := [1662; 1740; 1588].

(** A match of [(\d+)\s*<word>\s*<ago>] anchored at the head of [s]; the
    result is group 1.  The words start with a letter, so neither a shorter
    run of digits nor a shorter run of spaces can succeed where the longest
    fails: the greedy reading is the only one the backtracking matcher can
    accept. *)
Definition match_here (word ago s : pystr) : option pystr :=
  match take_while is_digit s with
  | [] => None
  | ds =>
      match strip_prefix word (drop_while is_space (drop_while is_digit s)) with
      | None => None
      | Some r =>
          match strip_prefix ago (drop_while is_space r) with
          | None => None
          | Some _ => Some ds
          end
      end
  end.

(** [re.search]: the leftmost position with a match. *)
Fixpoint re_search (word ago s : pystr) : option pystr :=
  match match_here word ago s with
  | Some g => Some g
  | None =>
      match s with
      | [] => None
      | _ :: t => re_search word ago t
      end
  end.

(** [relative_patterns], lines 99 to 103: the unit word of each pattern
    (the rest of the pattern is common) and the unit's name. *)
Definition relative_patterns : list (pystr * string) :=
  [(word_minute, "minutes"%string); (word_hour, "hours"%string); (word_day, "days"%string)].

(** The names bound at module level, lines 1 to 13: the imports, [logger]
    and the class.  Only [datetime] is imported from the [datetime] module. *)
Definition module_globals : list string :=
  ["json"; "requests"; "BeautifulSoup"; "datetime"; "logging"; "re";
   "urljoin"; "urlparse"; "date_parser"; "pytz"; "logger"; "GenericScraper"]%string.

(** Looking up a global name that is not a builtin. *)
Definition load_global (name : string) : py unit :=
  if existsb (String.eqb name) module_globals then Ok tt else Raise (NameError name).

Section ParseDate.

(** [dateutil.parser.parse]: a naive or an aware datetime, or an exception. *)
Variable date_parser_parse : pystr -> py datetime.
(** [sys.int_max_str_digits] *)
Variable int_max_str_digits : Z.
(** [self.tehran_tz = pytz.timezone('Asia/Tehran')] *)
Variable tehran_tz : tz_rules.
Variable clock : clock_t.

(** [datetime.now(pytz.UTC)] *)
Definition now_utc : io datetime :=
  (t <- read_clock clock ;; st_ret (utc_datetime t))%st.

(** Lines 92 to 96: the machine-readable branch. *)
Definition parse_absolute (date_string : pystr) : py datetime :=
  (parsed_date <- date_parser_parse date_string ;;
   parsed_date <- match utcoffset parsed_date with
                  | None =>
                      off <- localize tehran_tz (wall parsed_date) ;;
                      Ok (mk_datetime (wall parsed_date) (Some off))
                  | Some _ => Ok parsed_date
                  end ;;
   astimezone_utc parsed_date)%py.

(** Lines 108 to 116: the body run on a match of a relative pattern. *)
Definition relative_body (unit : string) (digits : pystr) : io datetime :=
  (value <- st_lift (py_int int_max_str_digits digits) ;;
   t <- read_clock clock ;;
   let now := now_in tehran_tz t in
   parsed_date <-
     st_lift
       (if String.eqb unit "minutes" then
          (_ <- load_global "timedelta" ;;
           d <- timedelta usec_per_minute value ;; sub_timedelta now d)%py
        else if String.eqb unit "hours" then
          (_ <- load_global "timedelta" ;;
           d <- timedelta usec_per_hour value ;; sub_timedelta now d)%py
        else if String.eqb unit "days" then
          (_ <- load_global "timedelta" ;;
           d <- timedelta usec_per_day value ;; sub_timedelta now d)%py
        else Raise (NameError "parsed_date")) ;;
   st_lift (astimezone_utc parsed_date))%st.

(** Lines 105 to 120: the loop over the patterns, then the fall-back. *)
Fixpoint relative_loop (patterns : list (pystr * string)) (date_string : pystr)
  : io datetime :=
  match patterns with
  | [] => now_utc
  | (word, unit) :: rest =>
      match re_search word word_ago date_string with
      | Some digits => relative_body unit digits
      | None => relative_loop rest date_string
      end
  end.

(** [GenericScraper._parse_date], lines 74 to 124.  The argument is what
    [_extract_text] returned: a string or [None]. *)
Definition _parse_date (date_string : option pystr) : io (option datetime) :=
  match date_string with
  | None => st_ret None
  | Some raw =>
      if negb (str_truthy raw) then st_ret None
      else
        let date_string := strip raw in
        (d <- st_try
                (if contains 84 date_string || contains 45 date_string
                 then st_lift (parse_absolute date_string)
                 else relative_loop relative_patterns date_string)
                (fun _ => now_utc) ;;
         st_ret (Some d))%st
  end.

(** The value returned when the operation starts with a fresh clock. *)
Definition parse_date_result (date_string : option pystr) : py (option datetime) :=
  fst (_parse_date date_string 0%nat).

End ParseDate.

(** The specification's reading of a relative phrase: the current time less
    [value] units, as a UTC instant. *)
Definition relative_instant (now unit_usec value : Z) : datetime :=
  utc_datetime (now - unit_usec * value).

(** *** Fixed inputs used by the examples *)

(** Asia/Tehran without daylight saving: UTC+3:30 throughout. *)
Definition tehran_fixed : tz_rules :=
  mk_tz (fun _ => 12600 * usec_per_second) (fun _ => Ok (12600 * usec_per_second)).

(** A parser that accepts nothing. *)
Definition parser_rejects : pystr -> py datetime := fun _ => Raise ValueError.

(** 2024-01-01T12:00:00+03:30, that is 08:30:00Z. *)
Definition reference_instant : Z := 1704097800 * usec_per_second.
Definition frozen_clock : clock_t := fun _ => reference_instant.

(** "2 " followed by the words for "hours ago". *)
Definition two_hours_ago : pystr := [50; 32] ++ word_hour ++ [32] ++ word_ago.

(** *** The page tree of bs4 *)

Inductive attr_value : Type :=
| AttrStr (s : pystr)
| AttrList (l : list pystr).

Inductive node : Type :=
| Tag (name : pystr) (attrs : list (pystr * attr_value)) (contents : list node)
| NavigableString (text : pystr).

Definition attr_value_eqb (a b : attr_value) : bool :=
  match a, b with
  | AttrStr s, AttrStr t => pystr_eqb s t
  | AttrList l, AttrList m => if list_eq_dec (list_eq_dec Z.eq_dec) l m then true else false
  | _, _ => false
  end.

Fixpoint attr_lookup (k : pystr) (d : list (pystr * attr_value)) : option attr_value :=
  match d with
  | [] => None
  | (k', v) :: t => if pystr_eqb k k' then Some v else attr_lookup k t
  end.

(** Equality of the [attrs] dictionaries: same keys, equal values. *)
Definition attrs_eqb (a b : list (pystr * attr_value)) : bool :=
  (Z.of_nat (List.length a) =? Z.of_nat (List.length b)) &&
  forallb (fun kv => match attr_lookup (fst kv) b with
                     | Some v => attr_value_eqb (snd kv) v
                     | None => false
                     end) a.

(** [Tag.__eq__] and string equality: two tags are equal when their names,
    attributes and contents are, whatever their place in the tree. *)
Fixpoint node_eqb (a b : node) : bool :=
  match a, b with
  | NavigableString s, NavigableString t => pystr_eqb s t
  | Tag n at_ cs, Tag n' at' cs' =>
      pystr_eqb n n' && attrs_eqb at_ at' &&
      (Z.of_nat (List.length cs) =? Z.of_nat (List.length cs')) &&
      (fix all2 (l l' : list node) : bool :=
         match l, l' with
         | x :: xs, y :: ys => node_eqb x y && all2 xs ys
         | _, _ => true
         end) cs cs'
  | _, _ => false
  end.

(** [PageElement.descendants]: the nodes below [n], in document order. *)
Fixpoint descendants (n : node) : list node :=
  match n with
  | Tag _ _ cs =>
      (fix go (l : list node) : list node :=
         match l with
         | [] => []
         | c :: t => (c :: descendants c) ++ go t
         end) cs
  | NavigableString _ => []
  end.

Definition is_tag (n : node) : bool :=
  match n with Tag _ _ _ => true | NavigableString _ => false end.

(** [tag.find_all()] without arguments: every tag below [tag]. *)
Definition find_all (n : node) : list node := filter is_tag (descendants n).

(** [element in news_elem.find_all()] *)
Definition element_in (element : node) (l : list node) : bool :=
  existsb (fun x => node_eqb x element) l.

(** Lines 134 to 138: the index of the first listed element that holds
    [element] below it, or -1. *)
Fixpoint find_element_index (element : node) (all_news : list node) (i : Z) : Z :=
  match all_news with
  | [] => -1
  | news_elem :: rest =>
      if element_in element (find_all news_elem) then i
      else find_element_index element rest (i + 1)
  end.

(** Lines 140 to 147. *)
Definition position_of_index (element_index : Z) (len_all_news : Z) : string :=
  if element_index =? -1 then "unknown"
  else if element_index <? 3 then "homepage_top"
  else if element_index <? len_all_news / 2 then "homepage_middle"
  else "homepage_bottom".

(** [GenericScraper._determine_position], lines 126 to 151.  [selected] is
    the outcome of [soup.select(self.config.get('news_list_selector', ''))]. *)
Definition _determine_position (element : node) (selected : py (list node)) : py string :=
  try_except
    (all_news <- selected ;;
     match all_news with
     | [] => Ok "unknown"%string
     | _ :: _ =>
         Ok (position_of_index (find_element_index element all_news 0)
                               (Z.of_nat (List.length all_news)))
     end)%py
    (fun _ => Ok "unknown"%string).

(** Line 196 inside the loop of [scrape_news_list] when a listing selector is
    configured: the candidates are the selected elements, and each one is
    passed to [_determine_position] with the same page. *)
Definition candidate_positions (news_elements : list node) : list (py string) :=
  map (fun element => _determine_position element (Ok news_elements)) news_elements.

(** The ordinal classes as the specification words them, for an element
    whose index among the [n] candidates is [i]. *)
Definition ordinal_class (i n : Z) : string :=
  if i <? 3 then "homepage_top"
  else if i <? n / 2 then "homepage_middle"
  else "homepage_bottom".

(** The number of nodes of a tree. *)
Fixpoint size (n : node) : nat :=
  match n with
  | Tag _ _ cs => S ((fix sum (l : list node) : nat :=
                        match l with [] => 0 | c :: t => size c + sum t end) cs)
  | NavigableString _ => 1
  end%nat.

(** A listing of four sibling candidates [<li><a>k</a></li>]. *)
Definition li_item (k : Z) : node :=
  Tag [108; 105] [] [Tag [97] [] [NavigableString [48 + k]]].
Definition flat_listing : list node := [li_item 0; li_item 1; li_item 2; li_item 3].

(** *** Requests *)

(** [range(n)] *)
Definition range (n : Z) : list Z := map Z.of_nat (seq 0 (Z.to_nat n)).

Section MakeRequest.

(** A [requests.Response]. *)
Variable response : Type.
(** Lines 39 and 40, [self.session.get(url, timeout=self.timeout)] followed by
    [response.raise_for_status()], for the [n]-th request the scraper sends:
    the response, or the exception one of the two calls raised. *)
Variable session_get : pystr -> nat -> py response.
(** [isinstance(e, requests.RequestException)] *)
Variable is_request_exception : exn -> bool.

(** One request; the state is the number of requests sent so far. *)
Definition send (url : pystr) : st nat response :=
  fun n => (session_get url n, S n).

(** The loop of lines 37 to 45 over the attempts still to be made. *)
Fixpoint request_loop (url : pystr) (retries : Z) (attempts : list Z)
  : st nat (option response) :=
  match attempts with
  | [] => st_ret None
  | attempt :: rest =>
      st_try
        (response <- send url ;; st_ret (Some response))%st
        (fun e =>
           if is_request_exception e then
             if attempt =? retries - 1 then st_raise e
             else request_loop url retries rest
           else st_raise e)
  end.

(** [GenericScraper._make_request], lines 35 to 46. *)
Definition _make_request (url : pystr) (retries : Z) : st nat (option response) :=
  request_loop url retries (range retries).

(** The requests numbered [n] to [n' - 1] failed with a request exception. *)
Definition all_failed (url : pystr) (n n' : nat) : Prop :=
  forall m, (n <= m < n')%nat ->
  exists e, session_get url m = Raise e /\ is_request_exception e = true.

End MakeRequest.

End Scraper.

(* ================================================================= *)
(** ** app/models.py: the relational store *)

Module Store.

(** The text kept in [AnalysisResult.value]: [str(x)] of a float [x] is kept
    as the float it denotes ([float(str(x)) == x] for every Python float),
    any other text as it is. *)
Inductive stored_text : Type :=
| FloatText (x : float)
| PlainText (s : pystr).

Module NewsAgency.
Record t : Type := mk {
  id : Z;
  name : pystr;
  config_file_path : pystr;
  is_active : bool
}.
End NewsAgency.

Module NewsItem.
Record t : Type := mk {
  id : Z;
  agency_id : Z;
  title : pystr;
  url : pystr;
  full_text : option pystr;
  publication_timestamp : option Z;
  crawler_timestamp : option Z;
  category : option pystr;
  main_image_url : option pystr;
  position_on_page : option string;
  is_duplicate : bool
}.

Definition mark_duplicate (x : t) : t :=
  mk (id x) (agency_id x) (title x) (url x) (full_text x)
     (publication_timestamp x) (crawler_timestamp x) (category x)
     (main_image_url x) (position_on_page x) true.
End NewsItem.

Module NewsGroup.
Record t : Type := mk {
  id : Z;
  main_title : pystr;
  creation_timestamp : option Z
}.
End NewsGroup.

Module NewsGroupItem.
Record t : Type := mk {
  id : Z;
  news_group_id : Z;
  news_item_id : Z;
  similarity_score : option float;
  added_at : option Z
}.
End NewsGroupItem.

Module AnalysisResult.
Record t : Type := mk {
  id : Z;
  news_item_id : Z;
  analysis_type : string;
  value : option stored_text;
  analysis_timestamp : option Z
}.
End AnalysisResult.

(** The committed tables, rows in insertion order. *)
Record db : Type := mk_db {
  news_agencies : list NewsAgency.t;
  news_items : list NewsItem.t;
  news_groups : list NewsGroup.t;
  news_group_items : list NewsGroupItem.t;
  analysis_results : list AnalysisResult.t
}.

Definition empty_db : db := mk_db [] [] [] [] [].

(** An auto-increment key: above every key in the table. *)
Definition next_id (ids : list Z) : Z := 1 + fold_right Z.max 0 ids.

(** The tasks handed to the job dispatcher with [.delay(...)]. *)
Inductive task : Type :=
| analyze_news_item_task (news_item_id : Z)
| calculate_publication_speed_task (group_id : Z).

(** What a task works on: the committed store; the store as the open
    transaction of the SQLAlchemy session sees it (flushed rows included);
    whether the session refuses work until [rollback()] is called, as it does
    after a failed flush; the clock with the number of readings taken; the
    messages the broker has accepted; and the broker, which says whether it
    accepts the [n]-th message offered to it, with the number of messages
    offered so far. *)
Record world : Type := mk_world {
  w_db : db;
  w_view : db;
  w_needs_rollback : bool;
  w_clock : clock_t;
  w_readings : nat;
  w_queue : list task;
  w_broker : task -> nat -> bool;
  w_offered : nat
}.

(** A broker that accepts every message, and one that cannot be reached. *)
Definition broker_accepts_all : task -> nat -> bool := fun _ _ => true.
Definition broker_refuses_all : task -> nat -> bool := fun _ _ => false.

(** A task starts with nothing read and nothing offered; the broker of
    [initial_world] can be reached. *)
Definition world_with (broker : task -> nat -> bool) (d : db) (clock : clock_t) : world :=
  mk_world d d false clock 0%nat [] broker 0%nat.

Definition initial_world (d : db) (clock : clock_t) : world :=
  world_with broker_accepts_all d clock.

(** [datetime.utcnow()] *)
Definition utcnow : st world Z :=
  fun w => (Ok (w_clock w (w_readings w)),
            mk_world (w_db w) (w_view w) (w_needs_rollback w) (w_clock w)
                     (S (w_readings w)) (w_queue w) (w_broker w) (w_offered w)).

(** [task.delay(...)]: the message is queued, or the broker cannot be
    reached and the call raises. *)
Definition delay (t : task) : st world unit :=
  fun w => if w_broker w t (w_offered w)
           then (Ok tt,
                 mk_world (w_db w) (w_view w) (w_needs_rollback w) (w_clock w)
                          (w_readings w) (w_queue w ++ [t]) (w_broker w) (S (w_offered w)))
           else (Raise OperationalError,
                 mk_world (w_db w) (w_view w) (w_needs_rollback w) (w_clock w)
                          (w_readings w) (w_queue w) (w_broker w) (S (w_offered w))).

(** A read of the store through the session. *)
Definition query {A} (f : db -> A) : st world A :=
  fun w => if w_needs_rollback w then (Raise PendingRollbackError, w)
           else (Ok (f (w_view w)), w).

(** A flush that the constraints accept. *)
Definition write (d : db) : st world unit :=
  fun w => if w_needs_rollback w then (Raise PendingRollbackError, w)
           else (Ok tt, mk_world (w_db w) d false (w_clock w) (w_readings w) (w_queue w) (w_broker w) (w_offered w)).

(** A flush that a constraint rejects: the transaction is undone and the
    session stays unusable until it is rolled back. *)
Definition fail_flush {A} : st world A :=
  fun w => if w_needs_rollback w then (Raise PendingRollbackError, w)
           else (Raise IntegrityError,
                 mk_world (w_db w) (w_db w) true (w_clock w) (w_readings w) (w_queue w) (w_broker w) (w_offered w)).

(** [db.session.commit()] once everything pending is flushed. *)
Definition commit : st world unit :=
  fun w => if w_needs_rollback w then (Raise PendingRollbackError, w)
           else (Ok tt, mk_world (w_view w) (w_view w) false (w_clock w)
                                 (w_readings w) (w_queue w) (w_broker w) (w_offered w)).

(** [db.session.rollback()] *)
Definition rollback : st world unit :=
  fun w => (Ok tt, mk_world (w_db w) (w_db w) false (w_clock w) (w_readings w) (w_queue w) (w_broker w) (w_offered w)).

(** No transaction is open and the session is usable. *)
Definition clean (w : world) : Prop :=
  w_needs_rollback w = false /\ w_view w = w_db w.

(** [NewsItem.query.get(id)] *)
Definition get_news_item (d : db) (i : Z) : option NewsItem.t :=
  find (fun x => NewsItem.id x =? i) (news_items d).

(** [NewsGroup.query.get(id)] *)
Definition get_news_group (d : db) (g : Z) : option NewsGroup.t :=
  find (fun x => NewsGroup.id x =? g) (news_groups d).

(** [NewsItem.query.filter_by(url=u).first()]; a [None] url compares with
    no row. *)
Definition first_by_url (d : db) (u : option pystr) : option NewsItem.t :=
  match u with
  | Some u => find (fun x => pystr_eqb (NewsItem.url x) u) (news_items d)
  | None => None
  end.

(** [NewsGroupItem.query.filter_by(news_item_id=i).first()] *)
Definition first_group_item (d : db) (i : Z) : option NewsGroupItem.t :=
  find (fun x => NewsGroupItem.news_item_id x =? i) (news_group_items d).

(** [AnalysisResult.query.filter_by(news_item_id=i, analysis_type=ty).first()] *)
Definition first_result (d : db) (i : Z) (ty : string) : option AnalysisResult.t :=
  find (fun x => (AnalysisResult.news_item_id x =? i) &&
                 String.eqb (AnalysisResult.analysis_type x) ty)
       (analysis_results d).

(** Flushing a new news item: [url] is NOT NULL and UNIQUE (line 40). *)
Definition insert_news_item (mk_row : Z -> pystr -> NewsItem.t) (u : option pystr)
  : st world Z :=
  (d <- query (fun d => d) ;;
   match u with
   | None => fail_flush
   | Some u' =>
       if existsb (fun x => pystr_eqb (NewsItem.url x) u') (news_items d) then fail_flush
       else
         let i := next_id (map NewsItem.id (news_items d)) in
         _ <- write (mk_db (news_agencies d) (news_items d ++ [mk_row i u'])
                           (news_groups d) (news_group_items d) (analysis_results d)) ;;
         st_ret i
   end)%st.

(** [db.session.add(news_group); db.session.flush()]: the key is assigned;
    [main_title] is never null here. *)
Definition insert_news_group (main_title : pystr) (creation_timestamp : Z) : st world Z :=
  (d <- query (fun d => d) ;;
   let g := next_id (map NewsGroup.id (news_groups d)) in
   _ <- write (mk_db (news_agencies d) (news_items d)
                     (news_groups d ++ [NewsGroup.mk g main_title (Some creation_timestamp)])
                     (news_group_items d) (analysis_results d)) ;;
   st_ret g)%st.

(** Flushing a new membership, with an update of the news item in the same
    transaction when [updated] carries one: the pair of group and item is
    UNIQUE (line 117); [added_at] takes its default, the time of the flush. *)
Definition insert_group_item (group_id item_id : Z) (score : float)
  (updated : option NewsItem.t) : st world unit :=
  (d <- query (fun d => d) ;;
   if existsb (fun x => (NewsGroupItem.news_group_id x =? group_id) &&
                        (NewsGroupItem.news_item_id x =? item_id))
              (news_group_items d)
   then fail_flush
   else
     now <- utcnow ;;
     let k := next_id (map NewsGroupItem.id (news_group_items d)) in
     let items :=
       match updated with
       | Some n => map (fun x => if NewsItem.id x =? NewsItem.id n then n else x) (news_items d)
       | None => news_items d
       end in
     write (mk_db (news_agencies d) items (news_groups d)
                  (news_group_items d ++ [NewsGroupItem.mk k group_id item_id (Some score) (Some now)])
                  (analysis_results d)))%st.

(** Flushing a new analysis result; the table has no constraint beyond its
    key. *)
Definition insert_analysis_result (item_id : Z) (ty : string) (v : stored_text)
  (timestamp : Z) : st world unit :=
  (d <- query (fun d => d) ;;
   let k := next_id (map AnalysisResult.id (analysis_results d)) in
   write (mk_db (news_agencies d) (news_items d) (news_groups d) (news_group_items d)
                (analysis_results d ++ [AnalysisResult.mk k item_id ty (Some v) (Some timestamp)])))%st.

End Store.

(* ================================================================= *)
(** ** app/tasks/crawler_tasks.py *)

Module Crawler.
Import Store.

(** One dictionary of the list returned by [scrape_news_list]. *)
Record item_data : Type := mk_item_data {
  title : pystr;
  url : option pystr;
  full_text : option pystr;
  publication_timestamp : option Time.datetime;
  category : option pystr;
  main_image_url : option pystr;
  position_on_page : string
}.

Record counters : Type := mk_counters {
  saved_count : Z;
  duplicate_count : Z;
  error_count : Z
}.

(** The row built at lines 50 to 60; the DateTime columns keep the
    wall-clock reading. *)
Definition new_news_item (agency_id now : Z) (it : item_data) (i : Z) (u : pystr)
  : NewsItem.t :=
  NewsItem.mk i agency_id (title it) u (full_text it)
              (option_map Time.wall (publication_timestamp it)) (Some now)
              (category it) (main_image_url it) (Some (position_on_page it)) false.

(** The loop body works on the three counters, which are local variables
    and keep what was counted before an exception, and on the world. *)
Definition locals : Type := (counters * world)%type.

Definition in_world {A} (m : st world A) : st locals A :=
  fun s => let (r, w') := m (snd s) in (r, (fst s, w')).

Definition count (f : counters -> counters) : st locals unit :=
  fun s => (Ok tt, (f (fst s), snd s)).

Definition count_saved (c : counters) : counters :=
  mk_counters (saved_count c + 1) (duplicate_count c) (error_count c).
Definition count_duplicate (c : counters) : counters :=
  mk_counters (saved_count c) (duplicate_count c + 1) (error_count c).
Definition count_error (c : counters) : counters :=
  mk_counters (saved_count c) (duplicate_count c) (error_count c + 1).

(** The body of the loop, lines 42 to 76. *)
Definition save_item_body (agency_id : Z) (it : item_data) : st locals unit :=
  st_try
    (existing_item <- in_world (query (fun d => first_by_url d (url it))) ;;
     match existing_item with
     | Some _ => count count_duplicate
     | None =>
         now <- in_world utcnow ;;
         i <- in_world (insert_news_item (new_news_item agency_id now it) (url it)) ;;
         _ <- in_world commit ;;
         _ <- count count_saved ;;
         in_world (delay (analyze_news_item_task i))
     end)%st
    (fun e =>
       match e with
       | IntegrityError => (_ <- in_world rollback ;; count count_duplicate)%st
       | _ => (_ <- in_world rollback ;; count count_error)%st
       end).

(** One turn of the loop, from the counters [c]. *)
Definition save_item (agency_id : Z) (it : item_data) (c : counters) : st world counters :=
  fun w =>
    match save_item_body agency_id it (c, w) with
    | (Ok _, (c', w')) => (Ok c', w')
    | (Raise e, (_, w')) => (Raise e, w')
    end.

(** Lines 37 to 76: the counters start at zero and the items are taken in
    order. *)
Fixpoint save_items (agency_id : Z) (news_items : list item_data) (c : counters)
  : st world counters :=
  match news_items with
  | [] => st_ret c
  | it :: rest => (c' <- save_item agency_id it c ;; save_items agency_id rest c')%st
  end.



(** The urls of the stored articles. *)
Definition urls (d : db) : list pystr := map NewsItem.url (news_items d).

(** The rows a loop step may add for [it]. *)
Definition row_of (agency_id : Z) (it : item_data) (x : NewsItem.t) : Prop :=
  NewsItem.agency_id x = agency_id /\ NewsItem.is_duplicate x = false /\
  url it = Some (NewsItem.url x) /\ NewsItem.title x = title it /\
  NewsItem.full_text x = full_text it /\
  NewsItem.position_on_page x = Some (position_on_page it).

Definition jobs_for (added : list NewsItem.t) : list task :=
  map (fun x => analyze_news_item_task (NewsItem.id x)) added.

(** The rows whose analysis job the broker accepts when the jobs of [added]
    are offered in order, the first of them as message number [n]. *)
Fixpoint accepted (broker : task -> nat -> bool) (n : nat) (added : list NewsItem.t)
  : list NewsItem.t :=
  match added with
  | [] => []
  | x :: rest =>
      if broker (analyze_news_item_task (NewsItem.id x)) n
      then x :: accepted broker (S n) rest
      else accepted broker (S n) rest
  end.

Definition other_tables_kept (d d' : db) : Prop :=
  news_agencies d' = news_agencies d /\ news_groups d' = news_groups d /\
  news_group_items d' = news_group_items d /\ analysis_results d' = analysis_results d.

(** *** Fixed inputs used by the examples *)

Definition url_a : pystr := [104; 116; 116; 112; 58; 47; 47; 97].
Definition sample_item (u : pystr) : item_data :=
  mk_item_data [110; 101; 119; 115] (Some u) None None None None "unknown".
Definition db_with_a : db :=
  mk_db [] [NewsItem.mk 1 1 [110; 101; 119; 115] url_a None None (Some 0) None None
                        (Some "unknown"%string) false] [] [] [].

(** *** Cleaning up *)

Record cleanup_result : Type := mk_cleanup_result {
  cleanup_status : string;
  deleted_count : option Z;
  (** the datetime whose ISO text is returned *)
  cutoff_date : option Z
}.

(** Line 174: [NewsItem.crawler_timestamp < cutoff_date]; a NULL compares
    with nothing. *)
Definition crawled_before (cutoff : Z) (x : NewsItem.t) : bool :=
  match NewsItem.crawler_timestamp x with
  | Some t => t <? cutoff
  | None => false
  end.

(** [db.session.delete(item)] for each of [old_items], flushed: the rows go,
    and with each its memberships and analysis results, which the
    relationships of lines 50 and 51 cascade to. *)
Definition delete_news_items (old_items : list NewsItem.t) (d : db) : db :=
  let deleted i := existsb (fun x => NewsItem.id x =? i) old_items in
  mk_db (news_agencies d)
        (filter (fun x => negb (deleted (NewsItem.id x))) (news_items d))
        (news_groups d)
        (filter (fun m => negb (deleted (NewsGroupItem.news_item_id m))) (news_group_items d))
        (filter (fun r => negb (deleted (AnalysisResult.news_item_id r))) (analysis_results d)).

(** [cleanup_old_news], lines 165 to 195. *)
Definition cleanup_old_news (days_to_keep : Z) : st world cleanup_result :=
  st_try
    (now <- utcnow ;;
     delta <- st_lift (Time.timedelta Time.usec_per_day days_to_keep) ;;
     cutoff_date <- st_lift (Time.sub_timedelta (Time.mk_datetime now None) delta) ;;
     old_items <- query (fun d => filter (crawled_before (Time.wall cutoff_date))
                                         (news_items d)) ;;
     d <- query (fun d => d) ;;
     _ <- write (delete_news_items old_items d) ;;
     _ <- commit ;;
     st_ret (mk_cleanup_result "success" (Some (Z.of_nat (List.length old_items)))
                               (Some (Time.wall cutoff_date))))%st
    (fun _ =>
       (_ <- rollback ;;
        st_ret (mk_cleanup_result "error" None None))%st).

(** Every membership and every analysis result belongs to a stored article. *)
Definition rows_have_articles (d : db) : Prop :=
  (forall m, In m (news_group_items d) ->
             exists x, In x (news_items d) /\ NewsItem.id x = NewsGroupItem.news_item_id m) /\
  (forall r, In r (analysis_results d) ->
             exists x, In x (news_items d) /\ NewsItem.id x = AnalysisResult.news_item_id r).

(** The cutoff of a clean-up started in [w]. *)
Definition cutoff_of (w : world) (days_to_keep : Z) : Z :=
  w_clock w (w_readings w) - Time.usec_per_day * days_to_keep.

(** A store with one article crawled at time 0, alone in its group. *)
Definition db_old_article : db :=
  mk_db [] [NewsItem.mk 1 1 [110; 101; 119; 115] url_a None None (Some 0) None None
                        (Some "unknown"%string) false]
        [NewsGroup.mk 1 [110; 101; 119; 115] (Some 0)]
        [NewsGroupItem.mk 1 1 1 (Some 1%float) (Some 0)] [].
(** Forty days after time 0. *)
Definition day_40 : clock_t := fun _ => 40 * Time.usec_per_day.

End Crawler.

(* ================================================================= *)
(** ** app/tasks/analysis_tasks.py *)

Module Analysis.
Import Store PyStr.

(** [float(n)] for an integer below 2^53 in magnitude, where it is exact. *)
Definition float_of_Z (z : Z) : float :=
  if z <? 0 then PrimFloat.opp (PrimFloat.of_uint63 (Uint63.of_Z (- z)))
  else PrimFloat.of_uint63 (Uint63.of_Z z).

(** [timedelta.total_seconds()]: the microseconds divided by 10**6.  Python
    rounds the exact quotient once; so does this for every span below 2^53
    microseconds (285 years), the range in which the integer converts
    without rounding. *)
Definition total_seconds (delta_usec : Z) : float :=
  PrimFloat.div (float_of_Z delta_usec) 1000000%float.

(** Line 251: [(t - first_time).total_seconds() / 60] *)
Definition time_diff (t first_time : Z) : float :=
  PrimFloat.div (total_seconds (t - first_time)) 60%float.

(** [numpy.argmax] on a one-dimensional float array: the first maximum, a NaN
    counting as the maximum; an empty array is an error. *)
Fixpoint argmax_from (mp : float) (max_ind i : nat) (l : list float) : nat :=
  match l with
  | [] => max_ind
  | x :: t =>
      if negb (PrimFloat.leb x mp)
      then (if PrimFloat.is_nan x then i else argmax_from x i (S i) t)
      else argmax_from mp max_ind (S i) t
  end.

Definition np_argmax (l : list float) : py nat :=
  match l with
  | [] => Raise ValueError
  | x :: t => if PrimFloat.is_nan x then Ok 0%nat else Ok (argmax_from x 0 1 t)
  end.

(** [seq[i]] *)
Definition index {A} (l : list A) (i : nat) : py A :=
  match nth_error l i with Some a => Ok a | None => Raise IndexError end.

(** The thresholds of lines 136 and 158.  The literal 0.9 denotes the
    nearest binary64 value, as it does in Python. *)
Definition similarity_threshold : float := 0.75%float.
Definition duplicate_threshold : float := 0.9%float.

(** [x >= y] on floats *)
Definition float_ge (x y : float) : bool := PrimFloat.leb y x.

Record result : Type := mk_result {
  status : string;
  group_id : option Z;
  similarity : option float;
  is_duplicate : option bool;
  max_similarity : option float;
  error : option exn
}.

Definition status_only (s : string) : result := mk_result s None None None None None.

Record speed_result : Type := mk_speed_result {
  speed_status : string;
  speed_group_id : option Z;
  speeds_calculated : option Z;
  message : option exn
}.

(** The rows of the join at lines 232 to 237 before ordering: the
    memberships of the group, each with the news items it refers to that
    have a publication time. *)
Definition joined_rows (d : db) (group_id : Z) : list (NewsItem.t * NewsGroupItem.t) :=
  flat_map
    (fun gi =>
       map (fun n => (n, gi))
           (filter (fun n => (NewsItem.id n =? NewsGroupItem.news_item_id gi) &&
                             match NewsItem.publication_timestamp n with
                             | Some _ => true
                             | None => false
                             end)
                   (news_items d)))
    (filter (fun gi => NewsGroupItem.news_group_id gi =? group_id) (news_group_items d)).

Definition time_key (row : NewsItem.t * NewsGroupItem.t) : Z :=
  match NewsItem.publication_timestamp (fst row) with Some t => t | None => 0 end.

(** [order_by(NewsItem.publication_timestamp.asc())].  SQL leaves the order
    of the joined rows and of rows with equal times to the engine; here the
    join follows the order of the tables and rows with equal times keep
    it. *)
Fixpoint insert_row (x : NewsItem.t * NewsGroupItem.t) (l : list (NewsItem.t * NewsGroupItem.t))
  : list (NewsItem.t * NewsGroupItem.t) :=
  match l with
  | [] => [x]
  | y :: t => if time_key x <=? time_key y then x :: l else y :: insert_row x t
  end.

Definition order_by_time (l : list (NewsItem.t * NewsGroupItem.t))
  : list (NewsItem.t * NewsGroupItem.t) :=
  fold_right insert_row [] l.

Definition group_items_query (d : db) (group_id : Z) : list (NewsItem.t * NewsGroupItem.t) :=
  order_by_time (joined_rows d group_id).

Definition speed_type : string := "speed_to_publish".

(** Lines 248 to 267: the loop over the rows after the first.  A query
    inside the loop flushes what was added before it, so an added result is
    seen by the queries that follow. *)
Fixpoint speed_loop (first_time : option Z) (rows : list (NewsItem.t * NewsGroupItem.t))
  (speeds : Z) : st world Z :=
  match rows with
  | [] => st_ret speeds
  | (news_item, _) :: rest =>
      match NewsItem.publication_timestamp news_item with
      | None => speed_loop first_time rest speeds
      | Some t =>
          (d <- st_lift (match first_time with
                         | Some f => Ok (time_diff t f)
                         | None => Raise TypeError
                         end) ;;
           existing_result <- query (fun s => first_result s (NewsItem.id news_item) speed_type) ;;
           match existing_result with
           | Some _ => speed_loop first_time rest speeds
           | None =>
               now <- utcnow ;;
               _ <- insert_analysis_result (NewsItem.id news_item) speed_type (FloatText d) now ;;
               speed_loop first_time rest (speeds + 1)
           end)%st
      end
  end.

(** [calculate_publication_speed], lines 223 to 279. *)
Definition calculate_publication_speed (group_id : Z) : st world speed_result :=
  st_try
    (group <- query (fun d => get_news_group d group_id) ;;
     match group with
     | None => st_ret (mk_speed_result "group_not_found" None None None)
     | Some _ =>
         group_items <- query (fun d => group_items_query d group_id) ;;
         if Z.of_nat (List.length group_items) <? 2
         then st_ret (mk_speed_result "insufficient_items" None None None)
         else
           match group_items with
           | [] => st_raise IndexError
           | (first_item, _) :: rest =>
               n <- speed_loop (NewsItem.publication_timestamp first_item) rest 0 ;;
               _ <- commit ;;
               st_ret (mk_speed_result "success" (Some group_id) (Some n) None)
           end
     end)%st
    (fun e => st_ret (mk_speed_result "error" None None (Some e))).

Section Tasks.

(** hazm: [Normalizer().normalize], [word_tokenize] and [stopwords_list()]. *)
Variable normalize : pystr -> py pystr.
Variable word_tokenize : pystr -> py (list pystr).
Variable persian_stopwords : list pystr.
(** scikit-learn, lines 126 to 130: the cosine similarities of the first
    text with each of the others, or an exception. *)
Variable tfidf_similarities : list pystr -> py (list float).
(** [self.request.retries] *)
Variable retries : Z.

(** [preprocess_persian_text], lines 18 to 39. *)
Definition preprocess_persian_text (text : pystr) : py pystr :=
  if negb (str_truthy text) then Ok []
  else
    try_except
      (normalized <- normalize text ;;
       tokens <- word_tokenize normalized ;;
       Ok (join_space
             (filter (fun token => (2 <? len token) &&
                                   negb (existsb (pystr_eqb token) persian_stopwords))
                     tokens)))%py
      (fun _ => Ok text).

(** [item.title + ' ' + (item.full_text or '')] *)
Definition text_of (item : NewsItem.t) : pystr :=
  NewsItem.title item ++ 32 ::
  match NewsItem.full_text item with Some t => t | None => [] end.

(** The filter of lines 63 to 67. *)
Definition is_recent (news_item : NewsItem.t) (week_ago : Z) (x : NewsItem.t) : bool :=
  negb (NewsItem.id x =? NewsItem.id news_item) &&
  match NewsItem.crawler_timestamp x with
  | Some c => week_ago <=? c
  | None => false
  end &&
  negb (NewsItem.is_duplicate x).

(** Lines 96 to 100: the candidates that have text, with their ids. *)
Fixpoint prepare (recent_items : list NewsItem.t) : py (list (pystr * Z)) :=
  match recent_items with
  | [] => Ok []
  | item :: rest =>
      (processed_text <- preprocess_persian_text (text_of item) ;;
       tail <- prepare rest ;;
       Ok (if str_truthy (strip processed_text)
           then (processed_text, NewsItem.id item) :: tail
           else tail))%py
  end.

(** The block the code repeats at lines 71 to 85, 104 to 117, 174 to 187
    and 198 to 211: a new group titled after the item, with the item as its
    member at score 1.0. *)
Definition new_group_for (news_item : NewsItem.t) : st world Z :=
  (now <- utcnow ;;
   g <- insert_news_group (NewsItem.title news_item) now ;;
   _ <- insert_group_item g (NewsItem.id news_item) 1%float None ;;
   _ <- commit ;;
   st_ret g)%st.

(** Lines 126 to 193: the body of the inner [try]. *)
Definition match_and_group (news_item : NewsItem.t) (texts : list pystr) (item_ids : list Z)
  : st world result :=
  (similarities <- st_lift (tfidf_similarities texts) ;;
   max_similarity_idx <- st_lift (np_argmax similarities) ;;
   max_similarity <- st_lift (index similarities max_similarity_idx) ;;
   let new_group :=
     (g <- new_group_for news_item ;;
      st_ret (mk_result "new_group" (Some g) None None (Some max_similarity) None)) in
   if float_ge max_similarity similarity_threshold then
     similar_item_id <- st_lift (index item_ids (max_similarity_idx + 1)) ;;
     _ <- query (fun d => get_news_item d similar_item_id) ;;
     existing_group_item <- query (fun d => first_group_item d similar_item_id) ;;
     match existing_group_item with
     | Some existing =>
         let dup := float_ge max_similarity duplicate_threshold in
         _ <- insert_group_item (NewsGroupItem.news_group_id existing) (NewsItem.id news_item)
                                max_similarity
                                (if dup then Some (NewsItem.mark_duplicate news_item) else None) ;;
         _ <- commit ;;
         _ <- delay (calculate_publication_speed_task (NewsGroupItem.news_group_id existing)) ;;
         st_ret (mk_result "added_to_group" (Some (NewsGroupItem.news_group_id existing))
                           (Some max_similarity)
                           (Some (if dup then true else NewsItem.is_duplicate news_item))
                           None None)
     | None => new_group
     end
   else new_group)%st.

(** [analyze_news_item], lines 41 to 221. *)
Definition analyze_news_item (news_item_id : Z) : st world result :=
  st_try
    (found <- query (fun d => get_news_item d news_item_id) ;;
     match found with
     | None => st_ret (status_only "not_found")
     | Some news_item =>
         if NewsItem.is_duplicate news_item then st_ret (status_only "already_duplicate")
         else
           item_text <- st_lift (preprocess_persian_text (text_of news_item)) ;;
           if negb (str_truthy (strip item_text)) then st_ret (status_only "no_text")
           else
             now <- utcnow ;;
             let week_ago := now - 7 * Time.usec_per_day in
             recent_items <- query (fun d => filter (is_recent news_item week_ago) (news_items d)) ;;
             match recent_items with
             | [] =>
                 g <- new_group_for news_item ;;
                 st_ret (mk_result "new_group" (Some g) None None None None)
             | _ :: _ =>
                 candidates <- st_lift (prepare recent_items) ;;
                 let texts := item_text :: map fst candidates in
                 let item_ids := NewsItem.id news_item :: map snd candidates in
                 if Z.of_nat (List.length texts) <? 2 then
                   g <- new_group_for news_item ;;
                   st_ret (mk_result "new_group" (Some g) None None None None)
                 else
                   st_try (match_and_group news_item texts item_ids)
                          (fun e =>
                             g <- new_group_for news_item ;;
                             st_ret (mk_result "new_group_fallback" (Some g) None None None (Some e)))
             end
     end)%st
    (fun _ => st_raise (retry retries (60 * 2 ^ retries))).

End Tasks.

(** *** Sentiment *)

(** Lines 294 to 302. *)
Definition positive_keywords : list pystr :=
  [[1605; 1608; 1601; 1602; 1740; 1578];
   [1662; 1740; 1585; 1608; 1586; 1740];
   [1582; 1608; 1576];
   [1593; 1575; 1604; 1740];
   [1576; 1607; 1578; 1585];
   [1662; 1740; 1588; 1585; 1601; 1578];
   [1578; 1608; 1587; 1593; 1607];
   [1585; 1588; 1583];
   [1575; 1601; 1586; 1575; 1740; 1588];
   [1576; 1607; 1576; 1608; 1583];
   [1605; 1579; 1576; 1578];
   [1575; 1605; 1740; 1583];
   [1582; 1608; 1588; 1581; 1575; 1604; 1740]].

Definition negative_keywords : list pystr :=
  [[1605; 1588; 1705; 1604];
   [1576; 1581; 1585; 1575; 1606];
   [1582; 1591; 1585];
   [1606; 1711; 1585; 1575; 1606; 1740];
   [1705; 1575; 1607; 1588];
   [1575; 1601; 1578];
   [1576; 1583];
   [1605; 1606; 1601; 1740];
   [1578; 1607; 1583; 1740; 1583];
   [1590; 1585; 1585];
   [1586; 1740; 1575; 1606];
   [1606; 1575; 1576; 1608; 1583; 1740];
   [1578; 1582; 1585; 1740; 1576];
   [1580; 1606; 1711];
   [1583; 1585; 1711; 1740; 1585; 1740]].

(** The dictionary of lines 327 to 332. *)
Record sentiment_data : Type := mk_sentiment_data {
  score : float;
  label : string;
  positive_words : Z;
  negative_words : Z
}.

Record sentiment_result : Type := mk_sentiment_result {
  sentiment_status : string;
  sentiment : option sentiment_data
}.

Definition sentiment_type : string := "sentiment".

(** [sum(1 for token in tokens if token in keywords)] *)
Definition count_in (keywords tokens : list pystr) : Z :=
  Z.of_nat (List.length (filter (fun token => existsb (pystr_eqb token) keywords) tokens)).

(** Lines 308 to 332.  The quotient of two integers is the exact quotient
    rounded once, which is what the division of the two floats gives for
    counts below 2^53. *)
Definition sentiment_of (tokens : list pystr) : sentiment_data :=
  let positive_score := count_in positive_keywords tokens in
  let negative_score := count_in negative_keywords tokens in
  let total_sentiment_words := positive_score + negative_score in
  let sentiment_score :=
    if 0 <? total_sentiment_words
    then PrimFloat.div (float_of_Z (positive_score - negative_score))
                       (float_of_Z total_sentiment_words)
    else 0%float in
  let sentiment_label :=
    if PrimFloat.ltb 0.2%float sentiment_score then "positive"%string
    else if PrimFloat.ltb sentiment_score (PrimFloat.opp 0.2%float) then "negative"%string
    else "neutral"%string in
  mk_sentiment_data sentiment_score sentiment_label positive_score negative_score.

(** Assigning [value] and [analysis_timestamp] of a stored result, lines 340
    and 341, as the flush writes it. *)
Definition update_analysis_result (existing : AnalysisResult.t) (v : stored_text)
  (timestamp : Z) : st world unit :=
  (d <- query (fun d => d) ;;
   write (mk_db (news_agencies d) (news_items d) (news_groups d) (news_group_items d)
                (map (fun r => if AnalysisResult.id r =? AnalysisResult.id existing
                               then AnalysisResult.mk (AnalysisResult.id r)
                                                      (AnalysisResult.news_item_id r)
                                                      (AnalysisResult.analysis_type r)
                                                      (Some v) (Some timestamp)
                               else r)
                     (analysis_results d))))%st.

Section Sentiment.

Variable normalize : pystr -> py pystr.
Variable word_tokenize : pystr -> py (list pystr).
Variable persian_stopwords : list pystr.
(** [json.dumps] of the dictionary. *)
Variable json_dumps : sentiment_data -> pystr.

(** Lines 305 and 306. *)
Definition sentiment_tokens (text : pystr) : py (list pystr) :=
  (processed_text <- preprocess_persian_text normalize word_tokenize persian_stopwords text ;;
   Ok (split processed_text))%py.

(** [analyze_sentiment], lines 281 to 360. *)
Definition analyze_sentiment (news_item_id : Z) : st world sentiment_result :=
  st_try
    (found <- query (fun d => get_news_item d news_item_id) ;;
     match found with
     | None => st_ret (mk_sentiment_result "not_found" None)
     | Some news_item =>
         let text := text_of news_item in
         if negb (str_truthy (strip text)) then st_ret (mk_sentiment_result "no_text" None)
         else
           tokens <- st_lift (sentiment_tokens text) ;;
           let sentiment_data := sentiment_of tokens in
           existing_result <- query (fun d => first_result d news_item_id sentiment_type) ;;
           _ <- match existing_result with
                | Some existing =>
                    now <- utcnow ;;
                    update_analysis_result existing (PlainText (json_dumps sentiment_data)) now
                | None =>
                    now <- utcnow ;;
                    insert_analysis_result news_item_id sentiment_type
                                           (PlainText (json_dumps sentiment_data)) now
                end ;;
           _ <- commit ;;
           st_ret (mk_sentiment_result "success" (Some sentiment_data))
     end)%st
    (fun _ => st_ret (mk_sentiment_result "error" None)).

End Sentiment.

(** *** Observations on the store used by the statements *)

(** The speed metrics among some analysis results that belong to article
    [i], and those recorded in the store. *)
Definition metrics_of (i : Z) (l : list AnalysisResult.t) : list AnalysisResult.t :=
  filter (fun r => (AnalysisResult.news_item_id r =? i) &&
                   String.eqb (AnalysisResult.analysis_type r) speed_type) l.

Definition speed_rows (d : db) (i : Z) : list AnalysisResult.t :=
  metrics_of i (analysis_results d).

(** The store with further analysis results. *)
Definition with_results (d : db) (added : list AnalysisResult.t) : db :=
  mk_db (news_agencies d) (news_items d) (news_groups d) (news_group_items d)
        (analysis_results d ++ added).

(** The publication time of the first row for article [i]. *)
Fixpoint first_time_of (i : Z) (rows : list (NewsItem.t * NewsGroupItem.t)) : option Z :=
  match rows with
  | [] => None
  | (n, _) :: rest =>
      match NewsItem.publication_timestamp n with
      | Some t => if NewsItem.id n =? i then Some t else first_time_of i rest
      | None => first_time_of i rest
      end
  end.

(** The members of a group with a publication time, and the speed metrics
    of the store that belong to one of them. *)
Definition timestamped_count (d : db) (g : Z) : Z :=
  Z.of_nat (List.length (group_items_query d g)).

Definition group_metric_count (d : db) (g : Z) : Z :=
  Z.of_nat (List.length
    (filter (fun r => String.eqb (AnalysisResult.analysis_type r) speed_type &&
                      existsb (fun row => NewsItem.id (fst row) =? AnalysisResult.news_item_id r)
                              (group_items_query d g))
            (analysis_results d))).

(** The memberships of an article. *)
Definition memberships_of (d : db) (i : Z) : list NewsGroupItem.t :=
  filter (fun x => NewsGroupItem.news_item_id x =? i) (news_group_items d).

(** Every membership refers to a stored group (the foreign key of line 111). *)
Definition groups_exist (d : db) : Prop :=
  forall gi, In gi (news_group_items d) ->
             In (NewsGroupItem.news_group_id gi) (map NewsGroup.id (news_groups d)).

(** The window of an analysis started in world [w]: the candidates with
    text among the articles of the last seven days. *)
Definition window (normalize : pystr -> py pystr) (word_tokenize : pystr -> py (list pystr))
  (persian_stopwords : list pystr) (w : world) (news_item : NewsItem.t)
  : py (list (pystr * Z)) :=
  prepare normalize word_tokenize persian_stopwords
          (filter (is_recent news_item (w_clock w (w_readings w) - 7 * Time.usec_per_day))
                  (news_items (w_view w))).

(** The world after one more reading of the clock. *)
Definition after_reading (w : world) : world :=
  mk_world (w_db w) (w_view w) (w_needs_rollback w) (w_clock w) (S (w_readings w)) (w_queue w) (w_broker w) (w_offered w).

(** The membership the analysis adds for [news_item] in world [w]. *)
Definition membership_added (w : world) (group_id : Z) (news_item : NewsItem.t) (score : float)
  (added_at : Z) : NewsGroupItem.t :=
  NewsGroupItem.mk (next_id (map NewsGroupItem.id (news_group_items (w_view w))))
                   group_id (NewsItem.id news_item) (Some score) (Some added_at).

(** The news items once [news_item] is flagged. *)
Definition flagged (news_item : NewsItem.t) (l : list NewsItem.t) : list NewsItem.t :=
  map (fun x => if NewsItem.id x =? NewsItem.id news_item
                then NewsItem.mark_duplicate news_item else x) l.

(** The store with a new group titled after [item] and [item] as its only
    member, at score 1.0. *)
Definition with_new_group (d : db) (item : NewsItem.t) (k t1 t2 : Z) : db :=
  mk_db (news_agencies d) (news_items d)
        (news_groups d ++
           [NewsGroup.mk (next_id (map NewsGroup.id (news_groups d)))
                         (NewsItem.title item) (Some t1)])
        (news_group_items d ++
           [NewsGroupItem.mk k (next_id (map NewsGroup.id (news_groups d)))
                             (NewsItem.id item) (Some 1%float) (Some t2)])
        (analysis_results d).

(** The store with one membership of [item] in the group of [existing], and
    with [item] flagged when the score reaches the duplicate threshold. *)
Definition with_membership (d : db) (item : NewsItem.t) (existing : NewsGroupItem.t)
  (score : float) (k t : Z) : db :=
  mk_db (news_agencies d)
        (if float_ge score duplicate_threshold then flagged item (news_items d)
         else news_items d)
        (news_groups d)
        (news_group_items d ++
           [NewsGroupItem.mk k (NewsGroupItem.news_group_id existing)
                             (NewsItem.id item) (Some score) (Some t)])
        (analysis_results d).

(** What one run of the analysis of article [i] can answer and have
    committed.  A status that skips the article commits nothing.
    [new_group] and [new_group_fallback] come with a new group titled after
    the article, the article being its only member.  [added_to_group] comes
    with one membership of the article in the group of an existing
    membership, at a score that reaches the grouping threshold, the article
    being flagged when the score reaches the duplicate threshold.
    [new_group_fallback] can also come with both, the membership and then
    the new group: that is the run in which the membership was committed and
    the broker then refused the speed calculation.  A run that raises has
    committed nothing, or the membership alone. *)
Inductive analysis_outcome (i : Z) (d : db) : py result -> db -> Prop :=
| outcome_skipped (res : result) :
    In (status res) ["not_found"; "already_duplicate"; "no_text"]%string ->
    analysis_outcome i d (Ok res) d
| outcome_new_group (res : result) (item : NewsItem.t) (k t1 t2 : Z) :
    In (status res) ["new_group"; "new_group_fallback"]%string ->
    get_news_item d i = Some item ->
    analysis_outcome i d (Ok res) (with_new_group d item k t1 t2)
| outcome_attached (res : result) (item : NewsItem.t) (existing : NewsGroupItem.t)
    (score : float) (k t : Z) :
    status res = "added_to_group"%string ->
    get_news_item d i = Some item ->
    In existing (news_group_items d) ->
    float_ge score similarity_threshold = true ->
    analysis_outcome i d (Ok res) (with_membership d item existing score k t)
| outcome_attached_and_founded (res : result) (item : NewsItem.t)
    (existing : NewsGroupItem.t) (score : float) (k t k' t1 t2 : Z) :
    status res = "new_group_fallback"%string ->
    get_news_item d i = Some item ->
    In existing (news_group_items d) ->
    float_ge score similarity_threshold = true ->
    analysis_outcome i d (Ok res)
      (with_new_group (with_membership d item existing score k t) item k' t1 t2)
| outcome_raised (e : exn) :
    analysis_outcome i d (Raise e) d
| outcome_raised_attached (e : exn) (item : NewsItem.t) (existing : NewsGroupItem.t)
    (score : float) (k t : Z) :
    get_news_item d i = Some item ->
    In existing (news_group_items d) ->
    float_ge score similarity_threshold = true ->
    analysis_outcome i d (Raise e) (with_membership d item existing score k t).

(** Every group has a member. *)
Definition groups_have_members (d : db) : Prop :=
  forall g, In g (news_groups d) ->
  exists m, In m (news_group_items d) /\ NewsGroupItem.news_group_id m = NewsGroup.id g.

(** The store with a new group for [news_item], founded at the second and
    the third clock reading of an analysis started in world [w]. *)
Definition group_founded (w : world) (news_item : NewsItem.t) : db :=
  let g := next_id (map NewsGroup.id (news_groups (w_db w))) in
  mk_db (news_agencies (w_db w)) (news_items (w_db w))
        (news_groups (w_db w) ++
           [NewsGroup.mk g (NewsItem.title news_item) (Some (w_clock w (S (w_readings w))))])
        (news_group_items (w_db w) ++
           [membership_added w g news_item 1%float (w_clock w (S (S (w_readings w))))])
        (analysis_results (w_db w)).

(** *** Fixed inputs used by the examples *)

(** Stand-ins for hazm: no normalisation, tokens split at spaces, no stop
    words. *)
Fixpoint split_spaces (cur : pystr) (s : pystr) : list pystr :=
  match s with
  | [] => match cur with [] => [] | _ => [rev cur] end
  | c :: t =>
      if is_space c
      then match cur with [] => split_spaces [] t | _ => rev cur :: split_spaces [] t end
      else split_spaces (c :: cur) t
  end.
Definition plain_normalize (s : pystr) : py pystr := Ok s.
Definition plain_tokenize (s : pystr) : py (list pystr) := Ok (split_spaces [] s).

(** A similarity engine that answers with the given scores. *)
Definition fixed_scores (l : list float) : list pystr -> py (list float) := fun _ => Ok l.

Definition minute : Z := Time.usec_per_minute.
Definition noon : Z := 1704097800 * Time.usec_per_second.
Definition noon_clock : clock_t := fun _ => noon.

Definition article (i : Z) (title : pystr) (published : option Z) (dup : bool) : NewsItem.t :=
  NewsItem.mk i 1 title (ascii_str "http://a/" ++ [48 + i]) None published (Some noon)
              None None (Some "unknown"%string) dup.

Definition headline : pystr := ascii_str "quake hits northern province".
Definition headline' : pystr := ascii_str "quake hits the northern province".

(** One article whose title is a single two-letter word. *)
Definition db_short_title : db :=
  mk_db [] [article 1 [1575; 1586] None false] [] [] [].

(** One article already flagged as a duplicate. *)
Definition db_flagged : db :=
  mk_db [] [article 1 headline None true] [] [] [].

(** Article 1 founded group 1; article 2 has just been ingested. *)
Definition db_pair : db :=
  mk_db [] [article 1 headline (Some noon) false; article 2 headline' (Some (noon + 47 * minute)) false]
        [NewsGroup.mk 1 headline (Some noon)]
        [NewsGroupItem.mk 1 1 1 (Some 1%float) (Some noon)] [].

(** Two articles, neither of them in a group yet. *)
Definition db_ungrouped : db :=
  mk_db [] [article 1 headline (Some noon) false; article 2 headline' (Some (noon + 47 * minute)) false]
        [] [] [].

(** Group 1 with two members published 47 minutes apart. *)
Definition db_group_47 : db :=
  mk_db [] [article 1 headline (Some noon) false; article 2 headline' (Some (noon + 47 * minute)) false]
        [NewsGroup.mk 1 headline (Some noon)]
        [NewsGroupItem.mk 1 1 1 (Some 1%float) (Some noon);
         NewsGroupItem.mk 2 1 2 (Some 0.8%float) (Some noon)] [].

(** Article 1 is a member of group 1 (with article 2) and of group 2 (with
    the earlier article 3). *)
Definition db_two_groups : db :=
  mk_db [] [article 1 headline (Some (noon + 10 * minute)) false;
            article 2 headline' (Some (noon + 20 * minute)) false;
            article 3 headline (Some noon) false]
        [NewsGroup.mk 1 headline (Some noon); NewsGroup.mk 2 headline (Some noon)]
        [NewsGroupItem.mk 1 1 1 (Some 1%float) (Some noon);
         NewsGroupItem.mk 2 1 2 (Some 0.8%float) (Some noon);
         NewsGroupItem.mk 3 2 3 (Some 1%float) (Some noon);
         NewsGroupItem.mk 4 2 1 (Some 0.8%float) (Some noon)] [].

(** One article and nothing else. *)
Definition db_single : db :=
  mk_db [] [article 1 headline (Some noon) false] [] [] [].

End Analysis.

(* ================================================================= *)
(** ** The periodic tasks: [crawl_all_agencies] (crawler_tasks.py) and
       [analyze_new_items] (analysis_tasks.py) *)

Module Scheduled.
Import Store.

(** The messages these tasks hand to the broker. *)
Inductive job : Type :=
| crawl_agency_job (agency_id : Z)
| analyze_news_item_job (news_item_id : Z)
| analyze_sentiment_job (news_item_id : Z).

(** What a periodic task works on: the store and the clock, the messages the
    broker has accepted, and the number of messages offered to it. *)
Record state : Type := mk_state {
  s_world : world;
  s_sent : list job;
  s_offered : nat
}.

Definition in_world {A} (m : st world A) : st state A :=
  fun s => let (r, w') := m (s_world s) in (r, mk_state w' (s_sent s) (s_offered s)).

Section Broker.

(** [task.delay(...)] for the [n]-th message offered: the id of the queued
    task, or the exception of a broker that cannot be reached. *)
Variable broker : job -> nat -> py pystr.

Definition delay (j : job) : st state pystr :=
  fun s =>
    match broker j (s_offered s) with
    | Ok task_id => (Ok task_id, mk_state (s_world s) (s_sent s ++ [j]) (S (s_offered s)))
    | Raise e => (Raise e, mk_state (s_world s) (s_sent s) (S (s_offered s)))
    end.

(** One dictionary of [results], lines 110 to 121 of crawler_tasks.py: the
    task id, or the exception whose text is kept under ['error']. *)
Record crawl_entry : Type := mk_crawl_entry {
  agency_id : Z;
  agency_name : pystr;
  task_id : py pystr
}.

Record crawl_all_result : Type := mk_crawl_all_result {
  crawl_status : string;
  agencies_count : option Z;
  crawl_tasks : option (list crawl_entry)
}.

(** Lines 106 to 121. *)
Fixpoint start_crawls (active_agencies : list NewsAgency.t) (results : list crawl_entry)
  : st state (list crawl_entry) :=
  match active_agencies with
  | [] => st_ret results
  | agency :: rest =>
      (entry <- st_try
                  (task_result <- delay (crawl_agency_job (NewsAgency.id agency)) ;;
                   st_ret (mk_crawl_entry (NewsAgency.id agency) (NewsAgency.name agency)
                                          (Ok task_result)))
                  (fun e => st_ret (mk_crawl_entry (NewsAgency.id agency)
                                                   (NewsAgency.name agency) (Raise e))) ;;
       start_crawls rest (results ++ [entry]))%st
  end.

(** [crawl_all_agencies], lines 95 to 132 of crawler_tasks.py. *)
Definition crawl_all_agencies : st state crawl_all_result :=
  st_try
    (active_agencies <- in_world (query (fun d => filter NewsAgency.is_active
                                                         (news_agencies d))) ;;
     match active_agencies with
     | [] => st_ret (mk_crawl_all_result "no_agencies" None None)
     | _ :: _ =>
         results <- start_crawls active_agencies [] ;;
         st_ret (mk_crawl_all_result "started"
                                     (Some (Z.of_nat (List.length active_agencies)))
                                     (Some results))
     end)%st
    (fun _ => st_ret (mk_crawl_all_result "error" None None)).

(** One dictionary of [results], lines 384 to 394 of analysis_tasks.py: the
    two task ids, or the exception whose text is kept under ['error']. *)
Record analysis_entry : Type := mk_analysis_entry {
  item_id : Z;
  task_ids : py (pystr * pystr)
}.

Record analyze_new_result : Type := mk_analyze_new_result {
  analyze_status : string;
  items_count : option Z;
  analyze_tasks : option (list analysis_entry)
}.

(** The filter of lines 367 to 371: no analysis result joins the article,
    and it was crawled at [since] or later; a NULL time compares with
    nothing. *)
Definition unanalyzed_since (d : db) (since : Z) (x : NewsItem.t) : bool :=
  negb (existsb (fun r => AnalysisResult.news_item_id r =? NewsItem.id x)
                (analysis_results d)) &&
  match NewsItem.crawler_timestamp x with
  | Some t => since <=? t
  | None => false
  end.

(** Lines 367 to 372; the rows come in the order of the table. *)
Definition unanalyzed_items_query (d : db) (since : Z) : list NewsItem.t :=
  firstn 100 (filter (unanalyzed_since d since) (news_items d)).

(** Lines 378 to 394. *)
Fixpoint start_analyses (unanalyzed_items : list NewsItem.t) (results : list analysis_entry)
  : st state (list analysis_entry) :=
  match unanalyzed_items with
  | [] => st_ret results
  | item :: rest =>
      (entry <- st_try
                  (analyze_task <- delay (analyze_news_item_job (NewsItem.id item)) ;;
                   sentiment_task <- delay (analyze_sentiment_job (NewsItem.id item)) ;;
                   st_ret (mk_analysis_entry (NewsItem.id item)
                                             (Ok (analyze_task, sentiment_task))))
                  (fun e => st_ret (mk_analysis_entry (NewsItem.id item) (Raise e))) ;;
       start_analyses rest (results ++ [entry]))%st
  end.

(** [analyze_new_items], lines 362 to 404 of analysis_tasks.py. *)
Definition analyze_new_items : st state analyze_new_result :=
  st_try
    (now <- in_world utcnow ;;
     delta <- st_lift (Time.timedelta Time.usec_per_hour 24) ;;
     since <- st_lift (Time.sub_timedelta (Time.mk_datetime now None) delta) ;;
     unanalyzed_items <- in_world (query (fun d => unanalyzed_items_query d (Time.wall since))) ;;
     match unanalyzed_items with
     | [] => st_ret (mk_analyze_new_result "no_items" None None)
     | _ :: _ =>
         results <- start_analyses unanalyzed_items [] ;;
         st_ret (mk_analyze_new_result "started"
                                       (Some (Z.of_nat (List.length unanalyzed_items)))
                                       (Some results))
     end)%st
    (fun _ => st_ret (mk_analyze_new_result "error" None None)).

End Broker.

(** The crawl jobs accepted, as the entries of a result list them. *)
Definition accepted_crawls (entries : list crawl_entry) : list job :=
  flat_map (fun e => match task_id e with
                     | Ok _ => [crawl_agency_job (agency_id e)]
                     | Raise _ => []
                     end) entries.

(** The analysis jobs accepted for one article, as its entry shows them, and
    the jobs that a list of articles can have had accepted. *)
Definition job_item (j : job) : option Z :=
  match j with
  | crawl_agency_job _ => None
  | analyze_news_item_job i => Some i
  | analyze_sentiment_job i => Some i
  end.

(** An article that the query of [analyze_new_items] selects. *)
Definition eligible (d : db) (since : Z) (i : Z) : Prop :=
  exists x, In x (news_items d) /\ NewsItem.id x = i /\ unanalyzed_since d since x = true.

(** A periodic task starts with nothing sent. *)
Definition initial_state (w : world) : state := mk_state w [] 0%nat.

(** A broker that accepts every message and numbers the tasks. *)
Definition broker_up : job -> nat -> py pystr := fun _ n => Ok [Z.of_nat n].
(** A broker that cannot be reached. *)
Definition broker_down : job -> nat -> py pystr := fun _ _ => Raise (LibraryError 0).

Definition db_agencies : db :=
  mk_db [NewsAgency.mk 1 [97] [99] true; NewsAgency.mk 2 [98] [99] false;
         NewsAgency.mk 3 [100] [99] true] [] [] [] [].

End Scheduled.

(* ================================================================= *)
(** ** app/scrapers/generic_scraper.py: the listing *)

Module Listing.
Import Time PyStr Scraper.

(** The dictionary under ['news_item_selectors']; [None] is a key that is
    not there. *)
Record selectors : Type := mk_selectors {
  sel_title : option pystr;
  sel_url : option pystr;
  sel_category : option pystr;
  sel_main_image : option pystr;
  sel_publication_timestamp : option pystr;
  sel_full_text : option pystr
}.

(** [self.config] for a file whose values have the types the scraper
    expects: strings, and a dictionary of strings for the selectors. *)
Record config : Type := mk_config {
  base_url : option pystr;
  name : option pystr;
  news_list_selector : option pystr;
  news_item_selectors : option selectors
}.

(** [is_valid_config], lines 251 to 254. *)
Definition is_valid_config (c : config) : bool :=
  match name c, base_url c, news_item_selectors c with
  | Some _, Some _, Some _ => true
  | _, _, _ => false
  end.

(** What a scrape works on: the number of requests sent and the number of
    clock readings taken. *)
Record net : Type := mk_net {
  requests : nat;
  readings : nat
}.

Definition sending {A} (m : st nat A) : st net A :=
  fun s => let (r, n) := m (requests s) in (r, mk_net n (readings s)).

Definition timing {A} (m : io A) : st net A :=
  fun s => let (r, k) := m (readings s) in (r, mk_net (requests s) k).

(** An [except Exception] that answers [None]. *)
Definition or_none {A} (m : py (option A)) : option A :=
  match m with Ok r => r | Raise _ => None end.

(** A list comprehension over calls that can raise. *)
Fixpoint map_py {A B} (f : A -> py B) (l : list A) : py (list B) :=
  match l with
  | [] => Ok []
  | x :: t => (y <- f x ;; ys <- map_py f t ;; Ok (y :: ys))%py
  end.

Definition href : pystr := [104; 114; 101; 102].
Definition src : pystr := [115; 114; 99].

Section Scrape.

Variable response : Type.
Variable session_get : pystr -> nat -> py response.
Variable is_request_exception : exn -> bool.
(** [bool(response)]: [Response.__bool__] is [response.ok]. *)
Variable response_ok : response -> bool.
(** [BeautifulSoup(response.content, 'html.parser')] *)
Variable BeautifulSoup : response -> py node.
(** bs4: [tag.select(selector)], [tag.select_one(selector)],
    [tag.get_text(strip=True)] and [tag.get(attribute)] for the string-valued
    attributes [href] and [src]. *)
Variable select : node -> pystr -> py (list node).
Variable select_one : node -> pystr -> py (option node).
Variable get_text : node -> py pystr.
Variable get : node -> pystr -> py (option pystr).
(** [urllib.parse.urljoin] *)
Variable urljoin : pystr -> pystr -> py pystr.
Variable date_parser_parse : pystr -> py datetime.
Variable int_max_str_digits : Z.
Variable tehran_tz : tz_rules.
Variable clock : clock_t.
Variable cfg : config.

(** [GenericScraper._extract_text], lines 48 to 59. *)
Definition _extract_text (soup : node) (selector : option pystr) : option pystr :=
  match selector with
  | None => None
  | Some selector =>
      if negb (str_truthy selector) then None
      else
        or_none
          (element <- select_one soup selector ;;
           match element with
           | Some element => (text <- get_text element ;; Ok (Some text))
           | None => Ok None
           end)%py
  end.

(** [GenericScraper._extract_attribute], lines 61 to 72. *)
Definition _extract_attribute (soup : node) (selector : option pystr) (attribute : pystr)
  : option pystr :=
  match selector with
  | None => None
  | Some selector =>
      if negb (str_truthy selector) then None
      else
        or_none
          (element <- select_one soup selector ;;
           match element with
           | Some element => get element attribute
           | None => Ok None
           end)%py
  end.

(** [GenericScraper._extract_full_text], lines 226 to 245. *)
Definition _extract_full_text (url full_text_selector : pystr) : st net (option pystr) :=
  st_try
    (response <- sending (_make_request response session_get is_request_exception url 3) ;;
     match response with
     | None => st_ret None
     | Some response =>
         if negb (response_ok response) then st_ret None
         else
           soup <- st_lift (BeautifulSoup response) ;;
           full_text_elements <- st_lift (select soup full_text_selector) ;;
           match full_text_elements with
           | [] => st_ret None
           | _ :: _ =>
               texts <- st_lift (map_py get_text full_text_elements) ;;
               st_ret (Some (join_space texts))
           end
     end)%st
    (fun _ => st_ret None).

(** Lines 182 and 183, and 188 and 189: [if url: url = urljoin(base_url, url)] *)
Definition join_url (base_url : pystr) (url : option pystr) : py (option pystr) :=
  match url with
  | Some u => if str_truthy u then (joined <- urljoin base_url u ;; Ok (Some joined))%py
              else Ok (Some u)
  | None => Ok None
  end.

(** [selectors = self.config.get('news_item_selectors', {})] *)
Definition the_selectors : selectors :=
  match news_item_selectors cfg with
  | Some s => s
  | None => mk_selectors None None None None None None
  end.

(** The body of the loop, lines 174 to 217: the dictionary that is
    appended, or [None] when the element is passed over. *)
Definition scrape_element (base_url : pystr) (soup element : node)
  : st net (option Crawler.item_data) :=
  st_try
    (match _extract_text element (sel_title the_selectors) with
     | None => st_ret None
     | Some title =>
         if negb (str_truthy title) then st_ret None
         else
           url <- st_lift (join_url base_url
                             (_extract_attribute element (sel_url the_selectors) href)) ;;
           let category := _extract_text element (sel_category the_selectors) in
           main_image <- st_lift (join_url base_url
                                    (_extract_attribute element (sel_main_image the_selectors)
                                                        src)) ;;
           let pub_time_text :=
             _extract_text element (sel_publication_timestamp the_selectors) in
           publication_timestamp <-
             timing (_parse_date date_parser_parse int_max_str_digits tehran_tz clock
                                 pub_time_text) ;;
           position <-
             st_lift (_determine_position element
                        (select soup (match news_list_selector cfg with
                                      | Some s => s
                                      | None => []
                                      end))) ;;
           full_text <-
             match url, sel_full_text the_selectors with
             | Some u, Some s =>
                 if str_truthy u && str_truthy s then _extract_full_text u s
                 else st_ret None
             | _, _ => st_ret None
             end ;;
           st_ret (Some (Crawler.mk_item_data title url full_text publication_timestamp
                                              category main_image position))
     end)%st
    (fun _ => st_ret None).

(** Lines 173 to 217. *)
Fixpoint scrape_elements (base_url : pystr) (soup : node) (news_elements : list node)
  (news_items : list Crawler.item_data) : st net (list Crawler.item_data) :=
  match news_elements with
  | [] => st_ret news_items
  | element :: rest =>
      (item <- scrape_element base_url soup element ;;
       scrape_elements base_url soup rest
                       (match item with
                        | Some news_item => news_items ++ [news_item]
                        | None => news_items
                        end))%st
  end.

(** [GenericScraper.scrape_news_list], lines 153 to 224.  A missing
    ['base_url'] or ['name'] is a [KeyError] at line 156 or 219, which line
    222 catches. *)
Definition scrape_news_list : st net (list Crawler.item_data) :=
  st_try
    (match base_url cfg with
     | None => st_ret []
     | Some base_url =>
         response <- sending (_make_request response session_get is_request_exception
                                            base_url 3) ;;
         match response with
         | None => st_ret []
         | Some response =>
             if negb (response_ok response) then st_ret []
             else
               soup <- st_lift (BeautifulSoup response) ;;
               news_elements <-
                 match news_list_selector cfg with
                 | Some s => if str_truthy s then st_lift (select soup s) else st_ret [soup]
                 | None => st_ret [soup]
                 end ;;
               news_items <- scrape_elements base_url soup news_elements [] ;;
               match name cfg with
               | Some _ => st_ret news_items
               | None => st_ret []
               end
         end
     end)%st
    (fun _ => st_ret []).

End Scrape.

(** What every returned dictionary satisfies. *)
Definition well_formed (it : Crawler.item_data) : Prop :=
  Crawler.title it <> [] /\
  In (Crawler.position_on_page it)
     ["unknown"; "homepage_top"; "homepage_middle"; "homepage_bottom"]%string /\
  (forall t, Crawler.full_text it = Some t ->
             exists u, Crawler.url it = Some u /\ u <> []).

(** A site that cannot be reached, and a configuration for it. *)
Definition unreachable : pystr -> nat -> py unit := fun _ _ => Raise (LibraryError 0).
Definition any_request_exception : exn -> bool := fun _ => true.
Definition sample_config : config :=
  mk_config (Some [104; 116; 116; 112; 58; 47; 47; 97]) (Some [97]) None
            (Some (mk_selectors (Some [97]) (Some [97]) None None None None)).

End Listing.

(* ================================================================= *)
(** * Properties of the scraper helpers *)

Module ScraperProps.
Import Time PyStr Scraper.

Lemma astimezone_utc_is_utc (d d' : datetime) :
  astimezone_utc d = Ok d' -> is_utc d'.
Proof.
  unfold astimezone_utc.
  destruct (utcoffset d) as [off|]; [|discriminate].
  destruct (in_range (wall d - off)); [|discriminate].
  intros H. injection H as <-. reflexivity.
Qed.

(** The global [timedelta] is not bound in the module. *)
Lemma timedelta_unbound : load_global "timedelta" = Raise (NameError "timedelta").
Proof. reflexivity. Qed.

Section ParseDateFacts.

Variable date_parser_parse : pystr -> py datetime.
Variable int_max_str_digits : Z.
Variable tehran_tz : tz_rules.
Variable clock : clock_t.

Let relative_body := relative_body int_max_str_digits tehran_tz clock.
Let relative_loop := relative_loop int_max_str_digits tehran_tz clock.
Let _parse_date := _parse_date date_parser_parse int_max_str_digits tehran_tz clock.

(** Whatever the unit, the body run on a match raises: at [int] for an
    overlong run of digits, before the clock is read, and otherwise at the
    lookup of [timedelta], after one reading. *)
Lemma relative_body_raises (unit : string) (digits : pystr) (k : nat) :
  exists e k', relative_body unit digits k = (Raise e, k') /\ (k' = k \/ k' = S k).
Proof.
  unfold relative_body, Scraper.relative_body, st_bind, read_clock, st_lift.
  destruct (py_int int_max_str_digits digits) as [value|e].
  - rewrite timedelta_unbound. cbn [py_bind].
    destruct (String.eqb unit "minutes"); [do 2 eexists; split; [reflexivity|right; reflexivity]|].
    destruct (String.eqb unit "hours"); [do 2 eexists; split; [reflexivity|right; reflexivity]|].
    destruct (String.eqb unit "days"); do 2 eexists; (split; [reflexivity|right; reflexivity]).
  - do 2 eexists. split; [reflexivity|left; reflexivity].
Qed.

(** With digits within the limit of [int], the failure is the unbound
    name. *)
Lemma relative_body_name_error (unit : string) (digits : pystr) (k : nat) :
  In unit ["minutes"; "hours"; "days"]%string ->
  py_int int_max_str_digits digits = Ok (int_of_digits digits) ->
  relative_body unit digits k = (Raise (NameError "timedelta"), S k).
Proof.
  intros Hu Hint.
  unfold relative_body, Scraper.relative_body, st_bind, read_clock, st_lift.
  rewrite Hint, timedelta_unbound. cbn [py_bind].
  destruct Hu as [<-|[<-|[<-|[]]]]; reflexivity.
Qed.

(** The loop over the patterns either raises or falls through to the
    current UTC time. *)
Lemma relative_loop_outcome (patterns : list (pystr * string)) (s : pystr) (k : nat) :
  (exists e k', relative_loop patterns s k = (Raise e, k') /\ (k' = k \/ k' = S k)) \/
  relative_loop patterns s k = (Ok (utc_datetime (clock k)), S k).
Proof.
  induction patterns as [|[word unit] rest IH]; cbn.
  - right. reflexivity.
  - destruct (re_search word word_ago s) as [digits|].
    + left. apply relative_body_raises.
    + exact IH.
Qed.

(** A string without [T] and [-] in which one of the relative patterns
    matches is normalised to the time of the handler's clock reading: the
    amount read from the string plays no part. *)
Lemma relative_phrase_gives_now (raw : pystr) (k : nat) :
  raw <> [] ->
  contains 84 (strip raw) || contains 45 (strip raw) = false ->
  (exists word unit, In (word, unit) relative_patterns /\
                     re_search word word_ago (strip raw) <> None) ->
  exists k', (k' = k \/ k' = S k) /\
             _parse_date (Some raw) k = (Ok (Some (utc_datetime (clock k'))), S k').
Proof.
  intros Hraw Habs Hm.
  unfold _parse_date, Scraper._parse_date.
  destruct raw as [|c t]; [congruence|]. cbn [str_truthy negb].
  unfold st_bind, st_try. rewrite Habs.
  assert (Hr : exists e k', Scraper.relative_loop int_max_str_digits tehran_tz clock
                              relative_patterns (strip (c :: t)) k = (Raise e, k') /\
                            (k' = k \/ k' = S k)).
  { destruct Hm as (word & unit & Hin & Hs).
    unfold relative_patterns in *. cbn [Scraper.relative_loop].
    destruct Hin as [E|[E|[E|[]]]]; injection E as <- <-.
    - destruct (re_search word_minute word_ago (strip (c :: t))); [|congruence].
      apply relative_body_raises.
    - destruct (re_search word_minute word_ago (strip (c :: t))); [apply relative_body_raises|].
      destruct (re_search word_hour word_ago (strip (c :: t))); [|congruence].
      apply relative_body_raises.
    - destruct (re_search word_minute word_ago (strip (c :: t))); [apply relative_body_raises|].
      destruct (re_search word_hour word_ago (strip (c :: t))); [apply relative_body_raises|].
      destruct (re_search word_day word_ago (strip (c :: t))); [|congruence].
      apply relative_body_raises. }
  destruct Hr as (e & k' & Hr & Hk). rewrite Hr. exists k'. split; [exact Hk|reflexivity].
Qed.

(** C4 (as amended): normalisation never raises; [None] and the empty string
    give [None], every other string gives an aware datetime in UTC; when the
    machine-readable branch fails, or no pattern applies, the value is the
    current UTC time, and no confidence flag is returned with it. *)
Theorem parse_date_never_raises (date_string : option pystr) (k : nat) :
  exists r k',
    _parse_date date_string k = (Ok r, k') /\
    match date_string with
    | None | Some [] => r = None
    | Some (_ :: _) => exists d, r = Some d /\ is_utc d
    end /\
    (forall raw e, date_string = Some raw -> raw <> [] ->
       contains 84 (strip raw) || contains 45 (strip raw) = true ->
       parse_absolute date_parser_parse tehran_tz (strip raw) = Raise e ->
       r = Some (utc_datetime (clock k))) /\
    (forall raw, date_string = Some raw -> raw <> [] ->
       contains 84 (strip raw) || contains 45 (strip raw) = false ->
       (forall word unit, In (word, unit) relative_patterns ->
                          re_search word word_ago (strip raw) = None) ->
       r = Some (utc_datetime (clock k))).
Proof.
  destruct date_string as [[|c t]|].
  - exists None, k. split; [reflexivity|]. split; [reflexivity|].
    split; intros; congruence.
  - unfold _parse_date, Scraper._parse_date. cbn [str_truthy negb].
    unfold st_bind, st_try.
    set (s := strip (c :: t)).
    destruct (contains 84 s || contains 45 s) eqn:Habs.
    + unfold st_lift.
      destruct (parse_absolute date_parser_parse tehran_tz s) as [d|e] eqn:Hp.
      * exists (Some d), k. split; [reflexivity|]. split; [|split].
        -- exists d. split; [reflexivity|].
           unfold parse_absolute, py_bind in Hp.
           destruct (date_parser_parse s) as [p|]; [|discriminate].
           destruct (utcoffset p).
           ++ eapply astimezone_utc_is_utc; eassumption.
           ++ destruct (localize tehran_tz (wall p)); [|discriminate].
              eapply astimezone_utc_is_utc; eassumption.
        -- intros raw e0 E _ _ Hr. injection E as <-. fold s in Hr. congruence.
        -- intros raw E _ Hc. injection E as <-. fold s in Hc. congruence.
      * exists (Some (utc_datetime (clock k))), (S k).
        split; [reflexivity|]. split; [|split].
        -- eexists. split; reflexivity.
        -- intros; reflexivity.
        -- intros; reflexivity.
    + destruct (relative_loop_outcome relative_patterns s k) as [(e & k1 & Hr & _)|Hr];
        unfold relative_loop in Hr; rewrite Hr.
      * exists (Some (utc_datetime (clock k1))), (S k1).
        split; [reflexivity|]. split; [|split].
        -- eexists. split; reflexivity.
        -- intros raw e0 E _ Hc. injection E as <-. fold s in Hc. congruence.
        -- intros raw E _ _ Hnone. injection E as <-. fold s in Hnone. exfalso.
           unfold relative_patterns in *. cbn [Scraper.relative_loop] in Hr.
           rewrite (Hnone word_minute "minutes"%string) in Hr by (cbn; auto).
           rewrite (Hnone word_hour "hours"%string) in Hr by (cbn; auto).
           rewrite (Hnone word_day "days"%string) in Hr by (cbn; auto).
           discriminate.
      * exists (Some (utc_datetime (clock k))), (S k).
        split; [reflexivity|]. split; [|split].
        -- eexists. split; reflexivity.
        -- intros; reflexivity.
        -- intros; reflexivity.
  - exists None, k. split; [reflexivity|]. split; [reflexivity|].
    split; intros; congruence.
Qed.

End ParseDateFacts.

(** C4, the claim as stated: the empty string is not given a UTC instant. *)
Lemma parse_date_empty_is_none :
  parse_date_result parser_rejects 4300 tehran_fixed frozen_clock (Some []) = Ok None /\
  ~ (exists d, parse_date_result parser_rejects 4300 tehran_fixed frozen_clock (Some [])
               = Ok (Some d)).
Proof.
  split; [reflexivity|]. intros [d H]. vm_compute in H. discriminate.
Qed.

(** C1: at the reference instant 2024-01-01T12:00:00+03:30 the phrase for
    "2 hours ago" is normalised to 08:30:00Z, the reference instant itself,
    and not to 06:30:00Z, the instant two hours before it. *)
Theorem two_hours_ago_gives_now (date_parser_parse : pystr -> py datetime) :
  parse_date_result date_parser_parse 4300 tehran_fixed frozen_clock (Some two_hours_ago)
    = Ok (Some (utc_datetime (1704097800 * usec_per_second))) /\
  relative_instant reference_instant usec_per_hour 2
    = utc_datetime (1704090600 * usec_per_second) /\
  parse_date_result date_parser_parse 4300 tehran_fixed frozen_clock (Some two_hours_ago)
    <> Ok (Some (relative_instant reference_instant usec_per_hour 2)).
Proof.
  assert (E : parse_date_result date_parser_parse 4300 tehran_fixed frozen_clock (Some two_hours_ago)
              = Ok (Some (utc_datetime (1704097800 * usec_per_second))))
    by (vm_compute; reflexivity).
  split; [exact E|]. split; [vm_compute; reflexivity|].
  rewrite E. vm_compute. discriminate.
Qed.

(** *** The position on the page *)

(** An induction principle that reaches the children of a tag. *)
Lemma node_rect_children (P : node -> Prop) :
  (forall name attrs cs, Forall P cs -> P (Tag name attrs cs)) ->
  (forall text, P (NavigableString text)) ->
  forall n, P n.
Proof.
  intros Htag Hstr.
  fix IH 1. intros [name attrs cs|text]; [|apply Hstr].
  apply Htag. induction cs as [|c cs IHcs]; constructor; [apply IH|exact IHcs].
Qed.

(** Equal trees have the same number of nodes. *)
Lemma node_eqb_size (a : node) : forall b, node_eqb a b = true -> size a = size b.
Proof.
  induction a as [name attrs cs IH|text] using node_rect_children;
    intros [name' attrs' cs'|text']; cbn [node_eqb]; try discriminate; [|reflexivity].
  intros H. apply andb_true_iff in H as [H Hall].
  apply andb_true_iff in H as [_ Hlen]. apply Z.eqb_eq in Hlen.
  apply Nat2Z.inj in Hlen.
  cbn [size]. f_equal. revert cs' Hall Hlen.
  induction IH as [|c cs Hc _ IHcs]; intros [|c' cs'] Hall Hlen; try discriminate.
  - reflexivity.
  - apply andb_true_iff in Hall as [Hcc Hall].
    rewrite (Hc _ Hcc). f_equal. apply IHcs; [exact Hall|].
    cbn in Hlen. congruence.
Qed.

(** Everything below a node is smaller than the node. *)
Lemma descendants_smaller (n : node) : forall d, In d (descendants n) -> (size d < size n)%nat.
Proof.
  induction n as [name attrs cs IH|text] using node_rect_children; [|intros d []].
  cbn [descendants size].
  induction IH as [|c cs Hc _ IHcs]; intros d Hd; [destruct Hd|].
  apply in_app_or in Hd. destruct Hd as [[<-|Hd]|Hd].
  - lia.
  - specialize (Hc _ Hd). lia.
  - specialize (IHcs _ Hd). lia.
Qed.

(** An element is never found below itself: the search of lines 135 to 138
    can only find it below another listed element. *)
Lemma not_in_own_find_all (n : node) : element_in n (find_all n) = false.
Proof.
  unfold element_in. apply not_true_is_false. intros H.
  apply existsb_exists in H as (d & Hd & He).
  unfold find_all in Hd. apply filter_In in Hd as [Hd _].
  apply descendants_smaller in Hd. apply node_eqb_size in He. lia.
Qed.

Lemma find_element_index_none (element : node) (all_news : list node) (i : Z) :
  (forall c, In c all_news -> element_in element (find_all c) = false) ->
  find_element_index element all_news i = -1.
Proof.
  revert i. induction all_news as [|c rest IH]; intros i H; [reflexivity|].
  cbn [find_element_index]. rewrite (H c) by (left; reflexivity).
  apply IH. intros c' Hc'. apply H. right. exact Hc'.
Qed.

(** In a listing where no candidate holds a copy of a candidate below it,
    every candidate is given the position "unknown", whatever its index. *)
Lemma unnested_listing_unknown (news_elements : list node) :
  (forall c c', In c news_elements -> In c' news_elements ->
                element_in c' (find_all c) = false) ->
  Forall (fun r => r = Ok "unknown"%string) (candidate_positions news_elements).
Proof.
  intros H. unfold candidate_positions. apply Forall_forall. intros r Hr.
  apply in_map_iff in Hr as (element & <- & Hin).
  unfold _determine_position. cbn [py_bind try_except].
  destruct news_elements as [|c0 rest]; [destruct Hin|].
  rewrite find_element_index_none; [reflexivity|].
  intros c Hc. apply H; assumption.
Qed.

(** Once an index has been found, the label is the one of the ordinal
    classes. *)
Lemma position_of_index_ordinal (i n : Z) :
  0 <= i -> position_of_index i n = ordinal_class i n.
Proof.
  intros Hi. unfold position_of_index, ordinal_class.
  destruct (i =? -1) eqn:E; [apply Z.eqb_eq in E; lia|reflexivity].
Qed.

(** C7: in a listing of four sibling candidates the first candidate, at index
    0, is given "unknown" and not the top class; so is every other
    candidate. *)
Theorem flat_listing_positions :
  _determine_position (li_item 0) (Ok flat_listing) = Ok "unknown"%string /\
  ordinal_class 0 4 = "homepage_top"%string /\
  candidate_positions flat_listing
    = [Ok "unknown"; Ok "unknown"; Ok "unknown"; Ok "unknown"]%string.
Proof. repeat split. Qed.

(** *** The matcher against the pattern it stands for *)

Lemma space_is_no_digit (c : Z) : is_space c = true -> is_digit c = false.
Proof.
  unfold is_space. intros H.
  assert (Hc : (9 <= c <= 13) \/ (28 <= c <= 32) \/ c = 133 \/ c = 160 \/ c = 5760 \/
               (8192 <= c <= 8202) \/ c = 8232 \/ c = 8233 \/ c = 8239 \/ c = 8287 \/
               c = 12288).
  { repeat (apply orb_true_iff in H as [H|H]);
      repeat match goal with
             | H : _ && _ = true |- _ => apply andb_true_iff in H as [? ?]
             | H : (_ <=? _) = true |- _ => apply Z.leb_le in H
             | H : (_ =? _) = true |- _ => apply Z.eqb_eq in H
             end; lia. }
  assert (Hlist : In c [9; 10; 11; 12; 13; 28; 29; 30; 31; 32; 133; 160; 5760;
                        8192; 8193; 8194; 8195; 8196; 8197; 8198; 8199; 8200; 8201; 8202;
                        8232; 8233; 8239; 8287; 12288]).
  { cbn [In]. lia. }
  clear H Hc. cbn [In] in Hlist.
  repeat (destruct Hlist as [<-|Hlist]; [vm_compute; reflexivity|]). destruct Hlist.
Qed.

Lemma take_while_app (p : Z -> bool) (a b : pystr) :
  forallb p a = true -> match b with [] => True | c :: _ => p c = false end ->
  take_while p (a ++ b) = a /\ drop_while p (a ++ b) = b.
Proof.
  intros Ha Hb. induction a as [|x a IH]; cbn [app take_while drop_while forallb] in *.
  - destruct b as [|c b]; [split; reflexivity|]. cbn [take_while drop_while]. rewrite Hb.
    split; reflexivity.
  - apply andb_true_iff in Ha as [Hx Ha]. rewrite Hx. destruct (IH Ha) as [-> ->].
    split; reflexivity.
Qed.

Lemma strip_prefix_app (w rest : pystr) : strip_prefix w (w ++ rest) = Some rest.
Proof.
  induction w as [|a w IH]; [destruct rest; reflexivity|].
  cbn [app strip_prefix]. rewrite Z.eqb_refl. exact IH.
Qed.

(** Completeness of the greedy matcher: whenever the subject starts with a
    run of digits, spaces, the word, spaces and the closing word, in any
    splitting, [match_here] succeeds and its group is that run of digits; the
    word opens with a character that is neither a digit nor a space, and the
    closing word with one that is not a space. *)
Lemma match_here_complete (word ago digits sp1 sp2 rest : pystr) (cw ca : Z)
  (word' ago' : pystr) :
  word = cw :: word' -> is_digit cw = false -> is_space cw = false ->
  ago = ca :: ago' -> is_space ca = false ->
  digits <> [] ->
  forallb is_digit digits = true ->
  forallb is_space sp1 = true ->
  forallb is_space sp2 = true ->
  match_here word ago (digits ++ sp1 ++ word ++ sp2 ++ ago ++ rest) = Some digits.
Proof.
  intros -> Hcwd Hcws -> Hcas Hne Hd Hs1 Hs2. unfold match_here.
  destruct (take_while_app is_digit digits (sp1 ++ (cw :: word') ++ sp2 ++ (ca :: ago') ++ rest) Hd)
    as [Ht Hdrop].
  { destruct sp1 as [|c sp1]; cbn [app]; [exact Hcwd|].
    cbn [forallb] in Hs1. apply andb_true_iff in Hs1 as [Hc _].
    apply space_is_no_digit. exact Hc. }
  rewrite Ht, Hdrop.
  destruct digits as [|d0 digits']; [congruence|].
  destruct (take_while_app is_space sp1 ((cw :: word') ++ sp2 ++ (ca :: ago') ++ rest) Hs1)
    as [_ Hdrop1]; [exact Hcws|].
  rewrite Hdrop1, strip_prefix_app.
  destruct (take_while_app is_space sp2 ((ca :: ago') ++ rest) Hs2) as [_ Hdrop2];
    [exact Hcas|].
  rewrite Hdrop2, strip_prefix_app. reflexivity.
Qed.

Lemma take_drop_while (p : Z -> bool) (s : pystr) :
  s = take_while p s ++ drop_while p s /\ forallb p (take_while p s) = true.
Proof.
  induction s as [|c s [IH1 IH2]]; [split; reflexivity|].
  cbn [take_while drop_while]. destruct (p c) eqn:E; [|split; reflexivity].
  cbn [app forallb]. rewrite E, IH2. split; [f_equal; exact IH1|reflexivity].
Qed.

Lemma strip_prefix_some (w s r : pystr) : strip_prefix w s = Some r -> s = w ++ r.
Proof.
  revert s. induction w as [|a w IH]; intros s H.
  - destruct s; injection H as <-; reflexivity.
  - destruct s as [|b s]; [discriminate|]. cbn [strip_prefix] in H.
    destruct (a =? b) eqn:E; [|discriminate]. apply Z.eqb_eq in E. subst b.
    cbn [app]. f_equal. apply IH. exact H.
Qed.

(** Soundness of the matcher: a match is a splitting of the head of the
    subject into digits, spaces, the word, spaces and the closing word. *)
Lemma match_here_sound (word ago s digits : pystr) :
  match_here word ago s = Some digits ->
  digits <> [] /\ forallb is_digit digits = true /\
  exists sp1 sp2 rest,
    forallb is_space sp1 = true /\ forallb is_space sp2 = true /\
    s = digits ++ sp1 ++ word ++ sp2 ++ ago ++ rest.
Proof.
  unfold match_here. intros H.
  destruct (take_drop_while is_digit s) as [Hs Hd].
  destruct (take_while is_digit s) as [|d0 ds] eqn:Ht; [discriminate|].
  destruct (take_drop_while is_space (drop_while is_digit s)) as [Hs1 Hsp1].
  destruct (strip_prefix word (drop_while is_space (drop_while is_digit s))) as [r|] eqn:Hw;
    [|discriminate].
  apply strip_prefix_some in Hw.
  destruct (take_drop_while is_space r) as [Hs2 Hsp2].
  destruct (strip_prefix ago (drop_while is_space r)) as [rest|] eqn:Ha; [|discriminate].
  apply strip_prefix_some in Ha. injection H as <-.
  split; [discriminate|]. split; [exact Hd|].
  exists (take_while is_space (drop_while is_digit s)), (take_while is_space r), rest.
  split; [exact Hsp1|]. split; [exact Hsp2|].
  rewrite Hs at 1. f_equal. rewrite Hs1 at 1. f_equal. rewrite Hw. f_equal.
  rewrite Hs2 at 1. f_equal. exact Ha.
Qed.

(** *** The two branches of the date normalisation, in general *)

Section ParseDateBranches.

Variable date_parser_parse : pystr -> py datetime.
Variable int_max_str_digits : Z.
Variable tehran_tz : tz_rules.
Variable clock : clock_t.

Let _parse_date := _parse_date date_parser_parse int_max_str_digits tehran_tz clock.

(** Whatever amount and unit a relative phrase names, the value is a reading
    of the clock: a string without [T] and [-] in which one of the three
    patterns matches is given the current UTC time, read at the first or at
    the second reading the call takes. *)
Theorem relative_amount_is_ignored (raw : pystr) (k : nat) :
  raw <> [] ->
  contains 84 (strip raw) || contains 45 (strip raw) = false ->
  (exists word unit, In (word, unit) relative_patterns /\
                     re_search word word_ago (strip raw) <> None) ->
  exists k', (k' = k \/ k' = S k) /\
             _parse_date (Some raw) k = (Ok (Some (utc_datetime (clock k'))), S k').
Proof.
  intros Hraw Habs Hm.
  exact (relative_phrase_gives_now date_parser_parse int_max_str_digits tehran_tz clock
                                   raw k Hraw Habs Hm).
Qed.

(** A string with [T] or [-] that dateutil accepts is converted without
    reading the clock: an aware result keeps its instant, a naive one is read
    as Tehran local time; only when the localisation fails or the UTC reading
    leaves the years 1 to 9999 is the current time returned instead. *)
Theorem machine_readable_date_is_converted (raw : pystr) (k : nat) (p : datetime) :
  raw <> [] ->
  contains 84 (strip raw) || contains 45 (strip raw) = true ->
  date_parser_parse (strip raw) = Ok p ->
  let converted (off : Z) :=
    if in_range (wall p - off)
    then (Ok (Some (utc_datetime (wall p - off))), k)
    else (Ok (Some (utc_datetime (clock k))), S k) in
  _parse_date (Some raw) k =
    match utcoffset p with
    | Some off => converted off
    | None =>
        match localize tehran_tz (wall p) with
        | Ok off => converted off
        | Raise _ => (Ok (Some (utc_datetime (clock k))), S k)
        end
    end.
Proof.
  intros Hraw Habs Hp converted. subst converted.
  unfold _parse_date, Scraper._parse_date.
  destruct raw as [|c t]; [congruence|]. cbn [str_truthy negb].
  unfold st_bind, st_try. rewrite Habs.
  unfold st_lift, parse_absolute, py_bind. rewrite Hp.
  destruct p as [wl [off|]]; cbn [utcoffset wall].
  - unfold astimezone_utc. cbn [utcoffset wall].
    destruct (in_range (wl - off)); reflexivity.
  - destruct (localize tehran_tz wl) as [off|e]; [|reflexivity].
    unfold astimezone_utc. cbn [utcoffset wall].
    destruct (in_range (wl - off)); reflexivity.
Qed.

End ParseDateBranches.

Lemma relative_amount_is_ignored_witness :
  exists k',
    _parse_date parser_rejects 4300 tehran_fixed frozen_clock (Some two_hours_ago) 0%nat
      = (Ok (Some (utc_datetime (frozen_clock k'))), S k').
Proof.
  destruct (relative_amount_is_ignored parser_rejects 4300 tehran_fixed frozen_clock
              two_hours_ago 0%nat) as (k' & _ & E).
  - discriminate.
  - vm_compute. reflexivity.
  - exists word_hour, "hours"%string. split; [right; left; reflexivity|].
    vm_compute. discriminate.
  - exists k'. exact E.
Defined.

Lemma machine_readable_date_is_converted_witness :
  _parse_date (fun _ => Ok (mk_datetime 1704110400000000 None)) 4300 tehran_fixed
              frozen_clock (Some [50; 48; 50; 52; 45; 48; 49; 45; 48; 49]) 0%nat
    = (Ok (Some (utc_datetime 1704097800000000)), 0%nat).
Proof.
  exact (machine_readable_date_is_converted
           (fun _ => Ok (mk_datetime 1704110400000000 None)) 4300 tehran_fixed frozen_clock
           [50; 48; 50; 52; 45; 48; 49; 45; 48; 49] 0%nat
           (mk_datetime 1704110400000000 None)
           ltac:(discriminate) eq_refl eq_refl).
Defined.

(** *** The position, in general *)

Lemma find_element_index_first (element c : node) (pre post : list node) (i : Z) :
  (forall c', In c' pre -> element_in element (find_all c') = false) ->
  element_in element (find_all c) = true ->
  find_element_index element (pre ++ c :: post) i = i + Z.of_nat (List.length pre).
Proof.
  revert i. induction pre as [|c0 pre IH]; intros i Hpre Hc.
  - cbn [app find_element_index List.length]. rewrite Hc. cbn. lia.
  - cbn [app find_element_index]. rewrite (Hpre c0) by (left; reflexivity).
    rewrite IH; [|intros c' Hc'; apply Hpre; right; exact Hc'|exact Hc].
    cbn [List.length]. rewrite Nat2Z.inj_succ. lia.
Qed.

(** A listing in which no candidate holds a copy of a candidate below it,
    such as a list of sibling elements, gets the position "unknown" for
    every candidate: the lookup searches below the candidates and never
    considers a candidate itself. *)
Theorem unnested_candidates_are_unknown (news_elements : list node) :
  (forall c c', In c news_elements -> In c' news_elements ->
                element_in c' (find_all c) = false) ->
  Forall (fun r => r = Ok "unknown"%string) (candidate_positions news_elements).
Proof.
  intros H. apply unnested_listing_unknown. exact H.
Qed.

Lemma unnested_candidates_are_unknown_witness :
  Forall (fun r => r = Ok "unknown"%string) (candidate_positions flat_listing).
Proof.
  apply (unnested_candidates_are_unknown flat_listing).
  intros c c' Hc Hc'.
  repeat (destruct Hc as [<-|Hc]; [repeat (destruct Hc' as [<-|Hc']; [reflexivity|]);
                                   destruct Hc'|]).
  destruct Hc.
Defined.

(** The position never raises and is one of four labels; and an element that
    has a copy below a listed element is given the ordinal class of the first
    such listed element: top for the indices 0 to 2, middle below half the
    length of the listing, bottom from there on. *)
Theorem position_of_nested_element (element : node) (selected : py (list node)) :
  (exists label, _determine_position element selected = Ok label /\
                 In label ["unknown"; "homepage_top"; "homepage_middle"; "homepage_bottom"]%string) /\
  (forall pre c post,
     selected = Ok (pre ++ c :: post) ->
     (forall c', In c' pre -> element_in element (find_all c') = false) ->
     element_in element (find_all c) = true ->
     _determine_position element selected
       = Ok (ordinal_class (Z.of_nat (List.length pre))
                           (Z.of_nat (List.length (pre ++ c :: post))))).
Proof.
  split.
  - unfold _determine_position, try_except, py_bind.
    destruct selected as [[|c0 rest]|e].
    + eexists. split; [reflexivity|]. left. reflexivity.
    + eexists. split; [reflexivity|]. unfold position_of_index.
      destruct (_ =? -1); [left; reflexivity|].
      destruct (_ <? 3); [right; left; reflexivity|].
      destruct (_ <? _); [right; right; left; reflexivity|right; right; right; left; reflexivity].
    + eexists. split; [reflexivity|]. left. reflexivity.
  - intros pre c post -> Hpre Hc.
    unfold _determine_position, try_except, py_bind.
    destruct (pre ++ c :: post) as [|c0 rest] eqn:E; [destruct pre; discriminate|].
    rewrite <- E. rewrite (find_element_index_first element c pre post 0 Hpre Hc).
    rewrite Z.add_0_l. rewrite position_of_index_ordinal by lia. reflexivity.
Qed.

Lemma position_of_nested_element_witness :
  _determine_position (Tag [97] [] [NavigableString [48]]) (Ok flat_listing)
    = Ok "homepage_top"%string.
Proof.
  exact (proj2 (position_of_nested_element (Tag [97] [] [NavigableString [48]])
                                           (Ok flat_listing))
               [] (li_item 0) [li_item 1; li_item 2; li_item 3]
               eq_refl (fun c' (H : In c' []) => match H with end) eq_refl).
Defined.

(** *** Requests and their retries *)

Section MakeRequestFacts.

Variable response : Type.
Variable session_get : pystr -> nat -> py response.
Variable is_request_exception : exn -> bool.

Let _make_request := _make_request response session_get is_request_exception.
Let all_failed := all_failed response session_get is_request_exception.

Lemma request_loop_outcome (url : pystr) (retries : Z) :
  forall (todo a n : nat),
  Z.of_nat (a + todo) = retries ->
  exists r n',
    request_loop response session_get is_request_exception url retries
                 (map Z.of_nat (seq a todo)) n = (r, n') /\
    (n' <= n + todo)%nat /\
    match r with
    | Ok None => todo = 0%nat /\ n' = n
    | Ok (Some resp) =>
        (n < n')%nat /\ session_get url (Nat.pred n') = Ok resp /\ all_failed url n (Nat.pred n')
    | Raise e =>
        (n < n')%nat /\ session_get url (Nat.pred n') = Raise e /\ all_failed url n (Nat.pred n') /\
        (is_request_exception e = true -> n' = (n + todo)%nat)
    end.
Proof.
  induction todo as [|todo IH]; intros a n Hlen.
  - exists (Ok None), n. cbn. split; [reflexivity|]. split; [lia|]. split; reflexivity.
  - cbn [seq map request_loop]. unfold st_try, st_bind, send, st_ret.
    destruct (session_get url n) as [resp|e] eqn:Hg.
    + exists (Ok (Some resp)), (S n). split; [reflexivity|]. split; [lia|].
      cbn [Nat.pred]. split; [lia|]. split; [exact Hg|]. intros m Hm. lia.
    + destruct (is_request_exception e) eqn:He.
      * destruct (Z.of_nat a =? retries - 1) eqn:Hlast.
        -- apply Z.eqb_eq in Hlast. assert (todo = 0%nat) by lia. subst todo.
           exists (Raise e), (S n). split; [reflexivity|]. split; [lia|].
           cbn [Nat.pred]. split; [lia|]. split; [exact Hg|].
           split; [intros m Hm; lia|intros _; lia].
        -- apply Z.eqb_neq in Hlast.
           destruct (IH (S a) (S n)) as (r & n' & E & Hle & Hr); [lia|].
           exists r, n'. unfold st_raise. split; [exact E|]. split; [lia|].
           assert (Hext : forall k, (S n < k)%nat -> all_failed url (S n) (Nat.pred k) ->
                                    all_failed url n (Nat.pred k)).
           { intros k Hk Hall m Hm. destruct (Nat.eq_dec m n) as [->|Hne].
             - exists e. split; assumption.
             - apply Hall. lia. }
           destruct r as [[resp|]|e'].
           ++ destruct Hr as (Hlt & Hget & Hall).
              split; [lia|]. split; [exact Hget|]. apply Hext; assumption.
           ++ destruct Hr as (Hz & _). lia.
           ++ destruct Hr as (Hlt & Hget & Hall & Hcount).
              split; [lia|]. split; [exact Hget|]. split; [apply Hext; assumption|].
              intros H. rewrite (Hcount H). lia.
      * exists (Raise e), (S n). unfold st_raise. split; [reflexivity|]. split; [lia|].
        cbn [Nat.pred]. split; [lia|]. split; [exact Hg|].
        split; [intros m Hm; lia|intros H; congruence].
Qed.

Lemma make_request_outcome (url : pystr) (retries : Z) (n : nat) :
  exists r n',
    _make_request url retries n = (r, n') /\
    (n' <= n + Z.to_nat retries)%nat /\
    match r with
    | Ok None => retries <= 0 /\ n' = n
    | Ok (Some resp) =>
        (n < n')%nat /\ session_get url (Nat.pred n') = Ok resp /\ all_failed url n (Nat.pred n')
    | Raise e =>
        (n < n')%nat /\ session_get url (Nat.pred n') = Raise e /\ all_failed url n (Nat.pred n') /\
        (is_request_exception e = true -> n' = (n + Z.to_nat retries)%nat)
    end.
Proof.
  unfold _make_request, Scraper._make_request, range.
  destruct (Z_le_gt_dec retries 0) as [Hle|Hgt].
  - replace (Z.to_nat retries) with 0%nat by lia. cbn.
    exists (Ok None), n. split; [reflexivity|]. split; [lia|]. split; [exact Hle|reflexivity].
  - destruct (request_loop_outcome url retries (Z.to_nat retries) 0 n) as (r & n' & E & Hle & Hr);
      [lia|].
    exists r, n'. split; [exact E|]. split; [exact Hle|].
    destruct r as [[resp|]|e]; [exact Hr| |exact Hr].
    destruct Hr as [Hz _]. lia.
Qed.

(** [_make_request] sends at most [retries] requests and stops at the first
    that succeeds, whose response it returns.  It raises what the last
    request raised: a request exception after exactly [retries] failed
    attempts, any other exception at once.  It returns [None] only when
    [retries] is not positive, and then without sending anything. *)
Theorem request_is_retried_up_to_the_limit (url : pystr) (retries : Z) (n : nat) :
  exists r n',
    _make_request url retries n = (r, n') /\
    (n' <= n + Z.to_nat retries)%nat /\
    match r with
    | Ok None => retries <= 0 /\ n' = n
    | Ok (Some resp) =>
        (n < n')%nat /\ session_get url (Nat.pred n') = Ok resp /\ all_failed url n (Nat.pred n')
    | Raise e =>
        (n < n')%nat /\ session_get url (Nat.pred n') = Raise e /\ all_failed url n (Nat.pred n') /\
        (is_request_exception e = true -> n' = (n + Z.to_nat retries)%nat)
    end.
Proof. apply make_request_outcome. Qed.

End MakeRequestFacts.

End ScraperProps.

(* ================================================================= *)
(** * Running the tasks *)

Module StoreProps.
Import Store.

Ltac run_st :=
  unfold st_bind, st_try, st_ret, st_lift, st_raise, query, write, commit, rollback,
         fail_flush, utcnow, delay; cbn.

Lemma find_none_existsb {A} (p : A -> bool) (l : list A) :
  find p l = None -> existsb p l = false.
Proof.
  induction l as [|x l IH]; [reflexivity|]. cbn.
  destruct (p x); [discriminate|exact IH].
Qed.

End StoreProps.

(* ================================================================= *)
(** * Properties of the ingestion loop *)

Module CrawlerProps.
Import Store Crawler StoreProps.

Ltac run_loop :=
  unfold save_item, save_item_body, st_try, st_bind, in_world, count, st_ret, query, utcnow,
         commit, rollback, delay;
  cbn [fst snd w_db w_view w_needs_rollback w_clock w_readings w_queue w_broker w_offered].

Lemma existsb_false_not_in (u : pystr) (l : list NewsItem.t) :
  existsb (fun x => pystr_eqb (NewsItem.url x) u) l = false ->
  ~ In u (map NewsItem.url l).
Proof.
  intros H Hin. apply in_map_iff in Hin as (x & <- & Hx).
  assert (E : existsb (fun y => pystr_eqb (NewsItem.url y) (NewsItem.url x)) l = true).
  { apply existsb_exists. exists x. split; [exact Hx|].
    unfold pystr_eqb. destruct (list_eq_dec Z.eq_dec _ _); congruence. }
  congruence.
Qed.

(** An item whose url is stored is counted as a duplicate, and nothing else
    happens. *)
Lemma save_item_known_url (agency_id : Z) (it : item_data) (c : counters) (w : world)
  (existing : NewsItem.t) :
  clean w ->
  first_by_url (w_db w) (url it) = Some existing ->
  save_item agency_id it c w
    = (Ok (mk_counters (saved_count c) (duplicate_count c + 1) (error_count c)), w).
Proof.
  intros [Hr Hv] Hf. destruct w as [d v nr clk rd q br off].
  cbn [w_needs_rollback w_view w_db w_broker w_offered] in *. subst.
  run_loop. rewrite Hf. reflexivity.
Qed.

Lemma in_urls_first_by_url (d : db) (u : pystr) :
  In u (urls d) -> exists existing, first_by_url d (Some u) = Some existing.
Proof.
  unfold urls, first_by_url. intros Hin.
  destruct (find (fun x => pystr_eqb (NewsItem.url x) u) (news_items d)) as [e|] eqn:Hf;
    [exists e; reflexivity|].
  apply find_none_existsb in Hf. apply existsb_false_not_in in Hf. contradiction.
Qed.

Lemma accepted_app (broker : task -> nat -> bool) (a b : list NewsItem.t) :
  forall n,
  accepted broker n (a ++ b) = accepted broker n a ++ accepted broker (n + List.length a) b.
Proof.
  induction a as [|x a IH]; intros n.
  - cbn. rewrite Nat.add_0_r. reflexivity.
  - cbn [app accepted List.length]. rewrite IH.
    replace (S n + List.length a)%nat with (n + S (List.length a))%nat by lia.
    destruct (broker _ n); reflexivity.
Qed.


Lemma accepted_all (broker : task -> nat -> bool) (a : list NewsItem.t) :
  (forall t n, broker t n = true) -> forall n, accepted broker n a = a.
Proof.
  intros Hup. induction a as [|x a IH]; intros n; [reflexivity|].
  cbn [accepted]. rewrite Hup, IH. reflexivity.
Qed.

(** One turn of the loop.  It returns and leaves the session clean; it adds
    at most one row, for an item whose url was not stored; it offers the
    broker the job of the row it added; and it counts the item as saved or as
    a duplicate, and an error besides when the broker refuses the job. *)
Lemma save_item_outcome (agency_id : Z) (it : item_data) (c : counters) (w : world) :
  clean w ->
  exists c' w' added,
    save_item agency_id it c w = (Ok c', w') /\
    clean w' /\
    news_items (w_db w') = news_items (w_db w) ++ added /\
    other_tables_kept (w_db w) (w_db w') /\
    w_broker w' = w_broker w /\
    w_offered w' = (w_offered w + List.length added)%nat /\
    w_queue w' = w_queue w ++ jobs_for (accepted (w_broker w) (w_offered w) added) /\
    Forall (row_of agency_id it) added /\
    (forall u, url it = Some u -> In u (urls (w_db w'))) /\
    (NoDup (urls (w_db w)) -> NoDup (urls (w_db w'))) /\
    saved_count c' = saved_count c + Z.of_nat (List.length added) /\
    duplicate_count c' = duplicate_count c + 1 - Z.of_nat (List.length added) /\
    error_count c' = error_count c + Z.of_nat (List.length added)
                     - Z.of_nat (List.length (accepted (w_broker w) (w_offered w) added)).
Proof.
  intros [Hr Hv]. destruct w as [d v nr clk rd q br off].
  cbn [w_needs_rollback w_view w_db w_queue w_broker w_offered] in *. subst.
  assert (Hnothing : forall rd',
             exists c' w' added,
               (Ok (count_duplicate c), mk_world d d false clk rd' q br off) = (Ok c', w') /\
               clean w' /\
               news_items (w_db w') = news_items d ++ added /\
               other_tables_kept d (w_db w') /\
               w_broker w' = br /\
               w_offered w' = (off + List.length added)%nat /\
               w_queue w' = q ++ jobs_for (accepted br off added) /\
               Forall (row_of agency_id it) added /\
               (NoDup (urls d) -> NoDup (urls (w_db w'))) /\
               saved_count c' = saved_count c + Z.of_nat (List.length added) /\
               duplicate_count c' = duplicate_count c + 1 - Z.of_nat (List.length added) /\
               error_count c' = error_count c + Z.of_nat (List.length added)
                                - Z.of_nat (List.length (accepted br off added))).
  { intros rd'. eexists _, _, []. split; [reflexivity|].
    cbn [w_needs_rollback w_view w_db w_queue w_broker w_offered List.length accepted
         jobs_for map count_duplicate saved_count duplicate_count error_count].
    rewrite !app_nil_r, Nat.add_0_r.
    split; [split; reflexivity|]. split; [reflexivity|]. split; [repeat split|].
    split; [reflexivity|]. split; [reflexivity|]. split; [reflexivity|].
    split; [constructor|]. split; [tauto|]. repeat split; lia. }
  run_loop.
  destruct (first_by_url d (url it)) as [e|] eqn:Hf.
  - destruct (Hnothing rd) as (c' & w' & added & E & Hc & Hrows & Hk & Hb & Ho & Hq & Hall & Hnd & Hcnt).
    exists c', w', added. split; [exact E|]. split; [exact Hc|]. split; [exact Hrows|].
    split; [exact Hk|]. split; [exact Hb|]. split; [exact Ho|]. split; [exact Hq|].
    split; [exact Hall|]. split; [|split; [exact Hnd|exact Hcnt]].
    intros u Hu. rewrite Hu in Hf. cbn [first_by_url] in Hf. apply find_some in Hf as [Hin Heq].
    unfold pystr_eqb in Heq. destruct (list_eq_dec Z.eq_dec _ _) as [<-|]; [|discriminate].
    injection E as _ <-. cbn [w_db w_broker w_offered]. unfold urls. apply in_map. exact Hin.
  - unfold insert_news_item, st_bind, query, write, fail_flush, st_ret.
    cbn [fst snd w_db w_view w_needs_rollback w_clock w_readings w_queue w_broker w_offered].
    destruct (url it) as [u|] eqn:Hu.
    + cbn [first_by_url] in Hf. apply find_none_existsb in Hf. rewrite Hf.
      cbn [fst snd w_db w_view w_needs_rollback w_clock w_readings w_queue w_broker w_offered].
      set (row := new_news_item agency_id (clk rd) it
                                (next_id (map NewsItem.id (news_items d))) u).
      assert (Hfacts : Forall (row_of agency_id it) [row] /\
                       (forall u', Some u = Some u' ->
                                   In u' (map NewsItem.url (news_items d ++ [row]))) /\
                       (NoDup (urls d) -> NoDup (map NewsItem.url (news_items d ++ [row])))).
      { split; [constructor; [|constructor]; unfold row_of, row; cbn; rewrite Hu; repeat split|].
        split.
        - intros u' E. injection E as <-. rewrite map_app. apply in_or_app. right. left.
          reflexivity.
        - intros Hnd. rewrite map_app. cbn [map].
          apply NoDup_app; [exact Hnd|repeat constructor; intros []|].
          intros x Hx [<-|[]]. revert Hx. apply existsb_false_not_in. exact Hf. }
      destruct Hfacts as (Hrow & Hin & Hnd).
      destruct (br (analyze_news_item_task (next_id (map NewsItem.id (news_items d)))) off)
        eqn:Hbr.
      * eexists _, _, [row]. split; [reflexivity|].
        cbn [fst snd w_needs_rollback w_view w_db w_queue w_broker w_offered List.length accepted
             jobs_for map news_items news_agencies news_groups news_group_items
             analysis_results count_saved saved_count duplicate_count error_count].
        change (NewsItem.id row) with (next_id (map NewsItem.id (news_items d))).
        rewrite Hbr. cbn [List.length map].
        split; [split; reflexivity|]. split; [reflexivity|]. split; [repeat split|].
        split; [reflexivity|]. split; [lia|]. split; [reflexivity|].
        split; [exact Hrow|]. split; [exact Hin|]. split; [exact Hnd|]. repeat split; lia.
      * eexists _, _, [row]. split; [reflexivity|].
        cbn [fst snd w_needs_rollback w_view w_db w_queue w_broker w_offered List.length accepted
             jobs_for map news_items news_agencies news_groups news_group_items
             analysis_results count_saved count_error saved_count duplicate_count
             error_count].
        change (NewsItem.id row) with (next_id (map NewsItem.id (news_items d))).
        rewrite Hbr. cbn [List.length map]. rewrite app_nil_r.
        split; [split; reflexivity|]. split; [reflexivity|]. split; [repeat split|].
        split; [reflexivity|]. split; [lia|]. split; [reflexivity|].
        split; [exact Hrow|]. split; [exact Hin|]. split; [exact Hnd|]. repeat split; lia.
    + cbn [fst snd w_db w_view w_needs_rollback w_clock w_readings w_queue w_broker w_offered].
      destruct (Hnothing (S rd))
        as (c' & w' & added & E & Hc & Hrows & Hk & Hb & Ho & Hq & Hall & Hnd & Hcnt).
      exists c', w', added. split; [exact E|]. split; [exact Hc|]. split; [exact Hrows|].
      split; [exact Hk|]. split; [exact Hb|]. split; [exact Ho|]. split; [exact Hq|].
      split; [exact Hall|]. split; [intros; discriminate|split; [exact Hnd|exact Hcnt]].
Qed.

Lemma save_items_outcome (agency_id : Z) (items : list item_data) :
  forall (c : counters) (w : world),
  clean w ->
  exists c' w' added,
    save_items agency_id items c w = (Ok c', w') /\
    clean w' /\
    news_items (w_db w') = news_items (w_db w) ++ added /\
    other_tables_kept (w_db w) (w_db w') /\
    w_broker w' = w_broker w /\
    w_offered w' = (w_offered w + List.length added)%nat /\
    w_queue w' = w_queue w ++ jobs_for (accepted (w_broker w) (w_offered w) added) /\
    Forall (fun x => exists it, In it items /\ row_of agency_id it x) added /\
    (forall it u, In it items -> url it = Some u -> In u (urls (w_db w'))) /\
    (NoDup (urls (w_db w)) -> NoDup (urls (w_db w'))) /\
    saved_count c' = saved_count c + Z.of_nat (List.length added) /\
    saved_count c' + duplicate_count c'
      = saved_count c + duplicate_count c + Z.of_nat (List.length items) /\
    error_count c' = error_count c + Z.of_nat (List.length added)
                     - Z.of_nat (List.length (accepted (w_broker w) (w_offered w) added)).
Proof.
  induction items as [|it rest IH]; intros c w Hc.
  - exists c, w, []. cbn [save_items List.length accepted jobs_for map]. rewrite !app_nil_r.
    unfold st_ret. split; [reflexivity|]. split; [exact Hc|]. split; [reflexivity|].
    split; [repeat split|]. split; [reflexivity|]. split; [lia|]. split; [reflexivity|].
    split; [constructor|]. split; [intros ? ? []|]. split; [tauto|]. repeat split; lia.
  - destruct (save_item_outcome agency_id it c w Hc)
      as (c1 & w1 & a1 & E1 & Hc1 & Hrows1 & Hk1 & Hb1 & Ho1 & Hq1 & Hall1 & Hin1 & Hnd1
          & Hs1 & Hd1 & He1).
    destruct (IH c1 w1 Hc1)
      as (c2 & w2 & a2 & E2 & Hc2 & Hrows2 & Hk2 & Hb2 & Ho2 & Hq2 & Hall2 & Hin2 & Hnd2
          & Hs2 & Hd2 & He2).
    exists c2, w2, (a1 ++ a2). cbn [save_items]. unfold st_bind. rewrite E1, E2.
    split; [reflexivity|]. split; [exact Hc2|].
    split; [rewrite Hrows2, Hrows1, app_assoc; reflexivity|].
    split.
    { destruct Hk1 as (A1 & B1 & C1 & D1), Hk2 as (A2 & B2 & C2 & D2).
      repeat split; congruence. }
    split; [congruence|].
    split; [rewrite Ho2, Ho1, length_app; lia|].
    rewrite accepted_app.
    rewrite Hb1, Ho1 in Hq2, He2.
    split; [rewrite Hq2, Hq1; unfold jobs_for; rewrite map_app, app_assoc; reflexivity|].
    split.
    { apply Forall_app. split.
      - eapply Forall_impl; [|exact Hall1]. intros x Hx. exists it.
        split; [left; reflexivity|exact Hx].
      - eapply Forall_impl; [|exact Hall2]. intros x (it' & Hi & Hx).
        exists it'. split; [right; exact Hi|exact Hx]. }
    split.
    { intros it' u [<-|Hi] Hu; [|eapply Hin2; eassumption].
      unfold urls. rewrite Hrows2, map_app. apply in_or_app. left. apply (Hin1 u Hu). }
    split; [tauto|].
    rewrite !length_app, !Nat2Z.inj_add. cbn [List.length]. rewrite Nat2Z.inj_succ.
    repeat split; lia.
Qed.

Lemma save_items_known (agency_id : Z) (items : list item_data) :
  forall (c : counters) (w : world),
  clean w ->
  (forall it u, In it items -> url it = Some u -> In u (urls (w_db w))) ->
  exists w',
    save_items agency_id items c w
      = (Ok (mk_counters (saved_count c)
                         (duplicate_count c + Z.of_nat (List.length items))
                         (error_count c)), w') /\
    clean w' /\ w_db w' = w_db w /\ w_queue w' = w_queue w.
Proof.
  induction items as [|it rest IH]; intros c w Hc Hknown.
  - exists w. cbn. rewrite Z.add_0_r. destruct c. repeat split; apply Hc.
  - cbn [save_items]. unfold st_bind.
    assert (Hstep : exists w1,
               save_item agency_id it c w
                 = (Ok (mk_counters (saved_count c) (duplicate_count c + 1) (error_count c)), w1) /\
               clean w1 /\ w_db w1 = w_db w /\ w_queue w1 = w_queue w).
    { destruct (url it) as [u|] eqn:Hu.
      - destruct (in_urls_first_by_url (w_db w) u (Hknown it u (or_introl eq_refl) Hu))
          as (existing & Hf).
        exists w. split; [|repeat split; apply Hc].
        eapply save_item_known_url; [exact Hc|rewrite Hu; exact Hf].
      - destruct Hc as [Hr Hv]. destruct w as [d v nr clk rd q br off].
        cbn [w_needs_rollback w_view w_db w_queue w_broker w_offered] in *. subst.
        run_loop. rewrite Hu. cbn [first_by_url].
        unfold insert_news_item, st_bind, query, fail_flush.
        cbn [fst snd w_db w_view w_needs_rollback w_clock w_readings w_queue w_broker
             w_offered].
        eexists. split; [reflexivity|]. cbn [w_needs_rollback w_view w_db w_queue w_broker w_offered].
        repeat split. }
    destruct Hstep as (w1 & E1 & Hc1 & Hdb1 & Hq1). rewrite E1.
    destruct (IH (mk_counters (saved_count c) (duplicate_count c + 1) (error_count c)) w1 Hc1)
      as (w2 & E2 & Hc2 & Hdb2 & Hq2).
    { intros it' u Hi Hu. rewrite Hdb1. apply (Hknown it' u (or_intror Hi) Hu). }
    exists w2. rewrite E2. cbn [saved_count duplicate_count error_count List.length].
    rewrite Nat2Z.inj_succ.
    replace (duplicate_count c + 1 + Z.of_nat (List.length rest))
      with (duplicate_count c + Z.succ (Z.of_nat (List.length rest))) by lia.
    split; [reflexivity|]. split; [exact Hc2|]. split; congruence.
Qed.

(** C9: from a store whose urls are distinct, an item whose url is stored is
    counted as a duplicate and changes nothing; and a whole pass returns
    normally, leaves the stored articles as they were and the urls distinct,
    and counts every item as saved or as a duplicate; an error is counted
    only for an article that was saved and whose analysis job the broker
    refused. *)
Theorem ingestion_keeps_urls_unique (agency_id : Z) (w : world) :
  clean w -> NoDup (urls (w_db w)) ->
  (forall it c existing,
     first_by_url (w_db w) (url it) = Some existing ->
     save_item agency_id it c w
       = (Ok (mk_counters (saved_count c) (duplicate_count c + 1) (error_count c)), w)) /\
  (forall items c, exists c' w' added,
     save_items agency_id items c w = (Ok c', w') /\
     clean w' /\ NoDup (urls (w_db w')) /\
     news_items (w_db w') = news_items (w_db w) ++ added /\
     saved_count c' = saved_count c + Z.of_nat (List.length added) /\
     saved_count c' + duplicate_count c'
       = saved_count c + duplicate_count c + Z.of_nat (List.length items) /\
     error_count c' = error_count c + Z.of_nat (List.length added)
                      - Z.of_nat (List.length (accepted (w_broker w) (w_offered w) added)) /\
     ((forall t n, w_broker w t n = true) -> error_count c' = error_count c)).
Proof.
  intros Hc Hnd. split.
  - intros it c existing Hf. eapply save_item_known_url; eassumption.
  - intros items c.
    destruct (save_items_outcome agency_id items c w Hc)
      as (c' & w' & added & E & Hc' & Hrows & _ & _ & _ & _ & _ & _ & Hnd' & Hs & Hsum & He).
    exists c', w', added. split; [exact E|]. split; [exact Hc'|]. split; [exact (Hnd' Hnd)|].
    split; [exact Hrows|]. split; [exact Hs|]. split; [exact Hsum|]. split; [exact He|].
    intros Hup. rewrite He, (accepted_all _ _ Hup). lia.
Qed.

Lemma ingestion_keeps_urls_unique_witness :
  save_item 1 (sample_item url_a) (mk_counters 0 0 0) (initial_world db_with_a (fun _ => 0))
    = (Ok (mk_counters 0 1 0), initial_world db_with_a (fun _ => 0)).
Proof.
  refine (proj1 (ingestion_keeps_urls_unique 1 (initial_world db_with_a (fun _ => 0)) _ _)
                (sample_item url_a) (mk_counters 0 0 0) _ _).
  - split; reflexivity.
  - cbn. constructor; [intros []|constructor].
  - reflexivity.
Defined.

(** *** What a pass stores and queues *)

(** A pass over the scraped items only adds articles: the other tables and
    the stored articles stay, [saved] is the number of rows added, and each
    added row belongs to the crawled agency, is not flagged and carries the
    title, url, text and position of a scraped item.  The job of each added
    row is offered to the broker, in the order of the rows: the queue gains
    the jobs the broker accepts, and each job it refuses is counted as an
    error while its row stays saved. *)
Theorem pass_queues_the_accepted_jobs (agency_id : Z) (items : list item_data)
  (c : counters) (w : world) :
  clean w ->
  exists c' w' added,
    save_items agency_id items c w = (Ok c', w') /\
    news_items (w_db w') = news_items (w_db w) ++ added /\
    other_tables_kept (w_db w) (w_db w') /\
    Forall (fun x => exists it, In it items /\ row_of agency_id it x) added /\
    saved_count c' = saved_count c + Z.of_nat (List.length added) /\
    w_offered w' = (w_offered w + List.length added)%nat /\
    w_queue w' = w_queue w ++ jobs_for (accepted (w_broker w) (w_offered w) added) /\
    error_count c' = error_count c + Z.of_nat (List.length added)
                     - Z.of_nat (List.length (accepted (w_broker w) (w_offered w) added)) /\
    ((forall t n, w_broker w t n = true) ->
     w_queue w' = w_queue w ++ jobs_for added /\ error_count c' = error_count c).
Proof.
  intros Hc.
  destruct (save_items_outcome agency_id items c w Hc)
    as (c' & w' & added & E & _ & Hrows & Hk & _ & Ho & Hq & Hall & _ & _ & Hs & _ & He).
  exists c', w', added. split; [exact E|]. split; [exact Hrows|]. split; [exact Hk|].
  split; [exact Hall|]. split; [exact Hs|]. split; [exact Ho|]. split; [exact Hq|].
  split; [exact He|].
  intros Hup. rewrite Hq, He, (accepted_all _ _ Hup). split; [reflexivity|lia].
Qed.

Lemma pass_queues_the_accepted_jobs_witness :
  exists c' w' added,
    save_items 1 [sample_item url_a; sample_item url_a] (mk_counters 0 0 0)
               (world_with broker_refuses_all empty_db (fun _ => 0)) = (Ok c', w') /\
    news_items (w_db w') = added /\
    w_queue w' = [] /\
    error_count c' = Z.of_nat (List.length added).
Proof.
  destruct (pass_queues_the_accepted_jobs 1 [sample_item url_a; sample_item url_a]
              (mk_counters 0 0 0) (world_with broker_refuses_all empty_db (fun _ => 0))
              (conj eq_refl eq_refl))
    as (c' & w' & added & E & Hrows & _ & _ & _ & _ & Hq & He & _).
  exists c', w', added. split; [exact E|]. split; [exact Hrows|].
  assert (Hnone : forall n l, accepted broker_refuses_all n l = []).
  { intros n l. revert n. induction l as [|x l IH]; intros n; [reflexivity|]. cbn. apply IH. }
  cbn [world_with w_queue w_broker w_offered] in Hq, He. rewrite Hnone in Hq, He.
  split; [exact Hq|]. cbn [error_count List.length] in He. lia.
Defined.

(** A scraped item without a url is counted as a duplicate, not as an error:
    the lookup finds nothing, the insert is rejected by the NOT NULL
    constraint, and the handler for [IntegrityError] rolls back.  Nothing is
    stored or queued; only the clock has been read once. *)
Theorem item_without_url_counts_as_duplicate (agency_id : Z) (it : item_data)
  (c : counters) (w : world) :
  clean w -> url it = None ->
  save_item agency_id it c w
    = (Ok (mk_counters (saved_count c) (duplicate_count c + 1) (error_count c)),
       mk_world (w_db w) (w_db w) false (w_clock w) (S (w_readings w)) (w_queue w)
                (w_broker w) (w_offered w)).
Proof.
  intros [Hr Hv] Hu. destruct w as [d v nr clk rd q br off].
  cbn [w_needs_rollback w_view w_db w_clock w_readings w_queue w_broker w_offered] in *. subst.
  run_loop. rewrite Hu. cbn [first_by_url].
  unfold insert_news_item, st_bind, query, fail_flush.
  cbn [fst snd w_db w_view w_needs_rollback w_clock w_readings w_queue w_broker w_offered].
  reflexivity.
Qed.

Lemma item_without_url_counts_as_duplicate_witness :
  save_item 1 (mk_item_data [110; 101; 119; 115] None None None None None "unknown")
            (mk_counters 0 0 0) (initial_world db_with_a (fun _ => 0))
    = (Ok (mk_counters 0 1 0),
       mk_world db_with_a db_with_a false (fun _ => 0) 1%nat [] broker_accepts_all 0%nat).
Proof.
  exact (item_without_url_counts_as_duplicate 1
           (mk_item_data [110; 101; 119; 115] None None None None None "unknown")
           (mk_counters 0 0 0) (initial_world db_with_a (fun _ => 0))
           (conj eq_refl eq_refl) eq_refl).
Defined.

(** Ingestion is idempotent: once a pass over some items is done, a second
    pass over the same items, for whatever agency, stores nothing, queues
    nothing and counts every item as a duplicate. *)
Theorem second_pass_saves_nothing (agency_id agency_id' : Z) (items : list item_data)
  (c : counters) (w : world) :
  clean w ->
  exists c1 w1,
    save_items agency_id items c w = (Ok c1, w1) /\
    forall c', exists w2,
      save_items agency_id' items c' w1
        = (Ok (mk_counters (saved_count c')
                           (duplicate_count c' + Z.of_nat (List.length items))
                           (error_count c')), w2) /\
      w_db w2 = w_db w1 /\ w_queue w2 = w_queue w1.
Proof.
  intros Hc.
  destruct (save_items_outcome agency_id items c w Hc)
    as (c1 & w1 & added & E & Hc1 & _ & _ & _ & _ & _ & _ & Hin & _).
  exists c1, w1. split; [exact E|]. intros c'.
  destruct (save_items_known agency_id' items c' w1 Hc1 Hin) as (w2 & E2 & _ & Hdb & Hq).
  exists w2. split; [exact E2|]. split; assumption.
Qed.

Lemma second_pass_saves_nothing_witness :
  exists c1 w1,
    save_items 1 [sample_item url_a] (mk_counters 0 0 0) (initial_world empty_db (fun _ => 0))
      = (Ok c1, w1) /\
    exists w2,
      save_items 2 [sample_item url_a] (mk_counters 0 0 0) w1 = (Ok (mk_counters 0 1 0), w2) /\
      w_db w2 = w_db w1.
Proof.
  destruct (second_pass_saves_nothing 1 2 [sample_item url_a] (mk_counters 0 0 0)
              (initial_world empty_db (fun _ => 0)) (conj eq_refl eq_refl))
    as (c1 & w1 & E & H).
  exists c1, w1. split; [exact E|].
  destruct (H (mk_counters 0 0 0)) as (w2 & E2 & Hdb & _).
  exists w2. split; [exact E2|exact Hdb].
Defined.



(** *** Cleaning up *)

Lemma deleted_iff (old_items items : list NewsItem.t) (cutoff i : Z) :
  old_items = filter (crawled_before cutoff) items ->
  existsb (fun x => NewsItem.id x =? i) old_items = true <->
  exists x, In x items /\ crawled_before cutoff x = true /\ NewsItem.id x = i.
Proof.
  intros ->. rewrite existsb_exists. split.
  - intros (x & Hx & E). apply filter_In in Hx as [Hx Hb]. apply Z.eqb_eq in E.
    exists x. repeat split; assumption.
  - intros (x & Hx & Hb & E). exists x. split; [apply filter_In; split; assumption|].
    apply Z.eqb_eq. exact E.
Qed.

Lemma cleanup_runs (days_to_keep : Z) (w : world) :
  clean w ->
  Z.abs days_to_keep <= 999999999 ->
  Time.in_range (cutoff_of w days_to_keep) = true ->
  cleanup_old_news days_to_keep w
    = (Ok (mk_cleanup_result "success"
             (Some (Z.of_nat (List.length (filter (crawled_before (cutoff_of w days_to_keep))
                                                  (news_items (w_db w))))))
             (Some (cutoff_of w days_to_keep))),
       let d' := delete_news_items (filter (crawled_before (cutoff_of w days_to_keep))
                                           (news_items (w_db w))) (w_db w) in
       mk_world d' d' false (w_clock w) (S (w_readings w)) (w_queue w) (w_broker w) (w_offered w)).
Proof.
  intros [Hr Hv] Hdays Hrange. destruct w as [d v nr clk rd q br off].
  cbn [w_needs_rollback w_view w_db w_clock w_readings w_queue w_broker w_offered] in *. subst.
  unfold cutoff_of in *. cbn [w_clock w_readings w_db w_broker w_offered] in *.
  unfold cleanup_old_news, st_try.
  unfold st_bind at 1. unfold utcnow at 1. cbn [w_clock w_readings w_db w_view w_needs_rollback w_queue w_broker w_offered].
  unfold st_bind at 1. unfold st_lift at 1. unfold Time.timedelta.
  assert (Hd : (Z.abs (Time.usec_per_day * days_to_keep / Time.usec_per_day) <=? 999999999) = true).
  { apply Z.leb_le. rewrite Z.mul_comm, Z.div_mul by (unfold Time.usec_per_day, Time.usec_per_hour,
      Time.usec_per_minute, Time.usec_per_second; lia). exact Hdays. }
  rewrite Hd.
  unfold st_bind at 1. unfold st_lift at 1. unfold Time.sub_timedelta. cbn [Time.wall Time.utcoffset].
  rewrite Hrange.
  run_st. reflexivity.
Qed.

(** A clean-up whose cutoff can be computed succeeds and deletes exactly the
    articles crawled before the cutoff, the current time less
    [days_to_keep] days: the count it reports is the number of rows gone,
    what stays is what was there and was not crawled before the cutoff, in
    the same order, and an article without a crawl time always stays. *)
Theorem cleanup_deletes_what_is_older_than_the_cutoff (days_to_keep : Z) (w : world) :
  clean w ->
  Z.abs days_to_keep <= 999999999 ->
  Time.in_range (cutoff_of w days_to_keep) = true ->
  NoDup (map NewsItem.id (news_items (w_db w))) ->
  exists n w',
    cleanup_old_news days_to_keep w
      = (Ok (mk_cleanup_result "success" (Some n) (Some (cutoff_of w days_to_keep))), w') /\
    clean w' /\
    news_items (w_db w')
      = filter (fun x => negb (crawled_before (cutoff_of w days_to_keep) x))
               (news_items (w_db w)) /\
    n = Z.of_nat (List.length (news_items (w_db w)))
        - Z.of_nat (List.length (news_items (w_db w'))) /\
    (forall x, In x (news_items (w_db w)) -> NewsItem.crawler_timestamp x = None ->
               In x (news_items (w_db w'))).
Proof.
  intros Hc Hdays Hrange Hnd.
  rewrite (cleanup_runs days_to_keep w Hc Hdays Hrange).
  set (cutoff := cutoff_of w days_to_keep).
  do 2 eexists. split; [reflexivity|]. cbn [w_db w_view w_needs_rollback w_broker w_offered].
  split; [split; reflexivity|].
  assert (Hkeep : filter (fun x => negb (existsb (fun y => NewsItem.id y =? NewsItem.id x)
                                                 (filter (crawled_before cutoff)
                                                         (news_items (w_db w)))))
                         (news_items (w_db w))
                  = filter (fun x => negb (crawled_before cutoff x)) (news_items (w_db w))).
  { apply filter_ext_in. intros x Hx. f_equal.
    destruct (crawled_before cutoff x) eqn:Hb.
    - apply existsb_exists. exists x. split; [apply filter_In; split; assumption|].
      apply Z.eqb_refl.
    - apply not_true_is_false. intros He.
      apply (deleted_iff _ (news_items (w_db w)) cutoff (NewsItem.id x) eq_refl) in He
        as (y & Hy & Hby & Eid).
      assert (y = x); [|congruence].
      clear - Hnd Hx Hy Eid. induction (news_items (w_db w)) as [|z l IH]; [destruct Hx|].
      cbn [map] in Hnd. inversion Hnd as [|? ? Hnotin Hnd']. subst.
      destruct Hx as [->|Hx], Hy as [->|Hy].
      + reflexivity.
      + exfalso. apply Hnotin. rewrite <- Eid. apply in_map. exact Hy.
      + exfalso. apply Hnotin. rewrite Eid. apply in_map. exact Hx.
      + apply IH; assumption. }
  unfold delete_news_items. cbn [news_items]. split; [exact Hkeep|].
  split.
  - rewrite Hkeep.
    pose proof (filter_length (crawled_before cutoff) (news_items (w_db w))) as Hlen.
    lia.
  - intros x Hx Hnone. rewrite Hkeep. apply filter_In. split; [exact Hx|].
    unfold crawled_before. rewrite Hnone. reflexivity.
Qed.

Lemma cleanup_deletes_what_is_older_than_the_cutoff_witness :
  exists w',
    cleanup_old_news 30 (initial_world db_old_article day_40)
      = (Ok (mk_cleanup_result "success" (Some 1) (Some (10 * Time.usec_per_day))), w') /\
    news_items (w_db w') = [].
Proof.
  destruct (cleanup_deletes_what_is_older_than_the_cutoff 30 (initial_world db_old_article day_40))
    as (n & w' & E & _ & Hitems & Hn & _).
  - split; reflexivity.
  - vm_compute. discriminate.
  - vm_compute. reflexivity.
  - cbn. constructor; [intros []|constructor].
  - exists w'. rewrite Hitems in Hn. cbn in Hn. rewrite Hn in E.
    split; [exact E|exact Hitems].
Defined.

(** A clean-up never raises, never touches agencies, groups or the queue,
    only removes rows, and leaves no row behind that points to an article it
    removed: a store in which every membership and every analysis result
    belongs to a stored article stays so. *)
Theorem cleanup_keeps_rows_attached (days_to_keep : Z) (w : world) :
  clean w ->
  rows_have_articles (w_db w) ->
  exists r w',
    cleanup_old_news days_to_keep w = (Ok r, w') /\
    clean w' /\
    rows_have_articles (w_db w') /\
    news_agencies (w_db w') = news_agencies (w_db w) /\
    news_groups (w_db w') = news_groups (w_db w) /\
    w_queue w' = w_queue w /\
    incl (news_items (w_db w')) (news_items (w_db w)) /\
    incl (news_group_items (w_db w')) (news_group_items (w_db w)) /\
    incl (analysis_results (w_db w')) (analysis_results (w_db w)).
Proof.
  intros Hc Hrows.
  assert (Hsame : forall r rd,
             cleanup_old_news days_to_keep w
               = (Ok r, mk_world (w_db w) (w_db w) false (w_clock w) rd (w_queue w) (w_broker w) (w_offered w)) ->
             exists r w',
               cleanup_old_news days_to_keep w = (Ok r, w') /\ clean w' /\
               rows_have_articles (w_db w') /\
               news_agencies (w_db w') = news_agencies (w_db w) /\
               news_groups (w_db w') = news_groups (w_db w) /\
               w_queue w' = w_queue w /\
               incl (news_items (w_db w')) (news_items (w_db w)) /\
               incl (news_group_items (w_db w')) (news_group_items (w_db w)) /\
               incl (analysis_results (w_db w')) (analysis_results (w_db w))).
  { intros r rd E. do 2 eexists. split; [exact E|]. cbn [w_db w_view w_needs_rollback w_queue w_broker w_offered].
    split; [split; reflexivity|]. split; [exact Hrows|].
    repeat split; try reflexivity; apply incl_refl. }
  destruct (Z.abs (Time.usec_per_day * days_to_keep / Time.usec_per_day) <=? 999999999) eqn:Hd.
  2:{ apply (Hsame (mk_cleanup_result "error" None None) (S (w_readings w))).
      destruct Hc as [Hr Hv]. destruct w as [d v nr clk rd q br off].
  cbn [w_needs_rollback w_view w_db w_clock w_readings w_queue w_broker w_offered] in *. subst.
      unfold cleanup_old_news, st_try.
      unfold st_bind at 1. unfold utcnow at 1.
      cbn [w_clock w_readings w_db w_view w_needs_rollback w_queue w_broker w_offered].
      unfold st_bind at 1. unfold st_lift at 1. unfold Time.timedelta. rewrite Hd.
      run_st. reflexivity. }
  destruct (Time.in_range (cutoff_of w days_to_keep)) eqn:Hrange.
  2:{ apply (Hsame (mk_cleanup_result "error" None None) (S (w_readings w))).
      destruct Hc as [Hr Hv]. destruct w as [d v nr clk rd q br off].
  cbn [w_needs_rollback w_view w_db w_clock w_readings w_queue w_broker w_offered] in *. subst.
      unfold cutoff_of in Hrange. cbn [w_clock w_readings w_broker w_offered] in Hrange.
      unfold cleanup_old_news, st_try.
      unfold st_bind at 1. unfold utcnow at 1.
      cbn [w_clock w_readings w_db w_view w_needs_rollback w_queue w_broker w_offered].
      unfold st_bind at 1. unfold st_lift at 1. unfold Time.timedelta. rewrite Hd.
      unfold st_bind at 1. unfold st_lift at 1. unfold Time.sub_timedelta.
      cbn [Time.wall Time.utcoffset]. rewrite Hrange.
      run_st. reflexivity. }
  assert (Hdays : Z.abs days_to_keep <= 999999999).
  { apply Z.leb_le in Hd. rewrite Z.mul_comm, Z.div_mul in Hd
      by (unfold Time.usec_per_day, Time.usec_per_hour, Time.usec_per_minute,
                 Time.usec_per_second; lia). exact Hd. }
  rewrite (cleanup_runs days_to_keep w Hc Hdays Hrange).
  set (cutoff := cutoff_of w days_to_keep).
  set (old_items := filter (crawled_before cutoff) (news_items (w_db w))).
  do 2 eexists. split; [reflexivity|]. cbn [w_db w_view w_needs_rollback w_queue w_broker w_offered].
  split; [split; reflexivity|].
  unfold delete_news_items. cbn [news_agencies news_items news_groups news_group_items
                                 analysis_results].
  assert (Hstay : forall i x, In x (news_items (w_db w)) -> NewsItem.id x = i ->
                  negb (existsb (fun y => NewsItem.id y =? i) old_items) = true ->
                  exists x', In x' (filter (fun x0 => negb (existsb (fun y => NewsItem.id y =? NewsItem.id x0) old_items))
                                           (news_items (w_db w))) /\ NewsItem.id x' = i).
  { intros i x Hx Hid Hk. exists x. split; [|exact Hid].
    apply filter_In. split; [exact Hx|]. rewrite Hid. exact Hk. }
  split.
  { destruct Hrows as [Hm Hres]. split.
    - intros m Hin. apply filter_In in Hin as [Hin Hk].
      destruct (Hm m Hin) as (x & Hx & Hid). eapply Hstay; eassumption.
    - intros r Hin. apply filter_In in Hin as [Hin Hk].
      destruct (Hres r Hin) as (x & Hx & Hid). eapply Hstay; eassumption. }
  split; [reflexivity|]. split; [reflexivity|]. split; [reflexivity|].
  split; [|split]; intros x Hin; apply filter_In in Hin as [Hin _]; exact Hin.
Qed.

Lemma cleanup_keeps_rows_attached_witness :
  exists r w',
    cleanup_old_news 30 (initial_world db_old_article day_40) = (Ok r, w') /\
    rows_have_articles (w_db w') /\
    news_groups (w_db w') = news_groups db_old_article.
Proof.
  destruct (cleanup_keeps_rows_attached 30 (initial_world db_old_article day_40))
    as (r & w' & E & _ & Hrows & _ & Hg & _).
  - split; reflexivity.
  - split.
    + intros m [<-|[]]. eexists. split; [left; reflexivity|reflexivity].
    + intros r [].
  - exists r, w'. split; [exact E|]. split; [exact Hrows|exact Hg].
Defined.

(** A clean-up removes memberships but never a group: a group all of whose
    members were crawled before the cutoff is still stored afterwards, with
    no member left. *)
Theorem cleanup_can_empty_a_group (days_to_keep : Z) (w : world) (g : NewsGroup.t) :
  clean w ->
  Z.abs days_to_keep <= 999999999 ->
  Time.in_range (cutoff_of w days_to_keep) = true ->
  In g (news_groups (w_db w)) ->
  (forall m, In m (news_group_items (w_db w)) ->
             NewsGroupItem.news_group_id m = NewsGroup.id g ->
             exists x, In x (news_items (w_db w)) /\
                       NewsItem.id x = NewsGroupItem.news_item_id m /\
                       crawled_before (cutoff_of w days_to_keep) x = true) ->
  exists r w',
    cleanup_old_news days_to_keep w = (Ok r, w') /\
    In g (news_groups (w_db w')) /\
    forall m, In m (news_group_items (w_db w')) ->
              NewsGroupItem.news_group_id m <> NewsGroup.id g.
Proof.
  intros Hc Hdays Hrange Hg Hold.
  rewrite (cleanup_runs days_to_keep w Hc Hdays Hrange).
  do 2 eexists. split; [reflexivity|]. cbn [w_db w_broker w_offered].
  unfold delete_news_items. cbn [news_groups news_group_items]. split; [exact Hg|].
  intros m Hin Hgid. apply filter_In in Hin as [Hin Hk].
  destruct (Hold m Hin Hgid) as (x & Hx & Hid & Hb).
  apply negb_true_iff in Hk.
  assert (Ht : existsb (fun y => NewsItem.id y =? NewsGroupItem.news_item_id m)
                       (filter (crawled_before (cutoff_of w days_to_keep))
                               (news_items (w_db w))) = true).
  { apply existsb_exists. exists x. split; [apply filter_In; split; assumption|].
    apply Z.eqb_eq. exact Hid. }
  congruence.
Qed.

Lemma cleanup_can_empty_a_group_witness :
  exists r w',
    cleanup_old_news 30 (initial_world db_old_article day_40) = (Ok r, w') /\
    In (NewsGroup.mk 1 [110; 101; 119; 115] (Some 0)) (news_groups (w_db w')) /\
    forall m, In m (news_group_items (w_db w')) -> NewsGroupItem.news_group_id m <> 1.
Proof.
  apply (cleanup_can_empty_a_group 30 (initial_world db_old_article day_40)
           (NewsGroup.mk 1 [110; 101; 119; 115] (Some 0))).
  - split; reflexivity.
  - vm_compute. discriminate.
  - vm_compute. reflexivity.
  - left. reflexivity.
  - intros m [<-|[]] _. eexists. split; [left; reflexivity|]. split; reflexivity.
Defined.

(** A retention period beyond the range of [timedelta] makes the clean-up
    answer [error] and delete nothing. *)
Theorem cleanup_refuses_an_overlong_period (days_to_keep : Z) (w : world) :
  clean w ->
  999999999 < Z.abs days_to_keep ->
  cleanup_old_news days_to_keep w
    = (Ok (mk_cleanup_result "error" None None),
       mk_world (w_db w) (w_db w) false (w_clock w) (S (w_readings w)) (w_queue w) (w_broker w) (w_offered w)).
Proof.
  intros [Hr Hv] Hdays. destruct w as [d v nr clk rd q br off].
  cbn [w_needs_rollback w_view w_db w_clock w_readings w_queue w_broker w_offered] in *. subst.
  unfold cleanup_old_news, st_try.
  unfold st_bind at 1. unfold utcnow at 1.
  cbn [w_clock w_readings w_db w_view w_needs_rollback w_queue w_broker w_offered].
  unfold st_bind at 1. unfold st_lift at 1. unfold Time.timedelta.
  assert (Hd : (Z.abs (Time.usec_per_day * days_to_keep / Time.usec_per_day) <=? 999999999) = false).
  { apply Z.leb_gt. rewrite Z.mul_comm, Z.div_mul by (unfold Time.usec_per_day, Time.usec_per_hour,
      Time.usec_per_minute, Time.usec_per_second; lia). exact Hdays. }
  rewrite Hd. run_st. reflexivity.
Qed.

Lemma cleanup_refuses_an_overlong_period_witness :
  cleanup_old_news 1000000000 (initial_world db_old_article day_40)
    = (Ok (mk_cleanup_result "error" None None),
       mk_world db_old_article db_old_article false day_40 1%nat [] broker_accepts_all 0%nat).
Proof.
  apply (cleanup_refuses_an_overlong_period 1000000000 (initial_world db_old_article day_40)).
  - split; reflexivity.
  - vm_compute. reflexivity.
Defined.

End CrawlerProps.

(* ================================================================= *)
(** * Properties of the analysis tasks *)

Module AnalysisProps.
Import Store PyStr Analysis StoreProps.

Lemma next_id_above (ids : list Z) (x : Z) : In x ids -> x < next_id ids.
Proof.
  unfold next_id. induction ids as [|y ids IH]; [intros []|].
  cbn [fold_right]. intros [->|H]; [lia|]. specialize (IH H). lia.
Qed.

(** Under the foreign key, no membership mentions the key of the next
    group. *)
Lemma next_group_has_no_member (d : db) (i : Z) :
  groups_exist d ->
  existsb (fun x => (NewsGroupItem.news_group_id x =? next_id (map NewsGroup.id (news_groups d))) &&
                    (NewsGroupItem.news_item_id x =? i))
          (news_group_items d) = false.
Proof.
  intros Hfk. apply not_true_is_false. intros H.
  apply existsb_exists in H as (gi & Hgi & Hb).
  apply andb_true_iff in Hb as [Hb _]. apply Z.eqb_eq in Hb.
  specialize (Hfk gi Hgi). apply next_id_above in Hfk. lia.
Qed.

Lemma find_some_id (l : list NewsItem.t) (i : Z) (x : NewsItem.t) :
  find (fun y => NewsItem.id y =? i) l = Some x -> NewsItem.id x = i.
Proof.
  intros H. apply find_some in H as [_ H]. apply Z.eqb_eq. exact H.
Qed.


Section TaskFacts.

Variable normalize : pystr -> py pystr.
Variable word_tokenize : pystr -> py (list pystr).
Variable persian_stopwords : list pystr.
Variable tfidf_similarities : list pystr -> py (list float).
Variable retries : Z.

Let preprocess_persian_text := preprocess_persian_text normalize word_tokenize persian_stopwords.
Let prepare := prepare normalize word_tokenize persian_stopwords.
Let analyze_news_item :=
  analyze_news_item normalize word_tokenize persian_stopwords tfidf_similarities retries.

(** Preprocessing never raises. *)
Lemma preprocess_returns (text : pystr) : exists r, preprocess_persian_text text = Ok r.
Proof.
  unfold preprocess_persian_text, Analysis.preprocess_persian_text.
  destruct (negb (str_truthy text)); [eexists; reflexivity|].
  unfold try_except, py_bind.
  destruct (normalize text) as [n|]; [|eexists; reflexivity].
  destruct (word_tokenize n); eexists; reflexivity.
Qed.

(** C10: an article whose duplicate flag is set is answered
    [already_duplicate], and the world (committed store, open transaction,
    clock readings, dispatcher queue) is left exactly as it was. *)
Theorem flagged_article_is_left_alone (w : world) (news_item_id : Z) (news_item : NewsItem.t) :
  w_needs_rollback w = false ->
  get_news_item (w_view w) news_item_id = Some news_item ->
  NewsItem.is_duplicate news_item = true ->
  analyze_news_item news_item_id w = (Ok (status_only "already_duplicate"), w).
Proof.
  intros Hr Hget Hdup. destruct w as [d v nr clk rd q br off]. cbn in *. subst.
  unfold analyze_news_item, Analysis.analyze_news_item.
  unfold st_try, st_bind, query. cbn [w_needs_rollback w_view w_broker w_offered].
  rewrite Hget, Hdup. reflexivity.
Qed.

(** C2 (as amended): an article that is not flagged and whose cleaned text is
    empty is answered [no_text]; no group and no membership is created, and
    the world is left exactly as it was. *)
Theorem empty_text_is_not_grouped (w : world) (news_item_id : Z) (news_item : NewsItem.t)
  (item_text : pystr) :
  w_needs_rollback w = false ->
  get_news_item (w_view w) news_item_id = Some news_item ->
  NewsItem.is_duplicate news_item = false ->
  preprocess_persian_text (text_of news_item) = Ok item_text ->
  strip item_text = [] ->
  analyze_news_item news_item_id w = (Ok (status_only "no_text"), w).
Proof.
  intros Hr Hget Hdup Hpre Hstrip. destruct w as [d v nr clk rd q br off]. cbn in *. subst.
  unfold analyze_news_item, Analysis.analyze_news_item.
  unfold st_try, st_bind, query, st_lift. cbn [w_needs_rollback w_view w_broker w_offered].
  rewrite Hget, Hdup.
  unfold preprocess_persian_text in Hpre. rewrite Hpre, Hstrip. reflexivity.
Qed.

End TaskFacts.

Lemma flagged_article_is_left_alone_witness :
  analyze_news_item plain_normalize plain_tokenize [] (fixed_scores []) 0 1
                    (initial_world db_flagged noon_clock)
    = (Ok (status_only "already_duplicate"), initial_world db_flagged noon_clock).
Proof.
  apply (flagged_article_is_left_alone plain_normalize plain_tokenize [] (fixed_scores []) 0
           (initial_world db_flagged noon_clock) 1 (article 1 headline None true));
    reflexivity.
Defined.

Lemma empty_text_is_not_grouped_witness :
  analyze_news_item plain_normalize plain_tokenize [] (fixed_scores []) 0 1
                    (initial_world db_short_title noon_clock)
    = (Ok (status_only "no_text"), initial_world db_short_title noon_clock).
Proof.
  apply (empty_text_is_not_grouped plain_normalize plain_tokenize [] (fixed_scores []) 0
           (initial_world db_short_title noon_clock) 1 (article 1 [1575; 1586] None false) []);
    reflexivity.
Defined.

(** C2, the claim as stated: an article whose title is one two-letter word
    has an empty cleaned text; it is answered [no_text], not [new_group], and
    no group and no membership exists afterwards. *)
Lemma short_title_gets_no_group :
  let r := analyze_news_item plain_normalize plain_tokenize [] (fixed_scores []) 0 1
                             (initial_world db_short_title noon_clock) in
  preprocess_persian_text plain_normalize plain_tokenize []
                          (text_of (article 1 [1575; 1586] None false)) = Ok [] /\
  fst r = Ok (status_only "no_text") /\
  fst r <> Ok (mk_result "new_group" (Some 1) None None None None) /\
  news_groups (w_db (snd r)) = [] /\
  news_group_items (w_db (snd r)) = [].
Proof.
  cbv zeta. repeat split. vm_compute. discriminate.
Qed.

Section MatchFacts.

Variable normalize : pystr -> py pystr.
Variable word_tokenize : pystr -> py (list pystr).
Variable persian_stopwords : list pystr.
Variable tfidf_similarities : list pystr -> py (list float).
Variable retries : Z.

Let preprocess_persian_text := preprocess_persian_text normalize word_tokenize persian_stopwords.
Let window := window normalize word_tokenize persian_stopwords.
Let match_and_group := match_and_group tfidf_similarities.
Let analyze_news_item :=
  analyze_news_item normalize word_tokenize persian_stopwords tfidf_similarities retries.

(** With text and a non-empty window the analysis is the similarity step,
    whose own failures are answered by the fall-back group and whose
    remaining failures become a retry. *)
Lemma analyze_reaches_match (w : world) (news_item_id : Z) (news_item : NewsItem.t)
  (item_text : pystr) (candidates : list (pystr * Z)) :
  w_needs_rollback w = false ->
  get_news_item (w_view w) news_item_id = Some news_item ->
  NewsItem.is_duplicate news_item = false ->
  preprocess_persian_text (text_of news_item) = Ok item_text ->
  str_truthy (strip item_text) = true ->
  window w news_item = Ok candidates ->
  candidates <> [] ->
  analyze_news_item news_item_id w
    = st_try
        (st_try (match_and_group news_item (item_text :: map fst candidates)
                                 (NewsItem.id news_item :: map snd candidates))
                (fun e =>
                   (g <- new_group_for news_item ;;
                    st_ret (mk_result "new_group_fallback" (Some g) None None None (Some e)))%st))
        (fun _ => st_raise (retry retries (60 * 2 ^ retries)))
        (after_reading w).
Proof.
  intros Hr Hget Hdup Hpre Htext Hwin Hne.
  unfold window, Analysis.window in Hwin.
  destruct w as [d v nr clk rd q br off]. cbn [w_needs_rollback w_view w_clock w_readings w_broker w_offered] in *.
  subst nr.
  unfold analyze_news_item, Analysis.analyze_news_item, after_reading.
  cbn [w_db w_view w_needs_rollback w_clock w_readings w_queue w_broker w_offered].
  unfold st_try at 1. unfold st_try at 2.
  unfold st_bind at 1. unfold query at 1. cbn [w_needs_rollback w_view w_broker w_offered].
  rewrite Hget, Hdup.
  unfold st_bind at 1. unfold st_lift at 1.
  unfold preprocess_persian_text in Hpre. rewrite Hpre, Htext. cbn [negb].
  unfold st_bind at 1. unfold utcnow at 1.
  cbn [w_clock w_readings w_db w_view w_needs_rollback w_queue w_broker w_offered].
  unfold st_bind at 1. unfold query at 1. cbn [w_needs_rollback w_view w_broker w_offered].
  destruct (filter (is_recent news_item (clk rd - 7 * Time.usec_per_day)) (news_items v))
    as [|r0 rs] eqn:Hf.
  { cbn in Hwin. congruence. }
  unfold st_bind at 1. unfold st_lift at 1.
  rewrite Hwin.
  destruct candidates as [|c0 cs]; [congruence|].
  cbn [map List.length].
  replace (Z.of_nat (S (S (List.length (map fst cs)))) <? 2) with false
    by (symmetry; apply Z.ltb_ge; lia).
  reflexivity.
Qed.



(** The group block from a session with no open transaction either commits
    the new group with its founding member or raises with nothing
    committed. *)
Lemma new_group_for_outcome (w : world) (item : NewsItem.t) :
  w_view w = w_db w ->
  exists r w',
    new_group_for item w = (r, w') /\
    w_view w' = w_db w' /\
    w_queue w' = w_queue w /\
    ((exists e, r = Raise e /\ w_db w' = w_db w) \/
     (r = Ok (next_id (map NewsGroup.id (news_groups (w_db w)))) /\
      w_needs_rollback w' = false /\
      exists k t1 t2, w_db w' = with_new_group (w_db w) item k t1 t2)).
Proof.
  intros Hv. destruct w as [d v nr clk rd q br off]. cbn [w_view w_db w_queue w_broker w_offered] in *. subst v.
  unfold new_group_for, insert_news_group, insert_group_item.
  unfold st_bind, query, utcnow, write, commit, fail_flush, st_ret.
  cbn [w_needs_rollback w_view w_clock w_readings w_queue w_db news_groups news_group_items
       news_items news_agencies analysis_results w_broker w_offered].
  destruct nr.
  - do 2 eexists. split; [reflexivity|]. split; [reflexivity|]. split; [reflexivity|].
    left. eexists. split; reflexivity.
  - cbn [w_needs_rollback w_view w_clock w_readings w_queue w_db news_groups news_group_items
         news_items news_agencies analysis_results w_broker w_offered].
    destruct (existsb _ (news_group_items d)).
    + do 2 eexists. split; [reflexivity|]. split; [reflexivity|]. split; [reflexivity|].
      left. eexists. split; reflexivity.
    + do 2 eexists. split; [reflexivity|]. split; [reflexivity|]. split; [reflexivity|].
      right. split; [reflexivity|]. split; [reflexivity|].
      do 3 eexists. reflexivity.
Qed.

(** The group block on a usable session under the foreign key: a group
    with the next key and the article's title, and the article as its
    member at score 1.0. *)
Lemma new_group_for_creates (w : world) (news_item : NewsItem.t) :
  w_needs_rollback w = false ->
  groups_exist (w_view w) ->
  let g := next_id (map NewsGroup.id (news_groups (w_view w))) in
  let d' := mk_db (news_agencies (w_view w)) (news_items (w_view w))
                  (news_groups (w_view w) ++
                     [NewsGroup.mk g (NewsItem.title news_item)
                                   (Some (w_clock w (w_readings w)))])
                  (news_group_items (w_view w) ++
                     [membership_added w g news_item 1%float (w_clock w (S (w_readings w)))])
                  (analysis_results (w_view w)) in
  new_group_for news_item w
    = (Ok g, mk_world d' d' false (w_clock w) (S (S (w_readings w))) (w_queue w) (w_broker w) (w_offered w)).
Proof.
  intros Hr Hfk g d'.
  pose proof (next_group_has_no_member (w_view w) (NewsItem.id news_item) Hfk) as Hfresh.
  destruct w as [d v nr clk rd q br off].
  cbn [w_needs_rollback w_view w_clock w_readings w_queue w_db w_broker w_offered] in *. subst nr.
  unfold new_group_for, insert_news_group, insert_group_item.
  unfold st_bind, query, utcnow, write, commit, st_ret.
  cbn [w_needs_rollback w_view w_clock w_readings w_queue w_db news_groups news_group_items
       news_items news_agencies analysis_results w_broker w_offered].
  subst g d'. cbn [w_view w_clock w_readings w_broker w_offered]. rewrite Hfresh. reflexivity.
Qed.

(** The similarity step when the best candidate clears the threshold but has
    no membership: the code falls through to the group block. *)
Lemma match_without_group (w : world) (news_item : NewsItem.t) (texts : list pystr)
  (candidate_ids : list Z) (similarities : list float) (idx : nat) (score : float)
  (similar_item_id : Z) :
  w_needs_rollback w = false ->
  tfidf_similarities texts = Ok similarities ->
  np_argmax similarities = Ok idx ->
  nth_error similarities idx = Some score ->
  float_ge score similarity_threshold = true ->
  nth_error candidate_ids idx = Some similar_item_id ->
  first_group_item (w_view w) similar_item_id = None ->
  match_and_group news_item texts (NewsItem.id news_item :: candidate_ids) w
    = (g <- new_group_for news_item ;;
       st_ret (mk_result "new_group" (Some g) None None (Some score) None))%st w.
Proof.
  intros Hr Htf Harg Hnth Hge Hid Hfirst.
  destruct w as [d v nr clk rd q br off]. cbn [w_needs_rollback w_view w_broker w_offered] in *. subst nr.
  unfold match_and_group, Analysis.match_and_group.
  unfold st_bind at 1. unfold st_lift at 1. rewrite Htf.
  unfold st_bind at 1. unfold st_lift at 1. rewrite Harg.
  unfold st_bind at 1. unfold st_lift at 1. unfold index at 1. rewrite Hnth.
  rewrite Hge.
  unfold st_bind at 1. unfold st_lift at 1. unfold index at 1.
  rewrite Nat.add_1_r. cbn [nth_error]. rewrite Hid.
  unfold st_bind at 1. unfold query at 1. cbn [w_needs_rollback w_view w_broker w_offered].
  unfold st_bind at 1. unfold query at 1. cbn [w_needs_rollback w_view w_broker w_offered].
  rewrite Hfirst. reflexivity.
Qed.


(** C8: when the best score reaches the grouping threshold but the matched
    candidate has no membership, the analysis does not fail: it answers
    [new_group], keeping the score, and creates one group titled after the
    article with the article as its only member at score 1.0; no article is
    changed and nothing is queued. *)
Theorem unresolved_match_starts_group (w : world) (news_item_id : Z) (news_item : NewsItem.t)
  (item_text : pystr) (candidates : list (pystr * Z)) (similarities : list float)
  (idx : nat) (score : float) (similar_item_id : Z) :
  clean w ->
  groups_exist (w_db w) ->
  get_news_item (w_db w) news_item_id = Some news_item ->
  NewsItem.is_duplicate news_item = false ->
  preprocess_persian_text (text_of news_item) = Ok item_text ->
  str_truthy (strip item_text) = true ->
  window w news_item = Ok candidates ->
  tfidf_similarities (item_text :: map fst candidates) = Ok similarities ->
  np_argmax similarities = Ok idx ->
  nth_error similarities idx = Some score ->
  float_ge score similarity_threshold = true ->
  nth_error (map snd candidates) idx = Some similar_item_id ->
  first_group_item (w_db w) similar_item_id = None ->
  let g := next_id (map NewsGroup.id (news_groups (w_db w))) in
  exists w',
    analyze_news_item news_item_id w
      = (Ok (mk_result "new_group" (Some g) None None (Some score) None), w') /\
    clean w' /\
    news_groups (w_db w')
      = news_groups (w_db w) ++
        [NewsGroup.mk g (NewsItem.title news_item) (Some (w_clock w (S (w_readings w))))] /\
    news_group_items (w_db w')
      = news_group_items (w_db w) ++
        [membership_added w g news_item 1%float (w_clock w (S (S (w_readings w))))] /\
    memberships_of (w_db w') (NewsItem.id news_item)
      = memberships_of (w_db w) (NewsItem.id news_item) ++
        [membership_added w g news_item 1%float (w_clock w (S (S (w_readings w))))] /\
    filter (fun x => NewsGroupItem.news_group_id x =? g) (news_group_items (w_db w'))
      = [membership_added w g news_item 1%float (w_clock w (S (S (w_readings w))))] /\
    news_items (w_db w') = news_items (w_db w) /\
    w_queue w' = w_queue w.
Proof.
  intros [Hr Hv] Hfk Hget Hdup Hpre Htext Hwin Htf Harg Hnth Hge Hid Hfirst g.
  assert (Hne : candidates <> []).
  { intros ->. destruct idx; discriminate. }
  pose proof (next_group_has_no_member (w_db w) (NewsItem.id news_item) Hfk) as Hfresh.
  assert (Hnone : filter (fun x => NewsGroupItem.news_group_id x =? g)
                         (news_group_items (w_db w)) = []).
  { destruct (filter _ _) as [|x l] eqn:E; [reflexivity|].
    assert (Hx : In x (filter (fun x => NewsGroupItem.news_group_id x =? g)
                              (news_group_items (w_db w)))) by (rewrite E; left; reflexivity).
    apply filter_In in Hx as [Hx Hg].
    apply Z.eqb_eq in Hg. specialize (Hfk x Hx). apply next_id_above in Hfk.
    subst g. lia. }
  rewrite <- Hv in Hget, Hfirst, Hfk.
  rewrite (analyze_reaches_match w news_item_id news_item item_text candidates
             Hr Hget Hdup Hpre Htext Hwin Hne).
  unfold st_try.
  rewrite (match_without_group (after_reading w) news_item (item_text :: map fst candidates)
             (map snd candidates) similarities idx score similar_item_id
             Hr Htf Harg Hnth Hge Hid Hfirst).
  unfold st_bind.
  rewrite (new_group_for_creates (after_reading w) news_item Hr Hfk).
  cbn [after_reading w_db w_view w_needs_rollback w_queue w_clock w_readings st_ret w_broker w_offered].
  rewrite Hv. fold g. eexists. split; [reflexivity|].
  cbn [w_db w_view w_needs_rollback w_queue w_clock w_readings news_items
       news_groups news_group_items w_broker w_offered].
  split; [split; reflexivity|].
  split; [reflexivity|]. split; [reflexivity|].
  split; [|split; [|split; reflexivity]].
  - unfold memberships_of. cbn [news_group_items]. rewrite filter_app. f_equal.
    cbn. rewrite Z.eqb_refl. reflexivity.
  - rewrite filter_app, Hnone. cbn. rewrite Z.eqb_refl. reflexivity.
Qed.

End MatchFacts.



Lemma unresolved_match_starts_group_witness :
  exists w',
    analyze_news_item plain_normalize plain_tokenize [] (fixed_scores [0.8%float]) 0 2
                      (initial_world db_ungrouped noon_clock)
      = (Ok (mk_result "new_group" (Some 1) None None (Some 0.8%float) None), w') /\
    news_groups (w_db w') = [NewsGroup.mk 1 headline' (Some noon)] /\
    news_group_items (w_db w') = [NewsGroupItem.mk 1 1 2 (Some 1%float) (Some noon)].
Proof.
  destruct (unresolved_match_starts_group plain_normalize plain_tokenize [] (fixed_scores [0.8%float]) 0
              (initial_world db_ungrouped noon_clock) 2
              (article 2 headline' (Some (noon + 47 * minute)) false)
              headline' [(headline, 1)] [0.8%float] 0%nat 0.8%float 1)
    as (w' & E & _ & G & M & _);
    try reflexivity.
  - split; reflexivity.
  - intros gi [].
  - exists w'. split; [exact E|]. split; [exact G|exact M].
Defined.

(** *** The speed calculator *)

Lemma find_filter_head {A} (p : A -> bool) (l : list A) :
  find p l = hd_error (filter p l).
Proof.
  induction l as [|x l IH]; [reflexivity|]. cbn. destruct (p x); [reflexivity|exact IH].
Qed.

(** The query of line 254 finds a row exactly when the article has a speed
    metric. *)
Lemma first_result_speed_rows (d : db) (i : Z) :
  first_result d i speed_type = hd_error (speed_rows d i).
Proof. apply find_filter_head. Qed.

Lemma speed_rows_with_results (d : db) (added : list AnalysisResult.t) (i : Z) :
  speed_rows (with_results d added) i = speed_rows d i ++ metrics_of i added.
Proof. unfold speed_rows, with_results, metrics_of. cbn. apply filter_app. Qed.

Lemma with_results_nil (d : db) : with_results d [] = d.
Proof. destruct d. unfold with_results. cbn. rewrite app_nil_r. reflexivity. Qed.

Lemma with_results_app (d : db) (a b : list AnalysisResult.t) :
  with_results (with_results d a) b = with_results d (a ++ b).
Proof. unfold with_results. cbn. rewrite app_assoc. reflexivity. Qed.

(** The loop of lines 248 to 267 on a usable session: it returns, touches
    nothing but the analysis results of the open transaction, and adds for an
    article one metric, the difference to the first time, exactly when the
    article has a row in the loop and had no metric before. *)
Lemma speed_loop_adds (t0 : Z) (rows : list (NewsItem.t * NewsGroupItem.t)) :
  forall (speeds : Z) (w : world),
  w_needs_rollback w = false ->
  exists added k,
    speed_loop (Some t0) rows speeds w
      = (Ok (speeds + Z.of_nat (List.length added)),
         mk_world (w_db w) (with_results (w_view w) added) false (w_clock w) k (w_queue w) (w_broker w) (w_offered w)) /\
    (List.length added <= List.length rows)%nat /\
    forall i,
      map AnalysisResult.value (metrics_of i added)
        = match speed_rows (w_view w) i, first_time_of i rows with
          | [], Some t => [Some (FloatText (time_diff t t0))]
          | _, _ => []
          end.
Proof.
  induction rows as [|[n gi] rest IH]; intros speeds w Hr.
  - exists [], (w_readings w). destruct w as [d v nr clk rd q br off]. cbn in *. subst.
    rewrite with_results_nil, Z.add_0_r. split; [reflexivity|]. split; [apply Nat.le_refl|].
    intros i. destruct (speed_rows v i); reflexivity.
  - cbn [speed_loop first_time_of].
    destruct (NewsItem.publication_timestamp n) as [t|] eqn:Ht; [|destruct (IH speeds w Hr) as (added & k & E & Hlen & Hadd);
       exists added, k; split; [exact E|]; split; [cbn [List.length]; lia|exact Hadd]].
    destruct w as [d v nr clk rd q br off]. cbn [w_needs_rollback w_view w_db w_clock w_queue w_broker w_offered] in *.
    subst nr.
    unfold st_bind at 1. unfold st_lift at 1.
    unfold st_bind at 1. unfold query at 1. cbn [w_needs_rollback w_view w_broker w_offered].
    rewrite first_result_speed_rows.
    destruct (speed_rows v (NewsItem.id n)) as [|r0 rs] eqn:Hrows; cbn [hd_error].
    + (* no metric yet: one is added *)
      unfold st_bind at 1. unfold utcnow at 1.
      cbn [w_needs_rollback w_view w_db w_clock w_readings w_queue w_broker w_offered].
      unfold st_bind at 1. unfold insert_analysis_result at 1.
      unfold st_bind at 1. unfold query at 1. cbn [w_needs_rollback w_view w_broker w_offered].
      unfold write at 1. cbn [w_needs_rollback w_view w_db w_clock w_readings w_queue w_broker w_offered].
      set (row := AnalysisResult.mk (next_id (map AnalysisResult.id (analysis_results v)))
                                    (NewsItem.id n) speed_type
                                    (Some (FloatText (time_diff t t0)))
                                    (Some (clk rd))).
      change (mk_db (news_agencies v) (news_items v) (news_groups v)
                    (news_group_items v) (analysis_results v ++ [row]))
        with (with_results v [row]).
      destruct (IH (speeds + 1) (mk_world d (with_results v [row]) false clk (S rd) q br off) eq_refl)
        as (added & k & E & Hlen & Hadd).
      exists (row :: added), k.
      rewrite E. cbn [w_db w_view w_clock w_queue w_broker w_offered].
      rewrite with_results_app. cbn [app List.length]. rewrite Nat2Z.inj_succ.
      split; [f_equal; f_equal; lia|]. split; [lia|].
      intros i. specialize (Hadd i). cbn [w_view w_broker w_offered] in Hadd.
      rewrite speed_rows_with_results in Hadd.
      unfold metrics_of at 1. cbn [filter]. fold (metrics_of i added).
      unfold metrics_of at 2 in Hadd. cbn [filter] in Hadd.
      cbn [AnalysisResult.news_item_id AnalysisResult.analysis_type row] in Hadd |- *.
      destruct (NewsItem.id n =? i) eqn:Ei.
      * apply Z.eqb_eq in Ei. subst i. rewrite Hrows in Hadd |- *.
        change (String.eqb speed_type speed_type) with true in Hadd |- *.
        cbn [andb app map] in Hadd |- *.
        rewrite Hadd. reflexivity.
      * cbn [andb] in Hadd |- *. rewrite app_nil_r in Hadd. exact Hadd.
    + (* a metric exists: nothing is added *)
      destruct (IH speeds (mk_world d v false clk rd q br off) eq_refl) as (added & k & E & Hlen & Hadd).
      exists added, k. split; [exact E|]. split; [cbn [List.length]; lia|].
      intros i. specialize (Hadd i). cbn [w_view w_broker w_offered] in Hadd.
      destruct (NewsItem.id n =? i) eqn:Ei; [|exact Hadd].
      apply Z.eqb_eq in Ei. subst i. rewrite Hrows in Hadd |- *.
      exact Hadd.
Qed.

(** When every row of the loop already has a metric, the loop does
    nothing. *)
Lemma speed_loop_noop (t0 : Z) (rows : list (NewsItem.t * NewsGroupItem.t)) (speeds : Z)
  (w : world) :
  w_needs_rollback w = false ->
  (forall row t, In row rows -> NewsItem.publication_timestamp (fst row) = Some t ->
                 speed_rows (w_view w) (NewsItem.id (fst row)) <> []) ->
  speed_loop (Some t0) rows speeds w = (Ok speeds, w).
Proof.
  intros Hr. induction rows as [|[n gi] rest IH]; intros Hall; [reflexivity|].
  cbn [speed_loop].
  destruct (NewsItem.publication_timestamp n) as [t|] eqn:Ht.
  - unfold st_bind at 1. unfold st_lift at 1.
    unfold st_bind at 1. unfold query at 1. rewrite Hr.
    rewrite first_result_speed_rows.
    specialize (Hall (n, gi) t (or_introl eq_refl) Ht) as Hn. cbn [fst] in Hn.
    destruct (speed_rows (w_view w) (NewsItem.id n)); [congruence|]. cbn [hd_error].
    apply IH. intros row t' Hin. apply Hall. right. exact Hin.
  - apply IH. intros row t' Hin. apply Hall. right. exact Hin.
Qed.

Lemma first_time_of_in (i : Z) (rows : list (NewsItem.t * NewsGroupItem.t)) :
  forall row t, In row rows -> NewsItem.publication_timestamp (fst row) = Some t ->
                NewsItem.id (fst row) = i -> first_time_of i rows <> None.
Proof.
  induction rows as [|[n gi] rest IH]; intros row t Hin Ht Hi; [destruct Hin|].
  cbn [first_time_of]. destruct Hin as [<-|Hin].
  - cbn [fst] in *. rewrite Ht, Hi, Z.eqb_refl. discriminate.
  - destruct (NewsItem.publication_timestamp n); [|eapply IH; eassumption].
    destruct (NewsItem.id n =? i); [discriminate|eapply IH; eassumption].
Qed.

Lemma first_time_of_absent (i : Z) (rows : list (NewsItem.t * NewsGroupItem.t)) :
  ~ In i (map (fun row => NewsItem.id (fst row)) rows) -> first_time_of i rows = None.
Proof.
  induction rows as [|[n gi] rest IH]; intros Hni; [reflexivity|].
  cbn [first_time_of]. cbn [map fst In] in Hni.
  destruct (NewsItem.id n =? i) eqn:E; [apply Z.eqb_eq in E; tauto|].
  destruct (NewsItem.publication_timestamp n); apply IH; tauto.
Qed.

Lemma first_time_of_own (rows : list (NewsItem.t * NewsGroupItem.t)) :
  NoDup (map (fun row => NewsItem.id (fst row)) rows) ->
  forall row t, In row rows -> NewsItem.publication_timestamp (fst row) = Some t ->
                first_time_of (NewsItem.id (fst row)) rows = Some t.
Proof.
  induction rows as [|[n gi] rest IH]; intros Hnd row t Hin Ht; [destruct Hin|].
  cbn [map fst] in Hnd. inversion Hnd as [|? ? Hni Hnd']; subst.
  cbn [first_time_of]. destruct Hin as [<-|Hin].
  - cbn [fst] in *. rewrite Ht, Z.eqb_refl. reflexivity.
  - assert (E : (NewsItem.id n =? NewsItem.id (fst row)) = false).
    { apply Z.eqb_neq. intros Heq. apply Hni. rewrite Heq.
      apply (in_map (fun row => NewsItem.id (fst row))). exact Hin. }
    rewrite E. destruct (NewsItem.publication_timestamp n); apply IH; assumption.
Qed.

(** *** The order of the rows *)

Lemma insert_row_perm (x : NewsItem.t * NewsGroupItem.t) (l : list (NewsItem.t * NewsGroupItem.t)) :
  Permutation (insert_row x l) (x :: l).
Proof.
  induction l as [|y l IH]; [reflexivity|]. cbn [insert_row].
  destruct (time_key x <=? time_key y); [reflexivity|].
  rewrite IH. apply perm_swap.
Qed.

Lemma order_by_time_perm (l : list (NewsItem.t * NewsGroupItem.t)) :
  Permutation (order_by_time l) l.
Proof.
  induction l as [|x l IH]; [reflexivity|]. cbn [order_by_time fold_right].
  rewrite insert_row_perm. constructor. exact IH.
Qed.

Lemma insert_row_sorted (x : NewsItem.t * NewsGroupItem.t) (l : list (NewsItem.t * NewsGroupItem.t)) :
  StronglySorted (fun a b => time_key a <= time_key b) l ->
  StronglySorted (fun a b => time_key a <= time_key b) (insert_row x l).
Proof.
  induction 1 as [|y l Hs IH Hy]; cbn [insert_row].
  - repeat constructor.
  - destruct (time_key x <=? time_key y) eqn:E.
    + apply Z.leb_le in E. constructor; [constructor; assumption|].
      constructor; [exact E|].
      eapply Forall_impl; [|exact Hy]. cbn. intros a Ha. lia.
    + apply Z.leb_gt in E. constructor; [exact IH|].
      apply Forall_forall. intros a Ha.
      apply (Permutation_in _ (insert_row_perm x l)) in Ha. destruct Ha as [<-|Ha]; [lia|].
      rewrite Forall_forall in Hy. apply Hy. exact Ha.
Qed.

Lemma order_by_time_sorted (l : list (NewsItem.t * NewsGroupItem.t)) :
  StronglySorted (fun a b => time_key a <= time_key b) (order_by_time l).
Proof.
  induction l as [|x l IH]; [constructor|]. cbn [order_by_time fold_right].
  apply insert_row_sorted. exact IH.
Qed.

(** Every row of the query has a publication time, and the first row has
    the earliest. *)
Lemma query_rows_timestamped (d : db) (g : Z) (row : NewsItem.t * NewsGroupItem.t) :
  In row (group_items_query d g) ->
  exists t, NewsItem.publication_timestamp (fst row) = Some t /\ time_key row = t.
Proof.
  intros Hin. unfold group_items_query in Hin.
  apply (Permutation_in _ (order_by_time_perm _)) in Hin.
  unfold joined_rows in Hin. apply in_flat_map in Hin as (gi & _ & Hin).
  apply in_map_iff in Hin as (n & <- & Hn). apply filter_In in Hn as [_ Hn].
  apply andb_true_iff in Hn as [_ Hn]. cbn [fst]. unfold time_key. cbn [fst].
  destruct (NewsItem.publication_timestamp n) as [t|]; [|discriminate].
  exists t. split; reflexivity.
Qed.

Lemma query_head_earliest (d : db) (g : Z) (first : NewsItem.t * NewsGroupItem.t)
  (rest : list (NewsItem.t * NewsGroupItem.t)) :
  group_items_query d g = first :: rest ->
  forall row, In row (first :: rest) -> time_key first <= time_key row.
Proof.
  intros Hq row Hin. pose proof (order_by_time_sorted (joined_rows d g)) as Hs.
  fold (group_items_query d g) in Hs. rewrite Hq in Hs.
  inversion Hs as [|? ? _ Hall]; subst. destruct Hin as [<-|Hin]; [lia|].
  rewrite Forall_forall in Hall. apply Hall. exact Hin.
Qed.

(** *** The calculator as a whole *)

Lemma calculate_not_found (w : world) (g : Z) :
  w_needs_rollback w = false ->
  get_news_group (w_view w) g = None ->
  calculate_publication_speed g w = (Ok (mk_speed_result "group_not_found" None None None), w).
Proof.
  intros Hr Hg. destruct w as [d v nr clk rd q br off].
  cbn [w_needs_rollback w_view w_broker w_offered] in *. subst nr.
  unfold calculate_publication_speed, st_try.
  unfold st_bind at 1. unfold query at 1. cbn [w_needs_rollback w_view w_broker w_offered]. rewrite Hg.
  reflexivity.
Qed.

Lemma calculate_insufficient (w : world) (g : Z) (group : NewsGroup.t) :
  w_needs_rollback w = false ->
  get_news_group (w_view w) g = Some group ->
  Z.of_nat (List.length (group_items_query (w_view w) g)) < 2 ->
  calculate_publication_speed g w
    = (Ok (mk_speed_result "insufficient_items" None None None), w).
Proof.
  intros Hr Hg Hlen. destruct w as [d v nr clk rd q br off].
  cbn [w_needs_rollback w_view w_broker w_offered] in *. subst nr.
  unfold calculate_publication_speed, st_try.
  unfold st_bind at 1. unfold query at 1. cbn [w_needs_rollback w_view w_broker w_offered]. rewrite Hg.
  unfold st_bind at 1. unfold query at 1. cbn [w_needs_rollback w_view w_broker w_offered].
  apply Z.ltb_lt in Hlen. rewrite Hlen. reflexivity.
Qed.

Lemma calculate_success (w : world) (g : Z) (group : NewsGroup.t)
  (first : NewsItem.t * NewsGroupItem.t) (rest : list (NewsItem.t * NewsGroupItem.t)) (t0 : Z) :
  clean w ->
  get_news_group (w_db w) g = Some group ->
  group_items_query (w_db w) g = first :: rest ->
  rest <> [] ->
  NewsItem.publication_timestamp (fst first) = Some t0 ->
  exists added k,
    calculate_publication_speed g w
      = (Ok (mk_speed_result "success" (Some g) (Some (Z.of_nat (List.length added))) None),
         mk_world (with_results (w_db w) added) (with_results (w_db w) added) false
                  (w_clock w) k (w_queue w) (w_broker w) (w_offered w)) /\
    (List.length added <= List.length rest)%nat /\
    forall i,
      map AnalysisResult.value (metrics_of i added)
        = match speed_rows (w_db w) i, first_time_of i rest with
          | [], Some t => [Some (FloatText (time_diff t t0))]
          | _, _ => []
          end.
Proof.
  intros [Hr Hv] Hg Hq Hne Ht0.
  destruct w as [d v nr clk rd q br off]. cbn [w_needs_rollback w_view w_db w_clock w_queue w_broker w_offered] in *.
  subst nr v.
  destruct (speed_loop_adds t0 rest 0 (mk_world d d false clk rd q br off) eq_refl)
    as (added & k & E & Hlen & Hadd).
  exists added, k. split; [|split; [exact Hlen|exact Hadd]].
  unfold calculate_publication_speed, st_try.
  unfold st_bind at 1. unfold query at 1. cbn [w_needs_rollback w_view w_broker w_offered]. rewrite Hg.
  unfold st_bind at 1. unfold query at 1. cbn [w_needs_rollback w_view w_broker w_offered]. rewrite Hq.
  replace (Z.of_nat (List.length (first :: rest)) <? 2) with false.
  2:{ symmetry. apply Z.ltb_ge. destruct rest; [congruence|]. cbn [List.length]. lia. }
  destruct first as [first_item first_gi]. cbn [fst] in Ht0. rewrite Ht0.
  unfold st_bind at 1. rewrite E.
  unfold st_bind, commit, st_ret. cbn [w_needs_rollback w_view w_db w_clock w_readings w_queue w_broker w_offered].
  rewrite Z.add_0_l. reflexivity.
Qed.

Lemma map_singleton {A B} (f : A -> B) (l : list A) (b : B) :
  map f l = [b] -> exists a, l = [a] /\ f a = b.
Proof.
  destruct l as [|a [|a' l]]; try discriminate.
  intros H. injection H as H. exists a. split; [reflexivity|exact H].
Qed.

(** C5 (as amended): for a stored group, fewer than two members with a
    publication time give [insufficient_items] and change nothing; otherwise
    the calculator succeeds, the first row of the query carries the earliest
    publication time, every member after the first that has no speed metric
    yet receives exactly one, the float [(t - earliest) / 60 seconds], the
    metrics that existed are kept as they are, and no other article, the
    first member included, receives one. *)
Theorem later_members_get_one_metric (w : world) (g : Z) (group : NewsGroup.t) :
  clean w ->
  get_news_group (w_db w) g = Some group ->
  (timestamped_count (w_db w) g < 2 ->
     calculate_publication_speed g w
       = (Ok (mk_speed_result "insufficient_items" None None None), w)) /\
  (forall first rest,
     group_items_query (w_db w) g = first :: rest -> rest <> [] ->
     exists t0 added w',
       NewsItem.publication_timestamp (fst first) = Some t0 /\
       (forall row, In row (first :: rest) ->
          exists t, NewsItem.publication_timestamp (fst row) = Some t /\ t0 <= t) /\
       calculate_publication_speed g w
         = (Ok (mk_speed_result "success" (Some g) (Some (Z.of_nat (List.length added))) None),
            w') /\
       clean w' /\
       w_db w' = with_results (w_db w) added /\
       (forall row t,
          In row rest ->
          NoDup (map (fun row => NewsItem.id (fst row)) rest) ->
          NewsItem.publication_timestamp (fst row) = Some t ->
          speed_rows (w_db w) (NewsItem.id (fst row)) = [] ->
          exists r, speed_rows (w_db w') (NewsItem.id (fst row)) = [r] /\
                    AnalysisResult.value r = Some (FloatText (time_diff t t0))) /\
       (forall i, speed_rows (w_db w) i <> [] ->
                  speed_rows (w_db w') i = speed_rows (w_db w) i) /\
       (forall i, ~ In i (map (fun row => NewsItem.id (fst row)) rest) ->
                  speed_rows (w_db w') i = speed_rows (w_db w) i)).
Proof.
  intros Hc Hg. split.
  - intros Hlen. destruct Hc as [Hr Hv]. rewrite <- Hv in Hg, Hlen.
    eapply calculate_insufficient; eassumption.
  - intros first rest Hq Hne.
    destruct (query_rows_timestamped (w_db w) g first) as (t0 & Ht0 & Hk0);
      [rewrite Hq; left; reflexivity|].
    destruct (calculate_success w g group first rest t0 Hc Hg Hq Hne Ht0)
      as (added & k & E & _ & Hadd).
    exists t0, added. eexists. split; [exact Ht0|]. split; [|split; [exact E|]].
    { intros row Hin.
      destruct (query_rows_timestamped (w_db w) g row) as (t & Ht & Hk);
        [rewrite Hq; exact Hin|].
      exists t. split; [exact Ht|].
      pose proof (query_head_earliest (w_db w) g first rest Hq row Hin). lia. }
    cbn [w_db w_view w_needs_rollback w_broker w_offered].
    split; [split; reflexivity|]. split; [reflexivity|].
    split; [|split].
    + intros row t Hin Hnd Ht Hnone.
      specialize (Hadd (NewsItem.id (fst row))).
      rewrite Hnone, (first_time_of_own rest Hnd row t Hin Ht) in Hadd.
      apply map_singleton in Hadd as (r & Hr & Hval).
      exists r. rewrite speed_rows_with_results, Hnone, Hr. split; [reflexivity|exact Hval].
    + intros i Hsome. specialize (Hadd i).
      destruct (speed_rows (w_db w) i) as [|r0 rs] eqn:Hi; [congruence|].
      apply map_eq_nil in Hadd. rewrite speed_rows_with_results, Hi, Hadd, app_nil_r.
      reflexivity.
    + intros i Hni. specialize (Hadd i).
      rewrite (first_time_of_absent i rest Hni) in Hadd.
      assert (Hnil : metrics_of i added = []).
      { apply map_eq_nil with (f := AnalysisResult.value).
        destruct (speed_rows (w_db w) i); exact Hadd. }
      rewrite speed_rows_with_results, Hnil, app_nil_r. reflexivity.
Qed.

Lemma later_members_get_one_metric_witness :
  exists n w',
    calculate_publication_speed 1 (initial_world db_group_47 noon_clock)
      = (Ok (mk_speed_result "success" (Some 1) (Some n) None), w') /\
    map AnalysisResult.value (speed_rows (w_db w') 2) = [Some (FloatText 47%float)].
Proof.
  destruct (proj2 (later_members_get_one_metric (initial_world db_group_47 noon_clock) 1
                     (NewsGroup.mk 1 headline (Some noon))
                     (conj eq_refl eq_refl) eq_refl)
                  (article 1 headline (Some noon) false,
                   NewsGroupItem.mk 1 1 1 (Some 1%float) (Some noon))
                  [(article 2 headline' (Some (noon + 47 * minute)) false,
                    NewsGroupItem.mk 2 1 2 (Some 0.8%float) (Some noon))]
                  eq_refl ltac:(discriminate))
    as (t0 & added & w' & Ht0 & _ & E & _ & _ & Hone & _).
  injection Ht0 as <-.
  destruct (Hone (article 2 headline' (Some (noon + 47 * minute)) false,
                  NewsGroupItem.mk 2 1 2 (Some 0.8%float) (Some noon))
                 (noon + 47 * minute) (or_introl eq_refl)
                 ltac:(constructor; [intros []|constructor]) eq_refl eq_refl)
    as (r & Hr & Hval).
  exists (Z.of_nat (List.length added)), w'. split; [exact E|].
  cbn [fst article NewsItem.id] in Hr. rewrite Hr. cbn [map]. rewrite Hval. reflexivity.
Defined.

(** C5, the claim as stated: in the group whose members were published at
    noon and 47 minutes later, the first member has a publication time and no
    speed metric, and the calculator gives it none; the second member's
    metric is 47. *)
Lemma earliest_member_gets_no_metric :
  let w' := snd (calculate_publication_speed 1 (initial_world db_group_47 noon_clock)) in
  map (fun row => (NewsItem.id (fst row), NewsItem.publication_timestamp (fst row)))
      (group_items_query db_group_47 1)
    = [(1, Some noon); (2, Some (noon + 47 * minute))] /\
  speed_rows db_group_47 1 = [] /\
  speed_rows (w_db w') 1 = [] /\
  map AnalysisResult.value (speed_rows (w_db w') 2) = [Some (FloatText 47%float)].
Proof. cbv zeta. repeat split. Qed.

(** *** Distinct members under the constraints of the schema *)

Lemma matching_items_ids (items : list NewsItem.t) (i : Z) (p : NewsItem.t -> bool) :
  NoDup (map NewsItem.id items) ->
  map NewsItem.id (filter (fun n => (NewsItem.id n =? i) && p n) items) = [] \/
  map NewsItem.id (filter (fun n => (NewsItem.id n =? i) && p n) items) = [i].
Proof.
  induction items as [|n items IH]; intros Hnd; [left; reflexivity|].
  cbn [map] in Hnd. inversion Hnd as [|? ? Hni Hnd']; subst.
  cbn [filter]. destruct (NewsItem.id n =? i) eqn:E; cbn [andb].
  - apply Z.eqb_eq in E.
    assert (Hnone : filter (fun n0 => (NewsItem.id n0 =? i) && p n0) items = []).
    { destruct (filter _ items) as [|x l] eqn:Hf; [reflexivity|]. exfalso.
      assert (Hx : In x (filter (fun n0 => (NewsItem.id n0 =? i) && p n0) items))
        by (rewrite Hf; left; reflexivity).
      apply filter_In in Hx as [Hx Hb]. apply andb_true_iff in Hb as [Hb _].
      apply Z.eqb_eq in Hb. apply Hni. rewrite E, <- Hb. apply in_map. exact Hx. }
    rewrite Hnone. destruct (p n); [right; cbn; rewrite E; reflexivity|left; reflexivity].
  - apply IH. exact Hnd'.
Qed.

(** With the primary key of the news items and the uniqueness of the pair
    of group and item (line 117), the rows of the query are rows of distinct
    articles. *)
Lemma query_ids_distinct (d : db) (g : Z) :
  NoDup (map NewsItem.id (news_items d)) ->
  NoDup (map (fun gi => (NewsGroupItem.news_group_id gi, NewsGroupItem.news_item_id gi))
             (news_group_items d)) ->
  NoDup (map (fun row => NewsItem.id (fst row)) (group_items_query d g)).
Proof.
  intros Hpk Huq.
  apply (Permutation_NoDup (l := map (fun row => NewsItem.id (fst row)) (joined_rows d g))).
  { apply Permutation_map. symmetry. apply order_by_time_perm. }
  unfold joined_rows.
  assert (Hitems : NoDup (map NewsGroupItem.news_item_id
                              (filter (fun gi => NewsGroupItem.news_group_id gi =? g)
                                      (news_group_items d)))).
  { induction (news_group_items d) as [|gi gis IH]; [constructor|].
    cbn [map] in Huq. inversion Huq as [|? ? Hni Hnd']; subst. cbn [filter].
    destruct (NewsGroupItem.news_group_id gi =? g) eqn:E; [|apply IH; exact Hnd'].
    cbn [map]. constructor; [|apply IH; exact Hnd'].
    intros Hin. apply in_map_iff in Hin as (gi' & Hid & Hin').
    apply filter_In in Hin' as [Hin' Hg']. apply Z.eqb_eq in E, Hg'.
    apply Hni. apply in_map_iff. exists gi'. split; [|exact Hin'].
    rewrite Hid, Hg', E. reflexivity. }
  induction (filter (fun gi => NewsGroupItem.news_group_id gi =? g) (news_group_items d))
    as [|gi gis IH]; [constructor|].
  cbn [map] in Hitems. inversion Hitems as [|? ? Hni Hnd']; subst.
  cbn [flat_map]. rewrite map_app, map_map. cbn [fst].
  apply NoDup_app.
  - match goal with |- NoDup (map _ ?l) => change (NoDup (map NewsItem.id l)) end.
    destruct (matching_items_ids (news_items d) (NewsGroupItem.news_item_id gi)
                (fun n => match NewsItem.publication_timestamp n with
                          | Some _ => true | None => false end) Hpk) as [E|E];
      rewrite E; [constructor|constructor; [intros []|constructor]].
  - apply IH. exact Hnd'.
  - intros i Hi Hi'.
    assert (Ei : i = NewsGroupItem.news_item_id gi).
    { apply in_map_iff in Hi as (n & <- & Hn). cbn [fst]. apply filter_In in Hn as [_ Hn].
      apply andb_true_iff in Hn as [Hn _]. apply Z.eqb_eq. exact Hn. }
    subst i. apply Hni.
    apply in_map_iff in Hi' as (row & Hrow & Hin). apply in_flat_map in Hin as (gi' & Hgi' & Hin).
    apply in_map_iff in Hin as (n & <- & Hn). cbn [fst] in Hrow.
    apply filter_In in Hn as [_ Hn]. apply andb_true_iff in Hn as [Hn _].
    apply Z.eqb_eq in Hn. apply in_map_iff. exists gi'. split; [congruence|exact Hgi'].
Qed.

(** *** The rows a run of the calculator adds *)

Lemma speed_loop_added_rows (t0 : Z) (rows : list (NewsItem.t * NewsGroupItem.t)) :
  forall (speeds : Z) (w : world),
  w_needs_rollback w = false ->
  exists added k n,
    speed_loop (Some t0) rows speeds w
      = (Ok n, mk_world (w_db w) (with_results (w_view w) added) false (w_clock w) k (w_queue w) (w_broker w) (w_offered w)) /\
    Forall (fun r => AnalysisResult.analysis_type r = speed_type /\
                     In (AnalysisResult.news_item_id r)
                        (map (fun row => NewsItem.id (fst row)) rows))
           added.
Proof.
  induction rows as [|[n gi] rest IH]; intros speeds w Hr.
  - exists [], (w_readings w), speeds. destruct w as [d v nr clk rd q br off]. cbn in *. subst.
    rewrite with_results_nil. split; [reflexivity|constructor].
  - assert (Hweak : forall speeds' w1 added k m,
               speed_loop (Some t0) rest speeds' w1
                 = (Ok m, mk_world (w_db w1) (with_results (w_view w1) added) false
                                   (w_clock w1) k (w_queue w1) (w_broker w1) (w_offered w1)) ->
               Forall (fun r => AnalysisResult.analysis_type r = speed_type /\
                                In (AnalysisResult.news_item_id r)
                                   (map (fun row => NewsItem.id (fst row)) rest)) added ->
               Forall (fun r => AnalysisResult.analysis_type r = speed_type /\
                                In (AnalysisResult.news_item_id r)
                                   (map (fun row => NewsItem.id (fst row)) ((n, gi) :: rest)))
                      added).
    { intros _ _ added _ _ _ H. eapply Forall_impl; [|exact H].
      cbn. intros r [H1 H2]. split; [exact H1|right; exact H2]. }
    cbn [speed_loop].
    destruct (NewsItem.publication_timestamp n) as [t|] eqn:Ht.
    2:{ destruct (IH speeds w Hr) as (added & k & m & E & Hall).
        exists added, k, m. split; [exact E|eapply Hweak; eassumption]. }
    destruct w as [d v nr clk rd q br off]. cbn [w_needs_rollback w_view w_db w_clock w_queue w_broker w_offered] in *.
    subst nr.
    unfold st_bind at 1. unfold st_lift at 1.
    unfold st_bind at 1. unfold query at 1. cbn [w_needs_rollback w_view w_broker w_offered].
    destruct (first_result v (NewsItem.id n) speed_type).
    + destruct (IH speeds (mk_world d v false clk rd q br off) eq_refl) as (added & k & m & E & Hall).
      exists added, k, m. split; [exact E|eapply Hweak; eassumption].
    + unfold st_bind at 1. unfold utcnow at 1.
      cbn [w_needs_rollback w_view w_db w_clock w_readings w_queue w_broker w_offered].
      unfold st_bind at 1. unfold insert_analysis_result at 1.
      unfold st_bind at 1. unfold query at 1. cbn [w_needs_rollback w_view w_broker w_offered].
      unfold write at 1. cbn [w_needs_rollback w_view w_db w_clock w_readings w_queue w_broker w_offered].
      set (row := AnalysisResult.mk (next_id (map AnalysisResult.id (analysis_results v)))
                                    (NewsItem.id n) speed_type
                                    (Some (FloatText (time_diff t t0)))
                                    (Some (clk rd))).
      change (mk_db (news_agencies v) (news_items v) (news_groups v)
                    (news_group_items v) (analysis_results v ++ [row]))
        with (with_results v [row]).
      destruct (IH (speeds + 1) (mk_world d (with_results v [row]) false clk (S rd) q br off) eq_refl)
        as (added & k & m & E & Hall).
      exists (row :: added), k, m. rewrite E. cbn [w_db w_view w_clock w_queue w_broker w_offered].
      rewrite with_results_app. split; [reflexivity|].
      constructor; [split; [reflexivity|left; reflexivity]|].
      eapply Hweak; eassumption.
Qed.

(** A successful run in terms of the rows it leaves: they are speed metrics
    of articles listed after the first row. *)
Lemma calculate_added_rows (w : world) (g : Z) (group : NewsGroup.t)
  (first : NewsItem.t * NewsGroupItem.t) (rest : list (NewsItem.t * NewsGroupItem.t)) :
  clean w ->
  get_news_group (w_db w) g = Some group ->
  group_items_query (w_db w) g = first :: rest ->
  rest <> [] ->
  exists r added k,
    calculate_publication_speed g w
      = (Ok r, mk_world (with_results (w_db w) added) (with_results (w_db w) added) false
                        (w_clock w) k (w_queue w) (w_broker w) (w_offered w)) /\
    Forall (fun a => AnalysisResult.analysis_type a = speed_type /\
                     In (AnalysisResult.news_item_id a)
                        (map (fun row => NewsItem.id (fst row)) rest))
           added.
Proof.
  intros [Hr Hv] Hg Hq Hne.
  destruct (query_rows_timestamped (w_db w) g first) as (t0 & Ht0 & _);
    [rewrite Hq; left; reflexivity|].
  destruct w as [d v nr clk rd q br off].
  cbn [w_needs_rollback w_view w_db w_clock w_queue w_broker w_offered] in *.
  subst nr v.
  destruct (speed_loop_added_rows t0 rest 0 (mk_world d d false clk rd q br off) eq_refl)
    as (added & k & m & E & Hall).
  unfold calculate_publication_speed, st_try.
  unfold st_bind at 1. unfold query at 1. cbn [w_needs_rollback w_view w_broker w_offered].
  rewrite Hg.
  unfold st_bind at 1. unfold query at 1. cbn [w_needs_rollback w_view w_broker w_offered].
  rewrite Hq.
  replace (Z.of_nat (List.length (first :: rest)) <? 2) with false.
  2:{ symmetry. apply Z.ltb_ge. destruct rest; [congruence|]. cbn [List.length]. lia. }
  destruct first as [first_item first_gi]. cbn [fst] in Ht0. rewrite Ht0.
  unfold st_bind at 1. rewrite E.
  unfold st_bind, commit, st_ret.
  cbn [w_needs_rollback w_view w_db w_clock w_readings w_queue w_broker w_offered].
  do 2 eexists. exists k. split; [reflexivity|exact Hall].
Qed.

Lemma with_results_inj (d : db) (a b : list AnalysisResult.t) :
  with_results d a = with_results d b -> a = b.
Proof.
  unfold with_results. intros H. injection H as H. apply app_inv_head in H. exact H.
Qed.

(** *** Counting the metrics of a group *)

Lemma filter_length_cover {A} (p q r : A -> bool) (l : list A) :
  (forall x, p x = true -> q x = true \/ r x = true) ->
  (List.length (filter p l) <= List.length (filter q l) + List.length (filter r l))%nat.
Proof.
  intros H. induction l as [|x l IH]; [apply Nat.le_refl|]. cbn [filter].
  destruct (p x) eqn:Ep.
  - destruct (H x Ep) as [E|E]; rewrite E; destruct (q x), (r x); cbn [List.length]; lia.
  - destruct (q x), (r x); cbn [List.length]; lia.
Qed.

(** The metrics that belong to some row are at most the metrics of the
    rows' articles taken one row at a time. *)
Lemma group_metrics_le_sum (rows : list (NewsItem.t * NewsGroupItem.t))
  (results : list AnalysisResult.t) :
  Nat.le
    (List.length
       (filter (fun r => String.eqb (AnalysisResult.analysis_type r) speed_type &&
                         existsb (fun row => NewsItem.id (fst row) =? AnalysisResult.news_item_id r)
                                 rows)
               results))
    (list_sum (map (fun row => List.length (metrics_of (NewsItem.id (fst row)) results)) rows)).
Proof.
  induction rows as [|row rows IH]; cbn [map list_sum fold_right existsb].
  - induction results as [|r results IHr]; [apply Nat.le_refl|].
    cbn [filter]. rewrite andb_false_r. exact IHr.
  - etransitivity; [|apply Nat.add_le_mono_l; exact IH].
    apply filter_length_cover. intros r Hr.
    apply andb_true_iff in Hr as [Hty Hex]. apply orb_true_iff in Hex as [Hid|Hex].
    + left. apply Z.eqb_eq in Hid. rewrite Hid, Z.eqb_refl, Hty. reflexivity.
    + right. rewrite Hty, Hex. reflexivity.
Qed.

Lemma sum_at_most_length (rows : list (NewsItem.t * NewsGroupItem.t)) (f : NewsItem.t * NewsGroupItem.t -> nat) :
  (forall row, f row <= 1)%nat -> (list_sum (map f rows) <= List.length rows)%nat.
Proof.
  intros H. induction rows as [|row rows IH]; [apply Nat.le_refl|].
  unfold list_sum in *. cbn [map fold_right List.length]. specialize (H row). lia.
Qed.

(** When no article has more than one speed metric and the first row's
    article has none, the metrics of the group are fewer than its members
    with a publication time. *)
Lemma group_metric_bound (d : db) (g : Z) (first : NewsItem.t * NewsGroupItem.t)
  (rest : list (NewsItem.t * NewsGroupItem.t)) :
  group_items_query d g = first :: rest ->
  (forall i, (List.length (speed_rows d i) <= 1)%nat) ->
  speed_rows d (NewsItem.id (fst first)) = [] ->
  group_metric_count d g <= timestamped_count d g - 1.
Proof.
  intros Hq Hone Hfirst. unfold group_metric_count, timestamped_count. rewrite Hq.
  pose proof (group_metrics_le_sum (first :: rest) (analysis_results d)) as Hsum.
  cbn [map list_sum fold_right] in Hsum.
  fold (speed_rows d (NewsItem.id (fst first))) in Hsum. rewrite Hfirst in Hsum.
  pose proof (sum_at_most_length rest
                (fun row => List.length (metrics_of (NewsItem.id (fst row)) (analysis_results d)))
                (fun row => Hone (NewsItem.id (fst row)))) as Hrest.
  unfold list_sum in *. cbn [List.length] in *. lia.
Qed.

(** C6 (as amended): the calculator always returns; run again on the world
    it left, it answers with the same status, creates no metric and leaves
    the world as it is.  What one run changes in the store are the analysis
    results it appends: as many as it reports, at most the members with a
    publication time minus one, each a speed metric of an article listed
    after the first row of the query, whose publication time is the
    earliest; so under the primary key of the articles and the uniqueness of
    the pair of group and item the earliest member receives none.  And when
    no article has more than one speed metric, the first member has none and
    is not listed twice, the same holds after the run and the metrics of the
    group's members number at most the members with a publication time minus
    one. *)
Theorem calculator_is_idempotent (w : world) (g : Z) :
  clean w ->
  exists r w' added,
    calculate_publication_speed g w = (Ok r, w') /\
    clean w' /\
    (exists r', calculate_publication_speed g w' = (Ok r', w') /\
                speed_status r' = speed_status r /\
                (speeds_calculated r' = None \/ speeds_calculated r' = Some 0)) /\
    w_db w' = with_results (w_db w) added /\
    (speeds_calculated r = None -> added = []) /\
    (forall n, speeds_calculated r = Some n ->
               n = Z.of_nat (List.length added) /\
               0 <= n <= timestamped_count (w_db w) g - 1) /\
    Z.of_nat (List.length added) <= Z.max 0 (timestamped_count (w_db w) g - 1) /\
    Forall (fun a => AnalysisResult.analysis_type a = speed_type /\
                     In (AnalysisResult.news_item_id a)
                        (map (fun row => NewsItem.id (fst row))
                             (tl (group_items_query (w_db w) g))))
           added /\
    (forall first rest,
       group_items_query (w_db w) g = first :: rest ->
       (exists t0, NewsItem.publication_timestamp (fst first) = Some t0 /\
                   forall row, In row rest ->
                     exists t, NewsItem.publication_timestamp (fst row) = Some t /\ t0 <= t) /\
       (NoDup (map NewsItem.id (news_items (w_db w))) ->
        NoDup (map (fun gi => (NewsGroupItem.news_group_id gi, NewsGroupItem.news_item_id gi))
                   (news_group_items (w_db w))) ->
        metrics_of (NewsItem.id (fst first)) added = [] /\
        speed_rows (w_db w') (NewsItem.id (fst first))
          = speed_rows (w_db w) (NewsItem.id (fst first)))) /\
    (forall first rest,
       group_items_query (w_db w) g = first :: rest ->
       (forall i, (List.length (speed_rows (w_db w) i) <= 1)%nat) ->
       speed_rows (w_db w) (NewsItem.id (fst first)) = [] ->
       ~ In (NewsItem.id (fst first)) (map (fun row => NewsItem.id (fst row)) rest) ->
       group_items_query (w_db w') g = first :: rest /\
       (forall i, (List.length (speed_rows (w_db w') i) <= 1)%nat) /\
       speed_rows (w_db w') (NewsItem.id (fst first)) = [] /\
       group_metric_count (w_db w') g <= timestamped_count (w_db w') g - 1).
Proof.
  intros Hc. pose proof Hc as [Hr Hv].
  assert (Hearly : forall first rest,
             group_items_query (w_db w) g = first :: rest ->
             exists t0, NewsItem.publication_timestamp (fst first) = Some t0 /\
                        forall row, In row rest ->
                          exists t, NewsItem.publication_timestamp (fst row) = Some t /\
                                    t0 <= t).
  { intros first rest Hq.
    destruct (query_rows_timestamped (w_db w) g first) as (t0 & Ht0 & Hk0);
      [rewrite Hq; left; reflexivity|].
    exists t0. split; [exact Ht0|]. intros row Hin.
    destruct (query_rows_timestamped (w_db w) g row) as (t & Ht & Hk);
      [rewrite Hq; right; exact Hin|].
    exists t. split; [exact Ht|].
    pose proof (query_head_earliest (w_db w) g first rest Hq row (or_intror Hin)). lia. }
  assert (Hsame : forall r0,
             calculate_publication_speed g w = (Ok r0, w) ->
             speeds_calculated r0 = None ->
             exists r w' added,
               calculate_publication_speed g w = (Ok r, w') /\ clean w' /\
               (exists r', calculate_publication_speed g w' = (Ok r', w') /\
                           speed_status r' = speed_status r /\
                           (speeds_calculated r' = None \/ speeds_calculated r' = Some 0)) /\
               w_db w' = with_results (w_db w) added /\
               (speeds_calculated r = None -> added = []) /\
               (forall n, speeds_calculated r = Some n ->
                          n = Z.of_nat (List.length added) /\
                          0 <= n <= timestamped_count (w_db w) g - 1) /\
               Z.of_nat (List.length added) <= Z.max 0 (timestamped_count (w_db w) g - 1) /\
               Forall (fun a => AnalysisResult.analysis_type a = speed_type /\
                                In (AnalysisResult.news_item_id a)
                                   (map (fun row => NewsItem.id (fst row))
                                        (tl (group_items_query (w_db w) g))))
                      added /\
               (forall first rest,
                  group_items_query (w_db w) g = first :: rest ->
                  (exists t0, NewsItem.publication_timestamp (fst first) = Some t0 /\
                              forall row, In row rest ->
                                exists t, NewsItem.publication_timestamp (fst row) = Some t /\
                                          t0 <= t) /\
                  (NoDup (map NewsItem.id (news_items (w_db w))) ->
                   NoDup (map (fun gi => (NewsGroupItem.news_group_id gi,
                                          NewsGroupItem.news_item_id gi))
                              (news_group_items (w_db w))) ->
                   metrics_of (NewsItem.id (fst first)) added = [] /\
                   speed_rows (w_db w') (NewsItem.id (fst first))
                     = speed_rows (w_db w) (NewsItem.id (fst first)))) /\
               (forall first rest,
                  group_items_query (w_db w) g = first :: rest ->
                  (forall i, (List.length (speed_rows (w_db w) i) <= 1)%nat) ->
                  speed_rows (w_db w) (NewsItem.id (fst first)) = [] ->
                  ~ In (NewsItem.id (fst first)) (map (fun row => NewsItem.id (fst row)) rest) ->
                  group_items_query (w_db w') g = first :: rest /\
                  (forall i, (List.length (speed_rows (w_db w') i) <= 1)%nat) /\
                  speed_rows (w_db w') (NewsItem.id (fst first)) = [] /\
                  group_metric_count (w_db w') g <= timestamped_count (w_db w') g - 1)).
  { intros r0 E Hnone. exists r0, w, []. split; [exact E|]. split; [exact Hc|].
    split; [exists r0; split; [exact E|split; [reflexivity|left; exact Hnone]]|].
    split; [symmetry; apply with_results_nil|].
    split; [reflexivity|].
    split; [intros n Hn; congruence|].
    split; [cbn [List.length]; lia|].
    split; [constructor|].
    split.
    - intros first rest Hq. split; [apply (Hearly first rest Hq)|].
      intros _ _. split; reflexivity.
    - intros first rest Hq Hone Hfirst _. split; [exact Hq|]. split; [exact Hone|].
      split; [exact Hfirst|]. eapply group_metric_bound; eassumption. }
  destruct (get_news_group (w_db w) g) as [group|] eqn:Hg.
  2:{ apply (Hsame (mk_speed_result "group_not_found" None None None)); [|reflexivity].
      apply calculate_not_found; [exact Hr|rewrite Hv; exact Hg]. }
  destruct (group_items_query (w_db w) g) as [|first rest] eqn:Hq.
  { apply (Hsame (mk_speed_result "insufficient_items" None None None)); [|reflexivity].
    eapply calculate_insufficient; [exact Hr|rewrite Hv; exact Hg|].
    rewrite Hv, Hq. cbn. lia. }
  destruct rest as [|second rest'] eqn:Hrest.
  { apply (Hsame (mk_speed_result "insufficient_items" None None None)); [|reflexivity].
    eapply calculate_insufficient; [exact Hr|rewrite Hv; exact Hg|].
    rewrite Hv, Hq. cbn. lia. }
  rewrite <- Hrest in *. clear Hsame.
  assert (Hne : rest <> []) by (rewrite Hrest; discriminate).
  destruct (query_rows_timestamped (w_db w) g first) as (t0 & Ht0 & _);
    [rewrite Hq; left; reflexivity|].
  destruct (calculate_success w g group first rest t0 Hc Hg Hq Hne Ht0)
    as (added & k & E & Hlen & Hadd).
  assert (Hrows : Forall (fun a => AnalysisResult.analysis_type a = speed_type /\
                                   In (AnalysisResult.news_item_id a)
                                      (map (fun row => NewsItem.id (fst row)) rest))
                         added).
  { destruct (calculate_added_rows w g group first rest Hc Hg Hq Hne)
      as (r2 & added2 & k2 & E2 & Hall).
    rewrite E in E2.
    assert (Hdb : with_results (w_db w) added = with_results (w_db w) added2)
      by (apply (f_equal (fun p => w_db (snd p))) in E2; exact E2).
    apply with_results_inj in Hdb. rewrite Hdb. exact Hall. }
  set (d' := with_results (w_db w) added) in *.
  set (w' := mk_world d' d' false (w_clock w) k (w_queue w) (w_broker w) (w_offered w)) in *.
  assert (Hc' : clean w') by (split; reflexivity).
  assert (Hq' : group_items_query (w_db w') g = first :: rest) by exact Hq.
  assert (Hmetric : forall i, speed_rows d' i = speed_rows (w_db w) i ++ metrics_of i added)
    by (intros i; apply speed_rows_with_results).
  eexists _, w', added. split; [exact E|]. split; [exact Hc'|].
  split; [|split; [reflexivity|split; [discriminate|split; [|split; [|split; [|split]]]]]].
  - (* the second run *)
    exists (mk_speed_result "success" (Some g) (Some 0) None).
    split; [|split; [reflexivity|right; reflexivity]].
    unfold calculate_publication_speed, st_try.
    unfold st_bind at 1. unfold query at 1. cbn [w_needs_rollback w_view w' w_broker w_offered].
    change (get_news_group d' g) with (get_news_group (w_db w) g). rewrite Hg.
    unfold st_bind at 1. unfold query at 1. cbn [w_needs_rollback w_view w' w_broker w_offered].
    change (group_items_query d' g) with (group_items_query (w_db w) g). rewrite Hq.
    replace (Z.of_nat (List.length (first :: rest)) <? 2) with false.
    2:{ symmetry. apply Z.ltb_ge. rewrite Hrest. cbn [List.length]. lia. }
    destruct first as [first_item first_gi]. cbn [fst] in Ht0. rewrite Ht0.
    unfold st_bind at 1.
    rewrite (speed_loop_noop t0 rest 0 w' eq_refl).
    + reflexivity.
    + intros row t Hin Ht. unfold w'. cbn [w_view w_broker w_offered]. rewrite Hmetric.
      specialize (Hadd (NewsItem.id (fst row))).
      destruct (speed_rows (w_db w) (NewsItem.id (fst row))) as [|r0 rs]; [|discriminate].
      destruct (first_time_of (NewsItem.id (fst row)) rest) as [t'|] eqn:Hft.
      * cbn [app]. intros Hnil. rewrite Hnil in Hadd. discriminate.
      * exfalso. eapply first_time_of_in; try eassumption. reflexivity.
  - intros n Hn. injection Hn as <-. split; [reflexivity|].
    unfold timestamped_count. rewrite Hq. cbn [List.length]. lia.
  - unfold timestamped_count. rewrite Hq. cbn [List.length]. lia.
  - cbn [tl]. exact Hrows.
  - intros first0 rest0 Hq0. split; [apply (Hearly first0 rest0 Hq0)|].
    injection Hq0 as <- <-. intros Hpk Huq.
    pose proof (query_ids_distinct (w_db w) g Hpk Huq) as Hnd. rewrite Hq in Hnd.
    cbn [map] in Hnd. apply NoDup_cons_iff in Hnd as [Hni _].
    assert (Hnil : metrics_of (NewsItem.id (fst first)) added = []).
    { specialize (Hadd (NewsItem.id (fst first))).
      rewrite (first_time_of_absent _ rest Hni) in Hadd.
      apply map_eq_nil with (f := AnalysisResult.value).
      destruct (speed_rows (w_db w) (NewsItem.id (fst first))); exact Hadd. }
    split; [exact Hnil|]. unfold w'. cbn [w_db]. rewrite Hmetric, Hnil, app_nil_r. reflexivity.
  - intros first0 rest0 Hq0 Hone Hfirst Hni. injection Hq0 as <- <-.
    assert (Hone' : forall i, (List.length (speed_rows d' i) <= 1)%nat).
    { intros i. rewrite Hmetric, length_app. specialize (Hadd i). specialize (Hone i).
      rewrite <- (length_map AnalysisResult.value (metrics_of i added)), Hadd.
      destruct (speed_rows (w_db w) i) as [|r0 rs];
        [destruct (first_time_of i rest)|]; cbn [List.length] in *; lia. }
    assert (Hfirst' : speed_rows d' (NewsItem.id (fst first)) = []).
    { rewrite Hmetric, Hfirst. specialize (Hadd (NewsItem.id (fst first))).
      rewrite Hfirst, (first_time_of_absent _ rest Hni) in Hadd.
      apply map_eq_nil in Hadd. rewrite Hadd. reflexivity. }
    split; [exact Hq'|]. split; [exact Hone'|]. split; [exact Hfirst'|].
    eapply group_metric_bound; eassumption.
Qed.

Lemma calculator_is_idempotent_witness :
  exists r w' added,
    calculate_publication_speed 1 (initial_world db_group_47 noon_clock) = (Ok r, w') /\
    (exists r', calculate_publication_speed 1 w' = (Ok r', w') /\
                (speeds_calculated r' = None \/ speeds_calculated r' = Some 0)) /\
    w_db w' = with_results db_group_47 added /\
    Z.of_nat (List.length added) <= 1 /\
    speed_rows (w_db w') 1 = [] /\
    group_metric_count (w_db w') 1 <= timestamped_count (w_db w') 1 - 1.
Proof.
  destruct (calculator_is_idempotent (initial_world db_group_47 noon_clock) 1
              (conj eq_refl eq_refl))
    as (r & w' & added & E & _ & (r' & E' & _ & Hzero) & Hdb & _ & _ & Hlen & _ & Hnone & Hinv).
  exists r, w', added. split; [exact E|]. split; [exists r'; split; [exact E'|exact Hzero]|].
  split; [exact Hdb|]. split; [exact Hlen|].
  split.
  - apply (proj2 (Hnone (article 1 headline (Some noon) false,
                         NewsGroupItem.mk 1 1 1 (Some 1%float) (Some noon))
                        [(article 2 headline' (Some (noon + 47 * minute)) false,
                          NewsGroupItem.mk 2 1 2 (Some 0.8%float) (Some noon))]
                        eq_refl)).
    + cbn. repeat constructor; cbn; intuition discriminate.
    + cbn. repeat constructor; cbn; intuition congruence.
  - apply (Hinv (article 1 headline (Some noon) false,
                 NewsGroupItem.mk 1 1 1 (Some 1%float) (Some noon))
                [(article 2 headline' (Some (noon + 47 * minute)) false,
                  NewsGroupItem.mk 2 1 2 (Some 0.8%float) (Some noon))]).
    + reflexivity.
    + intros i. cbn. lia.
    + reflexivity.
    + cbn. intros [H|[]]. discriminate.
Defined.

(** C6, the claim as stated: article 1 is the earliest member of group 1 and
    a later member of group 2.  After the calculator has run on both groups,
    both members of group 1 have a speed metric: two metrics for two members
    with a publication time, the earliest member's among them. *)
Lemma shared_member_exceeds_bound :
  let w1 := snd (calculate_publication_speed 1 (initial_world db_two_groups noon_clock)) in
  let w2 := snd (calculate_publication_speed 2 w1) in
  map (fun row => NewsItem.id (fst row)) (group_items_query (w_db w2) 1) = [1; 2] /\
  map AnalysisResult.value (speed_rows (w_db w2) 1) = [Some (FloatText 10%float)] /\
  timestamped_count (w_db w2) 1 = 2 /\
  group_metric_count (w_db w2) 1 = 2 /\
  ~ (group_metric_count (w_db w2) 1 <= timestamped_count (w_db w2) 1 - 1).
Proof.
  cbv zeta. repeat split. vm_compute. intros H. apply H. reflexivity.
Qed.

(** Nothing in the analysis looks at the memberships of the analysed
    article: delivered twice for the only article of the store, it founds
    two groups, and the article is a member of both. *)
Lemma reanalysis_founds_second_group :
  let run := analyze_news_item plain_normalize plain_tokenize [] (fixed_scores []) 0 1 in
  let w1 := snd (run (initial_world db_single noon_clock)) in
  let w2 := snd (run w1) in
  map NewsGroupItem.news_group_id (memberships_of (w_db w1) 1) = [1] /\
  map NewsGroupItem.news_group_id (memberships_of (w_db w2) 1) = [1; 2].
Proof. cbv zeta. split; reflexivity. Qed.

(** *** What the analysis can change *)

Section EffectFacts.

Variable normalize : pystr -> py pystr.
Variable word_tokenize : pystr -> py (list pystr).
Variable persian_stopwords : list pystr.
Variable tfidf_similarities : list pystr -> py (list float).
Variable retries : Z.

Let match_and_group := match_and_group tfidf_similarities.
Let analyze_news_item :=
  analyze_news_item normalize word_tokenize persian_stopwords tfidf_similarities retries.

(** The group block followed by its answer, from a session with no open
    transaction. *)
Lemma group_block_outcome (w : world) (i : Z) (item : NewsItem.t) (answer : Z -> result) :
  w_view w = w_db w ->
  get_news_item (w_db w) i = Some item ->
  (forall g, In (status (answer g)) ["new_group"; "new_group_fallback"]%string) ->
  exists r w',
    (g <- new_group_for item ;; st_ret (answer g))%st w = (r, w') /\
    analysis_outcome i (w_db w) r (w_db w').
Proof.
  intros Hv Hget Hstatus.
  destruct (new_group_for_outcome w item Hv) as (r & w' & E & _ & _ & Hcase).
  unfold st_bind. rewrite E.
  destruct Hcase as [(e & -> & Hdb)|(-> & _ & k & t1 & t2 & Hdb)].
  - do 2 eexists. split; [reflexivity|]. rewrite Hdb. constructor.
  - unfold st_ret. do 2 eexists. split; [reflexivity|]. rewrite Hdb.
    apply outcome_new_group; [apply Hstatus|exact Hget].
Qed.

(** The similarity step from a usable session: it answers with what it
    committed, or raises with nothing committed, or raises after it
    committed the membership. *)
Lemma match_and_group_outcome (w : world) (i : Z) (item : NewsItem.t) (texts : list pystr)
  (item_ids : list Z) :
  w_needs_rollback w = false ->
  w_view w = w_db w ->
  get_news_item (w_db w) i = Some item ->
  exists r w',
    match_and_group item texts item_ids w = (r, w') /\
    w_view w' = w_db w' /\
    ((exists res, r = Ok res /\ analysis_outcome i (w_db w) r (w_db w')) \/
     (exists e, r = Raise e /\ w_db w' = w_db w) \/
     (exists e existing score k t,
        r = Raise e /\ In existing (news_group_items (w_db w)) /\
        float_ge score similarity_threshold = true /\
        w_db w' = with_membership (w_db w) item existing score k t)).
Proof.
  intros Hr Hv Hget.
  assert (Hnew : forall score,
             exists r w',
               (g <- new_group_for item ;;
                st_ret (mk_result "new_group" (Some g) None None (Some score) None))%st w
               = (r, w') /\
               w_view w' = w_db w' /\
               ((exists res, r = Ok res /\ analysis_outcome i (w_db w) r (w_db w')) \/
                (exists e, r = Raise e /\ w_db w' = w_db w) \/
                (exists e existing score k t,
                   r = Raise e /\ In existing (news_group_items (w_db w)) /\
                   float_ge score similarity_threshold = true /\
                   w_db w' = with_membership (w_db w) item existing score k t))).
  { intros score.
    destruct (new_group_for_outcome w item Hv) as (r & w' & E & Hv' & _ & Hcase).
    unfold st_bind. rewrite E.
    destruct Hcase as [(e & -> & Hdb)|(-> & _ & k & t1 & t2 & Hdb)].
    - do 2 eexists. split; [reflexivity|]. split; [exact Hv'|].
      right. left. exists e. split; [reflexivity|exact Hdb].
    - unfold st_ret. do 2 eexists. split; [reflexivity|]. split; [exact Hv'|].
      left. eexists. split; [reflexivity|]. rewrite Hdb.
      apply outcome_new_group; [left; reflexivity|exact Hget]. }
  assert (Hstop : forall (e : exn),
             exists (r : py result) (w' : world),
               (Raise e, w) = (r, w') /\ w_view w' = w_db w' /\
               ((exists res, r = Ok res /\ analysis_outcome i (w_db w) r (w_db w')) \/
                (exists e, r = Raise e /\ w_db w' = w_db w) \/
                (exists e existing score k t,
                   r = Raise e /\ In existing (news_group_items (w_db w)) /\
                   float_ge score similarity_threshold = true /\
                   w_db w' = with_membership (w_db w) item existing score k t))).
  { intros e. exists (Raise e), w. split; [reflexivity|]. split; [exact Hv|].
    right. left. exists e. split; reflexivity. }
  unfold match_and_group, Analysis.match_and_group.
  unfold st_bind at 1. unfold st_lift at 1.
  destruct (tfidf_similarities texts) as [similarities|e]; [|apply Hstop].
  unfold st_bind at 1. unfold st_lift at 1.
  destruct (np_argmax similarities) as [idx|e]; [|apply Hstop].
  unfold st_bind at 1. unfold st_lift at 1.
  destruct (index similarities idx) as [score|e]; [|apply Hstop].
  destruct (float_ge score similarity_threshold) eqn:Hge; [|apply Hnew].
  unfold st_bind at 1. unfold st_lift at 1.
  destruct (index item_ids (idx + 1)) as [similar_item_id|e]; [|apply Hstop].
  destruct w as [d v nr clk rd q br off].
  cbn [w_needs_rollback w_view w_db w_clock w_readings w_queue w_broker w_offered] in *.
  subst nr v.
  unfold st_bind at 1. unfold query at 1. cbn [w_needs_rollback w_view].
  unfold st_bind at 1. unfold query at 1. cbn [w_needs_rollback w_view].
  destruct (first_group_item d similar_item_id) as [existing|] eqn:Hfirst; [|apply Hnew].
  unfold insert_group_item.
  unfold st_bind, query, utcnow, write, commit, delay, fail_flush, st_ret.
  cbn [w_needs_rollback w_view w_clock w_readings w_queue w_db w_broker w_offered].
  destruct (existsb _ (news_group_items d)).
  - do 2 eexists. split; [reflexivity|]. split; [reflexivity|].
    right. left. eexists. split; reflexivity.
  - cbn [w_needs_rollback w_view w_clock w_readings w_queue w_db w_broker w_offered].
    assert (Hin : In existing (news_group_items d)).
    { unfold first_group_item in Hfirst. apply find_some in Hfirst. apply Hfirst. }
    assert (Hdb : mk_db (news_agencies d)
                        match
                          (if float_ge score duplicate_threshold
                           then Some (NewsItem.mark_duplicate item) else None)
                        with
                        | Some n => map (fun x => if NewsItem.id x =? NewsItem.id n then n else x)
                                        (news_items d)
                        | None => news_items d
                        end
                        (news_groups d)
                        (news_group_items d ++
                           [NewsGroupItem.mk (next_id (map NewsGroupItem.id (news_group_items d)))
                                             (NewsGroupItem.news_group_id existing)
                                             (NewsItem.id item) (Some score) (Some (clk rd))])
                        (analysis_results d)
                  = with_membership d item existing score
                                    (next_id (map NewsGroupItem.id (news_group_items d)))
                                    (clk rd)).
    { unfold with_membership, flagged.
      destruct (float_ge score duplicate_threshold); reflexivity. }
    rewrite Hdb.
    destruct (br (calculate_publication_speed_task (NewsGroupItem.news_group_id existing)) off).
    + do 2 eexists. split; [reflexivity|]. cbn [w_db w_view]. split; [reflexivity|].
      left. eexists. split; [reflexivity|].
      apply outcome_attached; [reflexivity|exact Hget|exact Hin|exact Hge].
    + do 2 eexists. split; [reflexivity|]. cbn [w_db w_view]. split; [reflexivity|].
      right. right. exists OperationalError, existing, score. do 2 eexists.
      split; [reflexivity|]. split; [exact Hin|]. split; [exact Hge|reflexivity].
Qed.

Lemma analysis_run_outcome (w : world) (news_item_id : Z) :
  clean w ->
  exists r w',
    analyze_news_item news_item_id w = (r, w') /\
    analysis_outcome news_item_id (w_db w) r (w_db w') /\
    (forall e, r = Raise e -> e = retry retries (60 * 2 ^ retries)).
Proof.
  intros [Hr Hv].
  assert (Hretry : forall (m : st world result) w0,
             (exists r w', m w0 = (r, w') /\
                           analysis_outcome news_item_id (w_db w) r (w_db w')) ->
             exists r w',
               st_try m (fun _ => st_raise (retry retries (60 * 2 ^ retries))) w0 = (r, w') /\
               analysis_outcome news_item_id (w_db w) r (w_db w') /\
               (forall e, r = Raise e -> e = retry retries (60 * 2 ^ retries))).
  { intros m w0 (r & w' & E & Ho). unfold st_try. rewrite E. destruct r as [a|e].
    - do 2 eexists. split; [reflexivity|]. split; [exact Ho|]. intros e He. discriminate.
    - unfold st_raise. do 2 eexists. split; [reflexivity|].
      split; [|intros e' He; injection He as <-; reflexivity].
      inversion Ho; subst.
      + constructor.
      + eapply outcome_raised_attached; eassumption. }
  unfold analyze_news_item, Analysis.analyze_news_item.
  apply Hretry.
  assert (Hskip : forall (s : string) w1,
             In s ["not_found"; "already_duplicate"; "no_text"]%string ->
             w_db w1 = w_db w ->
             exists r' w', (@Ok result (status_only s), w1) = (r', w') /\
                           analysis_outcome news_item_id (w_db w) r' (w_db w')).
  { intros s w1 Hs Hdb. do 2 eexists. split; [reflexivity|]. rewrite Hdb.
    apply outcome_skipped. exact Hs. }
  assert (Hfail : forall (e : exn) w1,
             w_db w1 = w_db w ->
             exists r' w', (@Raise result e, w1) = (r', w') /\
                           analysis_outcome news_item_id (w_db w) r' (w_db w')).
  { intros e w1 Hdb. do 2 eexists. split; [reflexivity|]. rewrite Hdb. constructor. }
  destruct w as [d v nr clk rd q br off].
  cbn [w_needs_rollback w_view w_db w_clock w_readings w_queue w_broker w_offered] in *.
  subst nr v.
  unfold st_bind at 1. unfold query at 1. cbn [w_needs_rollback w_view].
  destruct (get_news_item d news_item_id) as [news_item|] eqn:Hget;
    [|apply Hskip; [left; reflexivity|reflexivity]].
  destruct (NewsItem.is_duplicate news_item);
    [apply Hskip; [right; left; reflexivity|reflexivity]|].
  unfold st_bind at 1. unfold st_lift at 1.
  destruct (preprocess_persian_text normalize word_tokenize persian_stopwords
              (text_of news_item)) as [item_text|e]; [|apply Hfail; reflexivity].
  destruct (negb (str_truthy (strip item_text)));
    [apply Hskip; [right; right; left; reflexivity|reflexivity]|].
  unfold st_bind at 1. unfold utcnow at 1.
  cbn [w_needs_rollback w_view w_db w_clock w_readings w_queue w_broker w_offered].
  unfold st_bind at 1. unfold query at 1. cbn [w_needs_rollback w_view].
  set (w1 := mk_world d d false clk (S rd) q br off).
  assert (Hgroup : exists r w',
             (g <- new_group_for news_item ;;
              st_ret (mk_result "new_group" (Some g) None None None None))%st w1 = (r, w') /\
             analysis_outcome news_item_id d r (w_db w')).
  { apply (group_block_outcome w1 news_item_id news_item
             (fun g => mk_result "new_group" (Some g) None None None None) eq_refl Hget).
    intros g. left. reflexivity. }
  destruct (filter _ (news_items d)) as [|r0 rs]; [exact Hgroup|].
  unfold st_bind at 1. unfold st_lift at 1.
  destruct (prepare normalize word_tokenize persian_stopwords (r0 :: rs)) as [candidates|e];
    [|apply Hfail; reflexivity].
  destruct (Z.of_nat _ <? 2); [exact Hgroup|].
  destruct (match_and_group_outcome w1 news_item_id news_item
              (item_text :: map fst candidates)
              (NewsItem.id news_item :: map snd candidates) eq_refl eq_refl Hget)
    as (r & w' & E & Hv' & Hcase).
  unfold st_try. fold match_and_group. rewrite E.
  destruct Hcase as [(res & -> & Ho)|[(e & -> & Hdb)|
                     (e & existing & score & k & t & -> & Hin & Hge & Hdb)]].
  - do 2 eexists. split; [reflexivity|exact Ho].
  - assert (Hget' : get_news_item (w_db w') news_item_id = Some news_item)
      by (rewrite Hdb; exact Hget).
    destruct (group_block_outcome w' news_item_id news_item
                (fun g => mk_result "new_group_fallback" (Some g) None None None (Some e))
                Hv' Hget') as (r2 & w2 & E2 & Ho2).
    { intros g. right. left. reflexivity. }
    rewrite E2. rewrite Hdb in Ho2. do 2 eexists. split; [reflexivity|exact Ho2].
  - destruct (new_group_for_outcome w' news_item Hv') as (r2 & w2 & E2 & _ & _ & Hcase).
    unfold st_bind. rewrite E2. cbn [w1 w_db] in Hdb.
    destruct Hcase as [(e2 & -> & Hdb2)|(-> & _ & k' & t1 & t2 & Hdb2)].
    + do 2 eexists. split; [reflexivity|]. rewrite Hdb2, Hdb.
      apply outcome_raised_attached; assumption.
    + unfold st_ret. do 2 eexists. split; [reflexivity|]. rewrite Hdb2, Hdb.
      apply outcome_attached_and_founded; [reflexivity|assumption..].
Qed.


End EffectFacts.


(** *** Consequences for the invariants of the store *)

Lemma flagged_pointwise (item : NewsItem.t) (l : list NewsItem.t) :
  Forall2 (fun x x' => NewsItem.id x' = NewsItem.id x /\
                       (NewsItem.is_duplicate x = true -> NewsItem.is_duplicate x' = true) /\
                       (NewsItem.id x <> NewsItem.id item -> x' = x))
          l (flagged item l).
Proof.
  unfold flagged. induction l as [|x l IH]; [constructor|]. cbn [map].
  constructor; [|exact IH].
  destruct (NewsItem.id x =? NewsItem.id item) eqn:E.
  - apply Z.eqb_eq in E. split; [symmetry; exact E|]. split; [reflexivity|congruence].
  - split; [reflexivity|]. split; [trivial|reflexivity].
Qed.

Lemma unchanged_pointwise (i : Z) (l : list NewsItem.t) :
  Forall2 (fun x x' => NewsItem.id x' = NewsItem.id x /\
                       (NewsItem.is_duplicate x = true -> NewsItem.is_duplicate x' = true) /\
                       (NewsItem.id x <> i -> x' = x))
          l l.
Proof. induction l; constructor; auto. Qed.

Lemma membership_keeps_flags (i : Z) (d : db) (item : NewsItem.t)
  (existing : NewsGroupItem.t) (score : float) (k t : Z) :
  get_news_item d i = Some item ->
  Forall2 (fun x x' => NewsItem.id x' = NewsItem.id x /\
                       (NewsItem.is_duplicate x = true -> NewsItem.is_duplicate x' = true) /\
                       (NewsItem.id x <> i -> x' = x))
          (news_items d) (news_items (with_membership d item existing score k t)).
Proof.
  intros Hget. unfold with_membership. cbn [news_items].
  destruct (float_ge score duplicate_threshold); [|apply unchanged_pointwise].
  pose proof (find_some_id _ _ _ Hget) as <-. apply flagged_pointwise.
Qed.

Lemma outcome_keeps_flags (i : Z) (d d' : db) (r : py result) :
  analysis_outcome i d r d' ->
  Forall2 (fun x x' => NewsItem.id x' = NewsItem.id x /\
                       (NewsItem.is_duplicate x = true -> NewsItem.is_duplicate x' = true) /\
                       (NewsItem.id x <> i -> x' = x))
          (news_items d) (news_items d').
Proof.
  intros [res Hs|res item k t1 t2 Hs Hget|res item existing score k t Hs Hget Hin Hge|
          res item existing score k t k' t1 t2 Hs Hget Hin Hge|e|
          e item existing score k t Hget Hin Hge].
  - apply unchanged_pointwise.
  - apply unchanged_pointwise.
  - apply membership_keeps_flags. exact Hget.
  - apply (membership_keeps_flags i d item existing score k t Hget).
  - apply unchanged_pointwise.
  - apply membership_keeps_flags. exact Hget.
Qed.

Lemma membership_keeps_members (d : db) (item : NewsItem.t) (existing : NewsGroupItem.t)
  (score : float) (k t : Z) :
  groups_have_members d -> groups_have_members (with_membership d item existing score k t).
Proof.
  intros Hinv g Hg. cbn [with_membership news_groups news_group_items] in *.
  destruct (Hinv g Hg) as (m & Hm & E). exists m.
  split; [apply in_or_app; left; exact Hm|exact E].
Qed.

Lemma new_group_keeps_members (d : db) (item : NewsItem.t) (k t1 t2 : Z) :
  groups_have_members d -> groups_have_members (with_new_group d item k t1 t2).
Proof.
  intros Hinv g Hg. cbn [with_new_group news_groups news_group_items] in *.
  apply in_app_or in Hg as [Hg|[<-|[]]].
  - destruct (Hinv g Hg) as (m & Hm & E). exists m.
    split; [apply in_or_app; left; exact Hm|exact E].
  - eexists. split; [apply in_or_app; right; left; reflexivity|reflexivity].
Qed.

Lemma outcome_keeps_members (i : Z) (d d' : db) (r : py result) :
  analysis_outcome i d r d' -> groups_have_members d -> groups_have_members d'.
Proof.
  intros [res Hs|res item k t1 t2 Hs Hget|res item existing score k t Hs Hget Hin Hge|
          res item existing score k t k' t1 t2 Hs Hget Hin Hge|e|
          e item existing score k t Hget Hin Hge] Hinv.
  - exact Hinv.
  - apply new_group_keeps_members. exact Hinv.
  - apply membership_keeps_members. exact Hinv.
  - apply new_group_keeps_members. apply membership_keeps_members. exact Hinv.
  - exact Hinv.
  - apply membership_keeps_members. exact Hinv.
Qed.

Lemma outcome_appends (i : Z) (d d' : db) (r : py result) :
  analysis_outcome i d r d' ->
  (exists gs, news_groups d' = news_groups d ++ gs) /\
  (exists ms, news_group_items d' = news_group_items d ++ ms /\
              Forall (fun m => NewsGroupItem.news_item_id m = i) ms).
Proof.
  intros [res Hs|res item k t1 t2 Hs Hget|res item existing score k t Hs Hget Hin Hge|
          res item existing score k t k' t1 t2 Hs Hget Hin Hge|e|
          e item existing score k t Hget Hin Hge];
    cbn [with_new_group with_membership news_groups news_group_items];
    try (pose proof (find_some_id _ _ _ Hget) as Hid).
  - split; [exists []; symmetry; apply app_nil_r|].
    exists []. split; [symmetry; apply app_nil_r|constructor].
  - split; [eexists; reflexivity|]. eexists. split; [reflexivity|].
    constructor; [exact Hid|constructor].
  - split; [exists []; symmetry; apply app_nil_r|]. eexists. split; [reflexivity|].
    constructor; [exact Hid|constructor].
  - split; [eexists; reflexivity|]. eexists. split; [rewrite <- app_assoc; reflexivity|].
    constructor; [exact Hid|constructor; [exact Hid|constructor]].
  - split; [exists []; symmetry; apply app_nil_r|].
    exists []. split; [symmetry; apply app_nil_r|constructor].
  - split; [exists []; symmetry; apply app_nil_r|]. eexists. split; [reflexivity|].
    constructor; [exact Hid|constructor].
Qed.

Section InvariantFacts.

Variable normalize : pystr -> py pystr.
Variable word_tokenize : pystr -> py (list pystr).
Variable persian_stopwords : list pystr.
Variable tfidf_similarities : list pystr -> py (list float).
Variable retries : Z.

Let analyze_news_item :=
  analyze_news_item normalize word_tokenize persian_stopwords tfidf_similarities retries.

(** The duplicate flag is one-way: whatever an analysis does, the articles
    keep their keys and their order, an article that was flagged stays
    flagged, and no article other than the analysed one is changed. *)
Theorem analysis_never_clears_a_flag (w : world) (news_item_id : Z) :
  clean w ->
  exists r w',
    analyze_news_item news_item_id w = (r, w') /\
    Forall2 (fun x x' => NewsItem.id x' = NewsItem.id x /\
                         (NewsItem.is_duplicate x = true -> NewsItem.is_duplicate x' = true) /\
                         (NewsItem.id x <> news_item_id -> x' = x))
            (news_items (w_db w)) (news_items (w_db w')).
Proof.
  intros Hc.
  destruct (analysis_run_outcome normalize word_tokenize persian_stopwords
              tfidf_similarities retries w news_item_id Hc) as (r & w' & E & Ho & _).
  exists r, w'. split; [exact E|]. eapply outcome_keeps_flags. exact Ho.
Qed.

(** No analysis leaves a group without a member: when every group of the
    store has a member before, so it is afterwards; and the memberships and
    groups that existed are all still there, in place. *)
Theorem analysis_keeps_groups_inhabited (w : world) (news_item_id : Z) :
  clean w ->
  groups_have_members (w_db w) ->
  exists r w',
    analyze_news_item news_item_id w = (r, w') /\
    groups_have_members (w_db w') /\
    (exists gs, news_groups (w_db w') = news_groups (w_db w) ++ gs) /\
    (exists ms, news_group_items (w_db w') = news_group_items (w_db w) ++ ms /\
                Forall (fun m => NewsGroupItem.news_item_id m = news_item_id) ms).
Proof.
  intros Hc Hinv.
  destruct (analysis_run_outcome normalize word_tokenize persian_stopwords
              tfidf_similarities retries w news_item_id Hc) as (r & w' & E & Ho & _).
  exists r, w'. split; [exact E|]. split; [eapply outcome_keeps_members; eassumption|].
  eapply outcome_appends. exact Ho.
Qed.

End InvariantFacts.

Lemma analysis_never_clears_a_flag_witness :
  exists r w',
    analyze_news_item plain_normalize plain_tokenize [] (fixed_scores [0.95%float]) 0 2
                      (initial_world db_pair noon_clock) = (r, w') /\
    map NewsItem.is_duplicate (news_items (w_db w')) = [false; true].
Proof.
  destruct (analysis_never_clears_a_flag plain_normalize plain_tokenize []
              (fixed_scores [0.95%float]) 0 (initial_world db_pair noon_clock) 2
              (conj eq_refl eq_refl)) as (r & w' & E & _).
  exists r, w'. split; [exact E|].
  vm_compute in E. injection E as _ <-. reflexivity.
Defined.

Lemma analysis_keeps_groups_inhabited_witness :
  exists r w',
    analyze_news_item plain_normalize plain_tokenize [] (fixed_scores [0.5%float]) 0 2
                      (initial_world db_pair noon_clock) = (r, w') /\
    groups_have_members (w_db w').
Proof.
  destruct (analysis_keeps_groups_inhabited plain_normalize plain_tokenize []
              (fixed_scores [0.5%float]) 0 (initial_world db_pair noon_clock) 2
              (conj eq_refl eq_refl)) as (r & w' & E & H & _).
  - intros g [<-|[]]. eexists. split; [left; reflexivity|reflexivity].
  - exists r, w'. split; [exact E|exact H].
Defined.

(** *** The paths that found a group *)

Section PathFacts.

Variable normalize : pystr -> py pystr.
Variable word_tokenize : pystr -> py (list pystr).
Variable persian_stopwords : list pystr.
Variable tfidf_similarities : list pystr -> py (list float).
Variable retries : Z.

Let preprocess_persian_text := preprocess_persian_text normalize word_tokenize persian_stopwords.
Let window := window normalize word_tokenize persian_stopwords.
Let analyze_news_item :=
  analyze_news_item normalize word_tokenize persian_stopwords tfidf_similarities retries.

(** An unknown key is answered [not_found] and nothing happens. *)
Theorem unknown_article_not_found (w : world) (news_item_id : Z) :
  w_needs_rollback w = false ->
  get_news_item (w_view w) news_item_id = None ->
  analyze_news_item news_item_id w = (Ok (status_only "not_found"), w).
Proof.
  intros Hr Hget. destruct w as [d v nr clk rd q br off]. cbn in *. subst.
  unfold analyze_news_item, Analysis.analyze_news_item.
  unfold st_try, st_bind, query. cbn [w_needs_rollback w_view w_broker w_offered].
  rewrite Hget. reflexivity.
Qed.

(** With no candidate that has text in the window (no other article of the
    last seven days that is not flagged, or none with text), the engine is
    not consulted: the article founds a group, without a score in the answer
    and without a speed calculation being queued. *)
Theorem empty_window_founds_group (w : world) (news_item_id : Z) (news_item : NewsItem.t)
  (item_text : pystr) :
  clean w ->
  groups_exist (w_db w) ->
  get_news_item (w_db w) news_item_id = Some news_item ->
  NewsItem.is_duplicate news_item = false ->
  preprocess_persian_text (text_of news_item) = Ok item_text ->
  str_truthy (strip item_text) = true ->
  window w news_item = Ok [] ->
  analyze_news_item news_item_id w
    = (Ok (mk_result "new_group" (Some (next_id (map NewsGroup.id (news_groups (w_db w)))))
                     None None None None),
       mk_world (group_founded w news_item) (group_founded w news_item) false (w_clock w)
                (S (S (S (w_readings w)))) (w_queue w) (w_broker w) (w_offered w)).
Proof.
  intros [Hr Hv] Hfk Hget Hdup Hpre Htext Hwin.
  unfold window, Analysis.window in Hwin. unfold group_founded.
  destruct w as [d v nr clk rd q br off].
  cbn [w_needs_rollback w_view w_db w_clock w_readings w_queue w_broker w_offered] in *. subst nr v.
  unfold analyze_news_item, Analysis.analyze_news_item.
  unfold st_try at 1.
  unfold st_bind at 1. unfold query at 1. cbn [w_needs_rollback w_view w_broker w_offered].
  rewrite Hget, Hdup.
  unfold st_bind at 1. unfold st_lift at 1.
  unfold preprocess_persian_text in Hpre. rewrite Hpre, Htext. cbn [negb].
  unfold st_bind at 1. unfold utcnow at 1.
  cbn [w_clock w_readings w_db w_view w_needs_rollback w_queue w_broker w_offered].
  unfold st_bind at 1. unfold query at 1. cbn [w_needs_rollback w_view w_broker w_offered].
  pose proof (new_group_for_creates (mk_world d d false clk (S rd) q br off) news_item eq_refl Hfk)
    as Hnew. cbn zeta in Hnew. cbn [w_view w_clock w_readings w_queue w_db w_broker w_offered] in Hnew.
  destruct (filter (is_recent news_item (clk rd - 7 * Time.usec_per_day)) (news_items d))
    as [|r0 rs] eqn:Hf.
  - unfold st_bind at 1. rewrite Hnew. reflexivity.
  - unfold st_bind at 1. unfold st_lift at 1. rewrite Hwin.
    cbn [map List.length]. change (Z.of_nat 1 <? 2) with true. cbn iota.
    unfold st_bind at 1. rewrite Hnew. reflexivity.
Qed.

(** A best score below the grouping threshold attaches nothing: the article
    founds its own group, the score is kept in the answer, the article is not
    flagged and no speed calculation is queued. *)
Theorem low_score_founds_group (w : world) (news_item_id : Z) (news_item : NewsItem.t)
  (item_text : pystr) (candidates : list (pystr * Z)) (similarities : list float)
  (idx : nat) (score : float) :
  clean w ->
  groups_exist (w_db w) ->
  get_news_item (w_db w) news_item_id = Some news_item ->
  NewsItem.is_duplicate news_item = false ->
  preprocess_persian_text (text_of news_item) = Ok item_text ->
  str_truthy (strip item_text) = true ->
  window w news_item = Ok candidates ->
  candidates <> [] ->
  tfidf_similarities (item_text :: map fst candidates) = Ok similarities ->
  np_argmax similarities = Ok idx ->
  nth_error similarities idx = Some score ->
  float_ge score similarity_threshold = false ->
  analyze_news_item news_item_id w
    = (Ok (mk_result "new_group" (Some (next_id (map NewsGroup.id (news_groups (w_db w)))))
                     None None (Some score) None),
       mk_world (group_founded w news_item) (group_founded w news_item) false (w_clock w)
                (S (S (S (w_readings w)))) (w_queue w) (w_broker w) (w_offered w)).
Proof.
  intros [Hr Hv] Hfk Hget Hdup Hpre Htext Hwin Hne Htf Harg Hnth Hge.
  rewrite <- Hv in Hget, Hfk.
  unfold analyze_news_item.
  rewrite (analyze_reaches_match normalize word_tokenize persian_stopwords tfidf_similarities
             retries w news_item_id news_item item_text candidates
             Hr Hget Hdup Hpre Htext Hwin Hne).
  pose proof (new_group_for_creates (after_reading w) news_item Hr Hfk) as Hnew.
  cbn zeta in Hnew. unfold group_founded.
  destruct w as [d v nr clk rd q br off].
  cbn [w_needs_rollback w_view w_db w_clock w_readings w_queue after_reading w_broker w_offered] in *. subst nr v.
  unfold st_try, Analysis.match_and_group.
  unfold st_bind at 1. unfold st_lift at 1. rewrite Htf.
  unfold st_bind at 1. unfold st_lift at 1. rewrite Harg.
  unfold st_bind at 1. unfold st_lift at 1. unfold index at 1. rewrite Hnth.
  rewrite Hge. unfold st_bind at 1. rewrite Hnew. reflexivity.
Qed.

(** When the similarity computation fails (the vectoriser raises, or it
    returns no score at all), the failure is not passed on: the article
    founds its own group and the answer is [new_group_fallback] with the
    error. *)
Theorem engine_failure_founds_group (w : world) (news_item_id : Z) (news_item : NewsItem.t)
  (item_text : pystr) (candidates : list (pystr * Z)) (e : exn) :
  clean w ->
  groups_exist (w_db w) ->
  get_news_item (w_db w) news_item_id = Some news_item ->
  NewsItem.is_duplicate news_item = false ->
  preprocess_persian_text (text_of news_item) = Ok item_text ->
  str_truthy (strip item_text) = true ->
  window w news_item = Ok candidates ->
  candidates <> [] ->
  tfidf_similarities (item_text :: map fst candidates) = Raise e \/
  (tfidf_similarities (item_text :: map fst candidates) = Ok [] /\ e = ValueError) ->
  analyze_news_item news_item_id w
    = (Ok (mk_result "new_group_fallback"
                     (Some (next_id (map NewsGroup.id (news_groups (w_db w)))))
                     None None None (Some e)),
       mk_world (group_founded w news_item) (group_founded w news_item) false (w_clock w)
                (S (S (S (w_readings w)))) (w_queue w) (w_broker w) (w_offered w)).
Proof.
  intros [Hr Hv] Hfk Hget Hdup Hpre Htext Hwin Hne Htf.
  rewrite <- Hv in Hget, Hfk.
  unfold analyze_news_item.
  rewrite (analyze_reaches_match normalize word_tokenize persian_stopwords tfidf_similarities
             retries w news_item_id news_item item_text candidates
             Hr Hget Hdup Hpre Htext Hwin Hne).
  pose proof (new_group_for_creates (after_reading w) news_item Hr Hfk) as Hnew.
  cbn zeta in Hnew. unfold group_founded.
  destruct w as [d v nr clk rd q br off].
  cbn [w_needs_rollback w_view w_db w_clock w_readings w_queue after_reading w_broker w_offered] in *. subst nr v.
  unfold st_try, Analysis.match_and_group.
  unfold st_bind at 1. unfold st_lift at 1.
  destruct Htf as [Htf|[Htf ->]]; rewrite Htf.
  - unfold st_bind at 1. rewrite Hnew. reflexivity.
  - unfold st_bind at 1. unfold st_lift at 1. cbn [np_argmax].
    unfold st_bind at 1. rewrite Hnew. reflexivity.
Qed.

End PathFacts.

Lemma unknown_article_not_found_witness :
  analyze_news_item plain_normalize plain_tokenize [] (fixed_scores []) 0 7
                    (initial_world db_single noon_clock)
    = (Ok (status_only "not_found"), initial_world db_single noon_clock).
Proof.
  apply (unknown_article_not_found plain_normalize plain_tokenize [] (fixed_scores []) 0);
    reflexivity.
Defined.

Lemma empty_window_founds_group_witness :
  fst (analyze_news_item plain_normalize plain_tokenize [] (fixed_scores []) 0 1
                         (initial_world db_single noon_clock))
    = Ok (mk_result "new_group" (Some 1) None None None None).
Proof.
  rewrite (empty_window_founds_group plain_normalize plain_tokenize [] (fixed_scores []) 0
             (initial_world db_single noon_clock) 1 (article 1 headline (Some noon) false)
             headline).
  - reflexivity.
  - split; reflexivity.
  - intros gi [].
  - reflexivity.
  - reflexivity.
  - reflexivity.
  - reflexivity.
  - reflexivity.
Defined.

Lemma low_score_founds_group_witness :
  fst (analyze_news_item plain_normalize plain_tokenize [] (fixed_scores [0.5%float]) 0 2
                         (initial_world db_pair noon_clock))
    = Ok (mk_result "new_group" (Some 2) None None (Some 0.5%float) None).
Proof.
  rewrite (low_score_founds_group plain_normalize plain_tokenize [] (fixed_scores [0.5%float]) 0
             (initial_world db_pair noon_clock) 2
             (article 2 headline' (Some (noon + 47 * minute)) false)
             headline' [(headline, 1)] [0.5%float] 0%nat 0.5%float).
  - reflexivity.
  - split; reflexivity.
  - intros gi [<-|[]]. left. reflexivity.
  - reflexivity.
  - reflexivity.
  - reflexivity.
  - reflexivity.
  - reflexivity.
  - discriminate.
  - reflexivity.
  - reflexivity.
  - reflexivity.
  - reflexivity.
Defined.

Lemma engine_failure_founds_group_witness :
  fst (analyze_news_item plain_normalize plain_tokenize [] (fixed_scores []) 0 2
                         (initial_world db_pair noon_clock))
    = Ok (mk_result "new_group_fallback" (Some 2) None None None (Some ValueError)).
Proof.
  rewrite (engine_failure_founds_group plain_normalize plain_tokenize [] (fixed_scores []) 0
             (initial_world db_pair noon_clock) 2
             (article 2 headline' (Some (noon + 47 * minute)) false)
             headline' [(headline, 1)] ValueError).
  - reflexivity.
  - split; reflexivity.
  - intros gi [<-|[]]. left. reflexivity.
  - reflexivity.
  - reflexivity.
  - reflexivity.
  - reflexivity.
  - reflexivity.
  - discriminate.
  - right. split; reflexivity.
Defined.

(** *** What the calculator and the preprocessing leave alone *)

(** The calculator never raises and only ever appends: from a clean world it
    returns a status, leaves agencies, articles, groups, memberships, the
    queue and every existing analysis result as they are, and what it adds
    are rows of type [speed_to_publish] for articles of the rows after the
    first of the group's query. *)
Theorem calculator_only_appends (w : world) (g : Z) :
  clean w ->
  exists r w' added,
    calculate_publication_speed g w = (Ok r, w') /\
    clean w' /\
    w_db w' = with_results (w_db w) added /\
    w_queue w' = w_queue w /\
    Forall (fun a => AnalysisResult.analysis_type a = speed_type /\
                     In (AnalysisResult.news_item_id a)
                        (map (fun row => NewsItem.id (fst row))
                             (tl (group_items_query (w_db w) g))))
           added.
Proof.
  intros [Hr Hv].
  assert (Hsame : forall r0,
             calculate_publication_speed g w = (Ok r0, w) ->
             exists r w' added,
               calculate_publication_speed g w = (Ok r, w') /\ clean w' /\
               w_db w' = with_results (w_db w) added /\ w_queue w' = w_queue w /\
               Forall (fun a => AnalysisResult.analysis_type a = speed_type /\
                                In (AnalysisResult.news_item_id a)
                                   (map (fun row => NewsItem.id (fst row))
                                        (tl (group_items_query (w_db w) g)))) added).
  { intros r0 E. exists r0, w, []. split; [exact E|]. split; [split; assumption|].
    split; [symmetry; apply with_results_nil|]. split; [reflexivity|constructor]. }
  destruct (get_news_group (w_db w) g) as [group|] eqn:Hg.
  2:{ eapply Hsame. apply calculate_not_found; [exact Hr|rewrite Hv; exact Hg]. }
  destruct (Z.of_nat (List.length (group_items_query (w_db w) g)) <? 2) eqn:Hlen.
  { eapply Hsame. eapply calculate_insufficient; [exact Hr|rewrite Hv; exact Hg|].
    rewrite Hv. apply Z.ltb_lt. exact Hlen. }
  clear Hsame.
  destruct w as [d v nr clk rd q br off]. cbn [w_needs_rollback w_view w_db w_clock w_queue w_broker w_offered] in *.
  subst nr v.
  unfold calculate_publication_speed, st_try.
  unfold st_bind at 1. unfold query at 1. cbn [w_needs_rollback w_view w_broker w_offered]. rewrite Hg.
  unfold st_bind at 1. unfold query at 1. cbn [w_needs_rollback w_view w_broker w_offered]. rewrite Hlen.
  destruct (group_items_query d g) as [|[first_item first_gi] rest] eqn:Hq; [discriminate|].
  destruct (query_rows_timestamped d g (first_item, first_gi)) as (t0 & Ht0 & _);
    [rewrite Hq; left; reflexivity|].
  cbn [fst] in Ht0. rewrite Ht0.
  destruct (speed_loop_added_rows t0 rest 0 (mk_world d d false clk rd q br off) eq_refl)
    as (added & k & m & E & Hall).
  unfold st_bind at 1. rewrite E.
  unfold st_bind, commit, st_ret. cbn [w_needs_rollback w_view w_db w_clock w_readings w_queue w_broker w_offered].
  do 2 eexists. exists added. split; [reflexivity|].
  cbn [w_needs_rollback w_view w_db w_clock w_readings w_queue tl w_broker w_offered].
  split; [split; reflexivity|]. split; [reflexivity|]. split; [reflexivity|exact Hall].
Qed.

Lemma calculator_only_appends_witness :
  exists r w' added,
    calculate_publication_speed 1 (initial_world db_group_47 noon_clock) = (Ok r, w') /\
    w_db w' = with_results db_group_47 added /\
    Forall (fun a => AnalysisResult.news_item_id a = 2) added.
Proof.
  destruct (calculator_only_appends (initial_world db_group_47 noon_clock) 1
              (conj eq_refl eq_refl)) as (r & w' & added & E & _ & Hdb & _ & Hall).
  exists r, w', added. split; [exact E|]. split; [exact Hdb|].
  eapply Forall_impl; [|exact Hall]. cbn. intros a [_ [H|[]]]. symmetry. exact H.
Defined.

Section PreprocessFacts.

Variable normalize : pystr -> py pystr.
Variable word_tokenize : pystr -> py (list pystr).
Variable persian_stopwords : list pystr.

Let preprocess_persian_text := preprocess_persian_text normalize word_tokenize persian_stopwords.

(** Preprocessing never raises.  The empty text gives the empty text; when
    hazm fails on a text, the text comes back as it was; and otherwise the
    answer is the kept tokens joined by single spaces, the kept tokens being
    the tokens of hazm that are longer than two characters and no stop
    words, in their order and as often as they occur. *)
Theorem preprocessing_falls_back_to_the_text (text : pystr) :
  exists r,
    preprocess_persian_text text = Ok r /\
    (text = [] -> r = []) /\
    (forall e, text <> [] -> normalize text = Raise e -> r = text) /\
    (forall normalized e, text <> [] -> normalize text = Ok normalized ->
                          word_tokenize normalized = Raise e -> r = text) /\
    (forall normalized tokens, text <> [] -> normalize text = Ok normalized ->
       word_tokenize normalized = Ok tokens ->
       exists kept,
         r = join_space kept /\
         kept = filter (fun token => (2 <? len token) &&
                                     negb (existsb (pystr_eqb token) persian_stopwords))
                       tokens /\
         (forall token, In token kept <->
                        In token tokens /\ 2 < len token /\ ~ In token persian_stopwords)).
Proof.
  unfold preprocess_persian_text, Analysis.preprocess_persian_text.
  destruct text as [|c text]; cbn [str_truthy negb].
  - exists []. split; [reflexivity|]. split; [reflexivity|].
    repeat split; intros; congruence.
  - unfold try_except, py_bind.
    destruct (normalize (c :: text)) as [normalized|e] eqn:Hn.
    + destruct (word_tokenize normalized) as [tokens|e] eqn:Ht.
      * eexists. split; [reflexivity|]. split; [discriminate|].
        split; [intros; discriminate|]. split; [intros n0 e0 _ E; congruence|].
        intros n0 tokens0 _ E Ht0. injection E as <-. rewrite Ht in Ht0. injection Ht0 as <-.
        eexists. split; [reflexivity|]. split; [reflexivity|].
        intros token. rewrite filter_In.
        rewrite andb_true_iff, negb_true_iff, Z.ltb_lt.
        assert (Hmem : existsb (pystr_eqb token) persian_stopwords = false <->
                       ~ In token persian_stopwords).
        { split.
          - intros Hf Hin. assert (existsb (pystr_eqb token) persian_stopwords = true).
            { apply existsb_exists. exists token. split; [exact Hin|].
              unfold pystr_eqb. destruct (list_eq_dec Z.eq_dec token token); congruence. }
            congruence.
          - intros Hni. apply not_true_is_false. intros Ht'.
            apply existsb_exists in Ht' as (x & Hx & Hb). unfold pystr_eqb in Hb.
            destruct (list_eq_dec Z.eq_dec token x); [subst; tauto|discriminate]. }
        rewrite Hmem. tauto.
      * exists (c :: text). split; [reflexivity|]. split; [discriminate|].
        split; [reflexivity|]. split; [reflexivity|].
        intros n0 tokens0 _ E Ht0. injection E as <-. congruence.
    + exists (c :: text). split; [reflexivity|]. split; [discriminate|].
      split; [reflexivity|]. split; [intros; congruence|]. intros; congruence.
Qed.

End PreprocessFacts.

(** *** Sentiment *)

Lemma split_from_token (token : pystr) :
  forall cur rest,
  forallb (fun c => negb (is_space c)) token = true ->
  split_from cur (token ++ rest) = split_from (rev token ++ cur) rest.
Proof.
  induction token as [|c token IH]; intros cur rest H; [reflexivity|].
  cbn [forallb] in H. apply andb_true_iff in H as [Hc H]. apply negb_true_iff in Hc.
  cbn [app split_from]. rewrite Hc. rewrite IH by exact H.
  cbn [rev]. rewrite <- app_assoc. reflexivity.
Qed.

(** Splitting undoes joining: tokens that are not empty and hold no white
    space come back as they were. *)
Lemma split_join_space (tokens : list pystr) :
  Forall (fun token => token <> [] /\ forallb (fun c => negb (is_space c)) token = true) tokens ->
  split (join_space tokens) = tokens.
Proof.
  unfold split. induction tokens as [|token rest IH]; intros H; [reflexivity|].
  inversion H as [|? ? [Hne Hws] Hrest]. subst.
  destruct rest as [|token' rest'].
  - cbn [join_space]. rewrite <- (app_nil_r token) at 1.
    rewrite split_from_token by exact Hws. rewrite app_nil_r. cbn [split_from].
    destruct (rev token) eqn:E.
    + apply (f_equal (@rev Z)) in E. rewrite rev_involutive in E. cbn in E. congruence.
    + rewrite <- E, rev_involutive. reflexivity.
  - change (join_space (token :: token' :: rest'))
      with (token ++ 32 :: join_space (token' :: rest')).
    rewrite split_from_token by exact Hws. rewrite app_nil_r. cbn [split_from].
    change (is_space 32) with true. cbn match.
    destruct (rev token) eqn:E.
    + apply (f_equal (@rev Z)) in E. rewrite rev_involutive in E. cbn in E. congruence.
    + rewrite <- E, rev_involutive. f_equal. apply IH. exact Hrest.
Qed.

Section TokenFacts.

Variable normalize : pystr -> py pystr.
Variable word_tokenize : pystr -> py (list pystr).
Variable persian_stopwords : list pystr.

Let sentiment_tokens := sentiment_tokens normalize word_tokenize persian_stopwords.

(** When hazm accepts the text and its tokens hold no white space, the
    tokens the sentiment is counted over are the tokens longer than two
    characters that are no stop words; so the two-letter keyword of the
    negative list is never counted, while the 27 other keywords can be. *)
Theorem short_keyword_is_never_counted (text normalized : pystr) (tokens : list pystr) :
  text <> [] ->
  normalize text = Ok normalized ->
  word_tokenize normalized = Ok tokens ->
  Forall (fun token => forallb (fun c => negb (is_space c)) token = true) tokens ->
  exists kept,
    sentiment_tokens text = Ok kept /\
    kept = filter (fun token => (2 <? len token) &&
                                negb (existsb (pystr_eqb token) persian_stopwords)) tokens /\
    count_in [[1576; 1583]] kept = 0 /\
    In [1576; 1583] negative_keywords /\
    Forall (fun k => k = [1576; 1583] \/ 2 < len k) (positive_keywords ++ negative_keywords).
Proof.
  intros Hne Hn Ht Hws.
  unfold sentiment_tokens, Analysis.sentiment_tokens, preprocess_persian_text.
  destruct text as [|c text]; [congruence|]. cbn [str_truthy negb].
  unfold try_except, py_bind. rewrite Hn, Ht.
  set (kept := filter _ tokens).
  assert (Hkept : Forall (fun token => token <> [] /\
                                       forallb (fun c => negb (is_space c)) token = true) kept).
  { apply Forall_forall. intros token Hin. apply filter_In in Hin as [Hin Hb].
    apply andb_true_iff in Hb as [Hlen _]. apply Z.ltb_lt in Hlen.
    split; [intros ->; cbn in Hlen; lia|].
    rewrite Forall_forall in Hws. apply Hws. exact Hin. }
  exists kept. rewrite (split_join_space kept Hkept).
  split; [reflexivity|]. split; [reflexivity|].
  split.
  - unfold count_in.
    destruct (filter (fun token => existsb (pystr_eqb token) [[1576; 1583]]) kept)
      as [|token rest] eqn:E; [reflexivity|].
    assert (Hin : In token (filter (fun token => existsb (pystr_eqb token) [[1576; 1583]]) kept))
      by (rewrite E; left; reflexivity).
    apply filter_In in Hin as [Hin Hb].
    apply filter_In in Hin as [_ Hlen]. apply andb_true_iff in Hlen as [Hlen _].
    apply Z.ltb_lt in Hlen. cbn [existsb] in Hb. rewrite orb_false_r in Hb.
    unfold pystr_eqb in Hb. destruct (list_eq_dec Z.eq_dec token [1576; 1583]) as [->|];
      [cbn in Hlen; lia|discriminate].
  - split; [vm_compute; tauto|].
    repeat (constructor; [first [left; reflexivity|right; vm_compute; reflexivity]|]).
    constructor.
Qed.

End TokenFacts.

Lemma first_result_updated (i : Z) (ty : string) (existing : AnalysisResult.t)
  (v : stored_text) (t : Z) (l : list AnalysisResult.t) :
  find (fun x => (AnalysisResult.news_item_id x =? i) &&
                 String.eqb (AnalysisResult.analysis_type x) ty) l = Some existing ->
  exists row,
    find (fun x => (AnalysisResult.news_item_id x =? i) &&
                   String.eqb (AnalysisResult.analysis_type x) ty)
         (map (fun r => if AnalysisResult.id r =? AnalysisResult.id existing
                        then AnalysisResult.mk (AnalysisResult.id r)
                                               (AnalysisResult.news_item_id r)
                                               (AnalysisResult.analysis_type r)
                                               (Some v) (Some t)
                        else r) l) = Some row /\
    AnalysisResult.value row = Some v /\ AnalysisResult.analysis_timestamp row = Some t /\
    AnalysisResult.id row = AnalysisResult.id existing.
Proof.
  induction l as [|r l IH]; intros Hf; [discriminate|].
  cbn [find map] in *.
  destruct ((AnalysisResult.news_item_id r =? i) &&
            String.eqb (AnalysisResult.analysis_type r) ty) eqn:Hm.
  - injection Hf as ->. rewrite Z.eqb_refl. cbn [AnalysisResult.news_item_id
      AnalysisResult.analysis_type]. rewrite Hm. eexists. split; [reflexivity|].
    repeat split.
  - destruct (AnalysisResult.id r =? AnalysisResult.id existing);
      cbn [AnalysisResult.news_item_id AnalysisResult.analysis_type]; rewrite Hm;
      apply IH; exact Hf.
Qed.

Lemma find_app_none {A} (p : A -> bool) (l : list A) (x : A) :
  find p l = None -> p x = true -> find p (l ++ [x]) = Some x.
Proof.
  induction l as [|y l IH]; intros Hf Hx; cbn [app find] in *.
  - rewrite Hx. reflexivity.
  - destruct (p y); [discriminate|]. apply IH; assumption.
Qed.

Section SentimentFacts.

Variable normalize : pystr -> py pystr.
Variable word_tokenize : pystr -> py (list pystr).
Variable persian_stopwords : list pystr.
Variable json_dumps : sentiment_data -> pystr.

Let sentiment_tokens := sentiment_tokens normalize word_tokenize persian_stopwords.
Let analyze_sentiment :=
  analyze_sentiment normalize word_tokenize persian_stopwords json_dumps.

Lemma sentiment_run (news_item_id : Z) (w : world) (news_item : NewsItem.t)
  (tokens : list pystr) :
  clean w ->
  get_news_item (w_db w) news_item_id = Some news_item ->
  strip (text_of news_item) <> [] ->
  sentiment_tokens (text_of news_item) = Ok tokens ->
  exists w' row,
    analyze_sentiment news_item_id w
      = (Ok (mk_sentiment_result "success" (Some (sentiment_of tokens))), w') /\
    clean w' /\
    news_agencies (w_db w') = news_agencies (w_db w) /\
    news_items (w_db w') = news_items (w_db w) /\
    news_groups (w_db w') = news_groups (w_db w) /\
    news_group_items (w_db w') = news_group_items (w_db w) /\
    w_queue w' = w_queue w /\
    first_result (w_db w') news_item_id sentiment_type = Some row /\
    AnalysisResult.value row = Some (PlainText (json_dumps (sentiment_of tokens))) /\
    AnalysisResult.analysis_timestamp row = Some (w_clock w (w_readings w)) /\
    List.length (analysis_results (w_db w'))
      = match first_result (w_db w) news_item_id sentiment_type with
        | Some _ => List.length (analysis_results (w_db w))
        | None => S (List.length (analysis_results (w_db w)))
        end /\
    map (fun r => (AnalysisResult.news_item_id r, AnalysisResult.analysis_type r))
        (analysis_results (w_db w'))
      = map (fun r => (AnalysisResult.news_item_id r, AnalysisResult.analysis_type r))
            (analysis_results (w_db w))
        ++ match first_result (w_db w) news_item_id sentiment_type with
           | Some _ => []
           | None => [(news_item_id, sentiment_type)]
           end.
Proof.
  intros [Hr Hv] Hitem Htext Htok. destruct w as [d v nr clk rd q br off].
  cbn [w_needs_rollback w_view w_db w_clock w_readings w_queue w_broker w_offered] in *. subst nr v.
  unfold analyze_sentiment, Analysis.analyze_sentiment, st_try.
  unfold st_bind at 1. unfold query at 1. cbn [w_needs_rollback w_view w_broker w_offered]. rewrite Hitem.
  destruct (strip (text_of news_item)) as [|c0 s0] eqn:Hs; [congruence|].
  cbn [str_truthy negb].
  unfold st_bind at 1. unfold st_lift at 1.
  fold sentiment_tokens. rewrite Htok.
  unfold st_bind at 1. unfold query at 1. cbn [w_needs_rollback w_view w_broker w_offered].
  destruct (first_result d news_item_id sentiment_type) as [existing|] eqn:Hfirst.
  - unfold update_analysis_result. run_st.
    unfold first_result in Hfirst.
    destruct (first_result_updated news_item_id sentiment_type existing
                (PlainText (json_dumps (sentiment_of tokens))) (clk rd)
                (analysis_results d) Hfirst) as (row & Hrow & Hval & Hts & _).
    do 2 eexists. split; [reflexivity|]. cbn [w_needs_rollback w_view w_db w_queue
      news_agencies news_items news_groups news_group_items analysis_results w_broker w_offered].
    split; [split; reflexivity|]. do 5 (split; [reflexivity|]).
    split; [exact Hrow|]. split; [exact Hval|]. split; [exact Hts|].
    split; [apply length_map|].
    rewrite app_nil_r, map_map. apply map_ext. intros r.
    destruct (AnalysisResult.id r =? AnalysisResult.id existing); reflexivity.
  - unfold insert_analysis_result. run_st.
    do 2 eexists. split; [reflexivity|]. cbn [w_needs_rollback w_view w_db w_queue
      news_agencies news_items news_groups news_group_items analysis_results w_broker w_offered].
    split; [split; reflexivity|]. do 5 (split; [reflexivity|]).
    split.
    { unfold first_result. cbn [analysis_results]. apply find_app_none; [exact Hfirst|].
      cbn [AnalysisResult.news_item_id AnalysisResult.analysis_type].
      rewrite Z.eqb_refl. reflexivity. }
    split; [reflexivity|]. split; [reflexivity|].
    split; [rewrite length_app; cbn; lia|].
    rewrite map_app. reflexivity.
Qed.


(** An unknown article and an article whose title and text are blank are
    reported and leave the world as it was. *)
Theorem sentiment_needs_an_article_with_text (news_item_id : Z) (w : world) :
  clean w ->
  (get_news_item (w_db w) news_item_id = None ->
   analyze_sentiment news_item_id w = (Ok (mk_sentiment_result "not_found" None), w)) /\
  (forall news_item,
     get_news_item (w_db w) news_item_id = Some news_item ->
     forallb is_space (NewsItem.title news_item) = true ->
     match NewsItem.full_text news_item with
     | Some t => forallb is_space t = true
     | None => True
     end ->
     analyze_sentiment news_item_id w = (Ok (mk_sentiment_result "no_text" None), w)).
Proof.
  intros [Hr Hv]. destruct w as [d v nr clk rd q br off].
  cbn [w_needs_rollback w_view w_db w_broker w_offered] in *. subst nr v.
  unfold analyze_sentiment, Analysis.analyze_sentiment, st_try.
  split.
  - intros Hnone. unfold st_bind at 1. unfold query at 1. cbn [w_needs_rollback w_view w_broker w_offered].
    rewrite Hnone. reflexivity.
  - intros news_item Hitem Htitle Htext.
    unfold st_bind at 1. unfold query at 1. cbn [w_needs_rollback w_view w_broker w_offered]. rewrite Hitem.
    assert (Hblank : forallb is_space (text_of news_item) = true).
    { unfold text_of. rewrite forallb_app. rewrite Htitle. cbn [andb forallb].
      change (is_space 32) with true. cbn [andb].
      destruct (NewsItem.full_text news_item); [exact Htext|reflexivity]. }
    assert (Hstrip : forall s, forallb is_space s = true -> strip s = []).
    { intros s Hs. unfold strip.
      assert (Hd : drop_while is_space s = []).
      { induction s as [|c s IH]; [reflexivity|]. cbn [forallb] in Hs.
        apply andb_true_iff in Hs as [Hc Hs]. cbn [drop_while]. rewrite Hc. apply IH. exact Hs. }
      rewrite Hd. reflexivity. }
    rewrite (Hstrip _ Hblank). reflexivity.
Qed.

End SentimentFacts.

Lemma short_keyword_is_never_counted_witness :
  exists kept,
    sentiment_tokens plain_normalize (fun _ => Ok [[1576; 1583]; [1582; 1591; 1585]]) []
                     [1576; 1583; 32; 1582; 1591; 1585] = Ok kept /\
    kept = [[1582; 1591; 1585]].
Proof.
  destruct (short_keyword_is_never_counted plain_normalize
              (fun _ => Ok [[1576; 1583]; [1582; 1591; 1585]]) []
              [1576; 1583; 32; 1582; 1591; 1585] [1576; 1583; 32; 1582; 1591; 1585]
              [[1576; 1583]; [1582; 1591; 1585]])
    as (kept & E & Hk & _).
  - discriminate.
  - reflexivity.
  - reflexivity.
  - repeat constructor.
  - exists kept. split; [exact E|]. rewrite Hk. reflexivity.
Defined.


Lemma sentiment_needs_an_article_with_text_witness :
  analyze_sentiment plain_normalize plain_tokenize [] (fun _ => [123; 125]) 7
                    (initial_world db_single noon_clock)
    = (Ok (mk_sentiment_result "not_found" None), initial_world db_single noon_clock).
Proof.
  apply (proj1 (sentiment_needs_an_article_with_text plain_normalize plain_tokenize []
                  (fun _ => [123; 125]) 7 (initial_world db_single noon_clock)
                  (conj eq_refl eq_refl))).
  reflexivity.
Defined.

End AnalysisProps.

(* ================================================================= *)
(** * Properties of the periodic tasks *)

Module ScheduledProps.
Import Store Scheduled.

Lemma in_firstn {A} (n : nat) (l : list A) (x : A) : In x (firstn n l) -> In x l.
Proof.
  intros H. rewrite <- (firstn_skipn n l). apply in_or_app. left. exact H.
Qed.

Section BrokerFacts.

Variable broker : job -> nat -> py pystr.

Lemma start_crawls_outcome (active_agencies : list NewsAgency.t) :
  forall (results : list crawl_entry) (s : state),
  exists entries,
    start_crawls broker active_agencies results s
      = (Ok (results ++ entries),
         mk_state (s_world s) (s_sent s ++ accepted_crawls entries)
                  (s_offered s + List.length active_agencies)) /\
    Forall2 (fun a e => agency_id e = NewsAgency.id a /\ agency_name e = NewsAgency.name a)
            active_agencies entries /\
    ((forall j n, exists t, broker j n = Ok t) ->
     accepted_crawls entries
       = map (fun a => crawl_agency_job (NewsAgency.id a)) active_agencies).
Proof.
  induction active_agencies as [|a rest IH]; intros results s.
  - exists []. cbn. rewrite !app_nil_r, Nat.add_0_r. destruct s.
    split; [reflexivity|]. split; [constructor|reflexivity].
  - cbn [start_crawls]. unfold st_bind at 1. unfold st_try, st_bind, delay, st_ret.
    destruct (broker (crawl_agency_job (NewsAgency.id a)) (s_offered s)) as [t|e] eqn:Hb.
    + destruct (IH (results ++ [mk_crawl_entry (NewsAgency.id a) (NewsAgency.name a) (Ok t)])
                   (mk_state (s_world s) (s_sent s ++ [crawl_agency_job (NewsAgency.id a)])
                             (S (s_offered s))))
        as (entries & E & Hall & Hup).
      exists (mk_crawl_entry (NewsAgency.id a) (NewsAgency.name a) (Ok t) :: entries).
      rewrite E. cbn [s_world s_sent s_offered List.length].
      split.
      { f_equal; [rewrite <- app_assoc; reflexivity|].
        f_equal; [unfold accepted_crawls; cbn [flat_map task_id agency_id app];
                  rewrite <- app_assoc; reflexivity|lia]. }
      split; [constructor; [split; reflexivity|exact Hall]|].
      intros H. specialize (Hup H). unfold accepted_crawls in *.
      cbn [flat_map task_id agency_id app map]. rewrite Hup. reflexivity.
    + destruct (IH (results ++ [mk_crawl_entry (NewsAgency.id a) (NewsAgency.name a) (Raise e)])
                   (mk_state (s_world s) (s_sent s) (S (s_offered s))))
        as (entries & E & Hall & Hup).
      exists (mk_crawl_entry (NewsAgency.id a) (NewsAgency.name a) (Raise e) :: entries).
      rewrite E. cbn [s_world s_sent s_offered List.length].
      split.
      { f_equal; [rewrite <- app_assoc; reflexivity|]. f_equal. lia. }
      split; [constructor; [split; reflexivity|exact Hall]|].
      intros H. destruct (H (crawl_agency_job (NewsAgency.id a)) (s_offered s)) as (t & Ht).
      congruence.
Qed.

(** [crawl_all_agencies] never raises and never writes.  With no active
    agency it answers [no_agencies] and offers nothing; otherwise it offers
    the broker one crawl job per active agency, in the order of the table,
    and none for an inactive one; a job the broker refuses is reported in
    its entry and does not stop the jobs after it; and with a broker that
    accepts everything the jobs sent are exactly those of the active
    agencies. *)
Theorem crawl_all_offers_one_job_per_active_agency (s : state) :
  clean (s_world s) ->
  let active := filter NewsAgency.is_active (news_agencies (w_db (s_world s))) in
  exists r s',
    crawl_all_agencies broker s = (Ok r, s') /\
    s_world s' = s_world s /\
    match active with
    | [] => r = mk_crawl_all_result "no_agencies" None None /\ s' = s
    | _ :: _ =>
        exists entries,
          r = mk_crawl_all_result "started" (Some (Z.of_nat (List.length active)))
                                  (Some entries) /\
          Forall2 (fun a e => agency_id e = NewsAgency.id a /\
                              agency_name e = NewsAgency.name a) active entries /\
          s_offered s' = (s_offered s + List.length active)%nat /\
          s_sent s' = s_sent s ++ accepted_crawls entries /\
          ((forall j n, exists t, broker j n = Ok t) ->
           s_sent s' = s_sent s ++ map (fun a => crawl_agency_job (NewsAgency.id a)) active)
    end.
Proof.
  intros [Hr Hv] active.
  unfold crawl_all_agencies, st_try. unfold st_bind at 1. unfold in_world, query.
  rewrite Hr, Hv. fold active.
  destruct active as [|a rest] eqn:Ha.
  - unfold st_ret. do 2 eexists. split; [reflexivity|]. split; [reflexivity|].
    split; [reflexivity|]. destruct s; reflexivity.
  - destruct (start_crawls_outcome (a :: rest) []
                (mk_state (s_world s) (s_sent s) (s_offered s)))
      as (entries & E & Hall & Hup).
    unfold st_bind. rewrite E. unfold st_ret. cbn [app s_world s_sent s_offered].
    do 2 eexists. split; [reflexivity|]. cbn [s_world s_sent s_offered].
    split; [reflexivity|]. exists entries.
    split; [reflexivity|]. split; [exact Hall|]. split; [reflexivity|].
    split; [reflexivity|]. intros H. rewrite (Hup H). reflexivity.
Qed.

Lemma start_analyses_outcome (d : db) (since : Z) (items : list NewsItem.t) :
  forall (results : list analysis_entry) (s : state),
  Forall (fun x => eligible d since (NewsItem.id x)) items ->
  exists entries new s',
    start_analyses broker items results s = (Ok (results ++ entries), s') /\
    s_world s' = s_world s /\
    s_sent s' = s_sent s ++ new /\
    (s_offered s' <= s_offered s + 2 * List.length items)%nat /\
    (List.length new <= 2 * List.length items)%nat /\
    map item_id entries = map NewsItem.id items /\
    Forall (fun j => exists i, job_item j = Some i /\ eligible d since i) new /\
    (forall i, In (analyze_sentiment_job i) new -> In (analyze_news_item_job i) new) /\
    ((forall j n, exists t, broker j n = Ok t) ->
     new = flat_map (fun x => [analyze_news_item_job (NewsItem.id x);
                               analyze_sentiment_job (NewsItem.id x)]) items).
Proof.
  induction items as [|x rest IH]; intros results s Hel.
  - exists [], [], s. cbn. rewrite !app_nil_r.
    split; [reflexivity|]. split; [reflexivity|]. split; [reflexivity|].
    split; [lia|]. split; [lia|]. split; [reflexivity|]. split; [constructor|].
    split; [intros i []|reflexivity].
  - inversion Hel as [|? ? Hx Hrest]. subst.
    cbn [start_analyses]. unfold st_bind at 1. unfold st_try.
    unfold st_bind at 1. unfold delay at 1.
    destruct (broker (analyze_news_item_job (NewsItem.id x)) (s_offered s)) as [t1|e1] eqn:Hb1.
    + unfold st_bind at 1. unfold delay at 1. cbn [s_world s_sent s_offered].
      destruct (broker (analyze_sentiment_job (NewsItem.id x)) (S (s_offered s)))
        as [t2|e2] eqn:Hb2.
      * unfold st_ret at 1.
        destruct (IH (results ++ [mk_analysis_entry (NewsItem.id x) (Ok (t1, t2))])
                     (mk_state (s_world s)
                               ((s_sent s ++ [analyze_news_item_job (NewsItem.id x)])
                                  ++ [analyze_sentiment_job (NewsItem.id x)])
                               (S (S (s_offered s)))) Hrest)
          as (entries & new & s' & E & Hw & Hs & Ho & Hn & Hids & Hall & Hpair & Hup).
        exists (mk_analysis_entry (NewsItem.id x) (Ok (t1, t2)) :: entries),
               (analyze_news_item_job (NewsItem.id x)
                  :: analyze_sentiment_job (NewsItem.id x) :: new), s'.
        rewrite E. cbn [s_world s_sent s_offered List.length] in *.
        split; [rewrite <- app_assoc; reflexivity|]. split; [exact Hw|].
        split; [rewrite Hs, <- !app_assoc; reflexivity|]. split; [lia|]. split; [lia|].
        split; [cbn; f_equal; exact Hids|].
        split; [repeat constructor; try exact Hall; eexists; (split; [reflexivity|exact Hx])|].
        split.
        { intros i [H|[H|H]]; [discriminate| |].
          - injection H as <-. left. reflexivity.
          - right. right. apply Hpair. exact H. }
        intros H. cbn. rewrite (Hup H). reflexivity.
      * destruct (IH (results ++ [mk_analysis_entry (NewsItem.id x) (Raise e2)])
                     (mk_state (s_world s)
                               (s_sent s ++ [analyze_news_item_job (NewsItem.id x)])
                               (S (S (s_offered s)))) Hrest)
          as (entries & new & s' & E & Hw & Hs & Ho & Hn & Hids & Hall & Hpair & Hup).
        exists (mk_analysis_entry (NewsItem.id x) (Raise e2) :: entries),
               (analyze_news_item_job (NewsItem.id x) :: new), s'.
        unfold st_ret at 1. rewrite E. cbn [s_world s_sent s_offered List.length] in *.
        split; [rewrite <- app_assoc; reflexivity|]. split; [exact Hw|].
        split; [rewrite Hs, <- !app_assoc; reflexivity|]. split; [lia|]. split; [lia|].
        split; [cbn; f_equal; exact Hids|].
        split; [constructor; [eexists; (split; [reflexivity|exact Hx])|exact Hall]|].
        split.
        { intros i [H|H]; [discriminate|]. right. apply Hpair. exact H. }
        intros H. destruct (H (analyze_sentiment_job (NewsItem.id x)) (S (s_offered s)))
          as (t & Ht). congruence.
    + cbn [s_world s_sent s_offered]. unfold st_ret at 1.
      destruct (IH (results ++ [mk_analysis_entry (NewsItem.id x) (Raise e1)])
                   (mk_state (s_world s) (s_sent s) (S (s_offered s))) Hrest)
        as (entries & new & s' & E & Hw & Hs & Ho & Hn & Hids & Hall & Hpair & Hup).
      exists (mk_analysis_entry (NewsItem.id x) (Raise e1) :: entries), new, s'.
      rewrite E. cbn [s_world s_sent s_offered List.length] in *.
      split; [rewrite <- app_assoc; reflexivity|]. split; [exact Hw|].
      split; [exact Hs|]. split; [lia|]. split; [lia|].
      split; [cbn; f_equal; exact Hids|]. split; [exact Hall|]. split; [exact Hpair|].
      intros H. destruct (H (analyze_news_item_job (NewsItem.id x)) (s_offered s)) as (t & Ht).
      congruence.
Qed.

Lemma analyze_new_items_outcome (s : state) :
  clean (s_world s) ->
  let w := s_world s in
  let since := w_clock w (w_readings w) - 24 * Time.usec_per_hour in
  exists r s' new,
    analyze_new_items broker s = (Ok r, s') /\
    w_db (s_world s') = w_db w /\ clean (s_world s') /\
    s_sent s' = s_sent s ++ new /\
    (List.length new <= 200)%nat /\
    Forall (fun j => exists i, job_item j = Some i /\ eligible (w_db w) since i) new /\
    (forall i, In (analyze_sentiment_job i) new -> In (analyze_news_item_job i) new) /\
    (forall n, items_count r = Some n -> 0 < n <= 100).
Proof.
  intros [Hr Hv] w since. subst w.
  destruct s as [[d v nr clk rd q br off] sent offered].
  cbn [s_world s_sent s_offered w_db w_view w_needs_rollback w_clock w_readings w_broker w_offered] in *.
  subst nr v.
  unfold analyze_new_items, st_try.
  unfold st_bind at 1. unfold in_world at 1, utcnow.
  cbn [s_world s_sent s_offered w_db w_view w_needs_rollback w_clock w_readings w_queue w_broker w_offered].
  unfold st_bind at 1. unfold st_lift at 1.
  change (Time.timedelta Time.usec_per_hour 24) with (@Ok Z (24 * Time.usec_per_hour)).
  unfold st_bind at 1. unfold st_lift at 1. unfold Time.sub_timedelta.
  cbn [Time.wall Time.utcoffset].
  change (Time.usec_per_hour * 24) with (24 * Time.usec_per_hour).
  destruct (Time.in_range (clk rd - 24 * Time.usec_per_hour)) eqn:Hrange.
  2:{ unfold st_ret. do 2 eexists. exists []. split; [reflexivity|].
      cbn [s_world s_sent w_db w_view w_needs_rollback items_count w_broker w_offered].
      rewrite app_nil_r. split; [reflexivity|]. split; [split; reflexivity|].
      split; [reflexivity|]. split; [cbn; lia|]. split; [constructor|].
      split; [intros i []|intros n; discriminate]. }
  unfold st_bind at 1. unfold in_world at 1, query.
  cbn [s_world s_sent s_offered w_db w_view w_needs_rollback w_clock w_readings w_queue
       Time.wall w_broker w_offered].
  fold since.
  assert (Hel : Forall (fun x => eligible d since (NewsItem.id x))
                       (unanalyzed_items_query d since)).
  { apply Forall_forall. intros x Hx. unfold unanalyzed_items_query in Hx.
    apply in_firstn in Hx. apply filter_In in Hx as [Hx Hb].
    exists x. repeat split; assumption. }
  assert (Hlen : (List.length (unanalyzed_items_query d since) <= 100)%nat).
  { unfold unanalyzed_items_query. apply firstn_le_length. }
  destruct (unanalyzed_items_query d since) as [|x rest] eqn:Hq.
  - unfold st_ret. do 2 eexists. exists []. split; [reflexivity|].
    cbn [s_world s_sent w_db w_view w_needs_rollback items_count w_broker w_offered].
    rewrite app_nil_r. split; [reflexivity|]. split; [split; reflexivity|].
    split; [reflexivity|]. split; [cbn; lia|]. split; [constructor|].
    split; [intros i []|intros n; discriminate].
  - destruct (start_analyses_outcome d since (x :: rest) []
                (mk_state (mk_world d d false clk (S rd) q br off) sent offered) Hel)
      as (entries & new & s' & E & Hw & Hs & _ & Hn & _ & Hall & Hpair & _).
    unfold st_bind. rewrite E. unfold st_ret.
    do 2 eexists. exists new. split; [reflexivity|].
    cbn [s_world s_sent s_offered items_count] in *. rewrite Hw.
    cbn [w_db w_view w_needs_rollback w_broker w_offered].
    split; [reflexivity|]. split; [split; reflexivity|]. split; [exact Hs|].
    split; [lia|]. split; [exact Hall|]. split; [exact Hpair|].
    intros n E'. injection E' as <-. cbn [List.length] in *. lia.
Qed.

(** [analyze_new_items] never raises and never writes.  It starts work for
    at most a hundred articles, and only for stored articles that have no
    analysis result of any kind and were crawled within the last 24 hours:
    at most a grouping job and a sentiment job each, a sentiment job only
    after the grouping job of the same article was accepted. *)
Theorem analyze_new_items_only_starts_unanalyzed_articles (s : state) :
  clean (s_world s) ->
  let w := s_world s in
  let since := w_clock w (w_readings w) - 24 * Time.usec_per_hour in
  exists r s' new,
    analyze_new_items broker s = (Ok r, s') /\
    w_db (s_world s') = w_db w /\ clean (s_world s') /\
    s_sent s' = s_sent s ++ new /\
    (List.length new <= 200)%nat /\
    Forall (fun j => exists i, job_item j = Some i /\ eligible (w_db w) since i) new /\
    (forall i, In (analyze_sentiment_job i) new -> In (analyze_news_item_job i) new) /\
    (forall n, items_count r = Some n -> 0 < n <= 100).
Proof. apply analyze_new_items_outcome. Qed.

End BrokerFacts.

Lemma crawl_all_offers_one_job_per_active_agency_witness :
  exists r s',
    crawl_all_agencies broker_up (initial_state (initial_world db_agencies (fun _ => 0)))
      = (Ok r, s') /\
    s_sent s' = [crawl_agency_job 1; crawl_agency_job 3].
Proof.
  destruct (crawl_all_offers_one_job_per_active_agency broker_up
              (initial_state (initial_world db_agencies (fun _ => 0)))
              (conj eq_refl eq_refl)) as (r & s' & E & _ & H).
  exists r, s'. split; [exact E|]. cbn in H.
  destruct H as (entries & _ & _ & _ & _ & Hup). apply Hup.
  intros j n. eexists. reflexivity.
Defined.

Lemma analyze_new_items_only_starts_unanalyzed_articles_witness :
  exists r s' new,
    analyze_new_items broker_up
      (initial_state (initial_world Crawler.db_with_a (fun _ => 0))) = (Ok r, s') /\
    s_sent s' = new /\ (List.length new <= 200)%nat.
Proof.
  destruct (analyze_new_items_only_starts_unanalyzed_articles broker_up
              (initial_state (initial_world Crawler.db_with_a (fun _ => 0)))
              (conj eq_refl eq_refl)) as (r & s' & new & E & _ & _ & Hs & Hn & _).
  exists r, s', new. split; [exact E|]. split; [exact Hs|exact Hn].
Defined.

(** *** The batch after a sentiment run *)

Section BatchAfterSentiment.

Variable normalize : pystr -> py pystr.
Variable word_tokenize : pystr -> py (list pystr).
Variable persian_stopwords : list pystr.
Variable json_dumps : Analysis.sentiment_data -> pystr.
Variable broker : job -> nat -> py pystr.

(** A sentiment run alone takes an article out of the batch: once its
    sentiment is stored, [analyze_new_items] finds an analysis result for the
    article and starts neither its grouping nor its sentiment again, whether
    or not the article was ever grouped. *)
Theorem sentiment_takes_an_article_out_of_the_batch (i : Z) (w : world)
  (news_item : NewsItem.t) :
  clean w ->
  get_news_item (w_db w) i = Some news_item ->
  PyStr.strip (Analysis.text_of news_item) <> [] ->
  exists r w',
    Analysis.analyze_sentiment normalize word_tokenize persian_stopwords json_dumps i w
      = (Ok r, w') /\
    Analysis.sentiment_status r = "success"%string /\
    forall sent offered, exists r2 s2 new,
      analyze_new_items broker (mk_state w' sent offered) = (Ok r2, s2) /\
      s_sent s2 = sent ++ new /\
      forall j, In j new -> job_item j <> Some i.
Proof.
  intros Hc Hitem Htext.
  destruct (AnalysisProps.preprocess_returns normalize word_tokenize persian_stopwords
              (Analysis.text_of news_item)) as (processed & Hp).
  assert (Htok : Analysis.sentiment_tokens normalize word_tokenize persian_stopwords
                   (Analysis.text_of news_item) = Ok (PyStr.split processed)).
  { unfold Analysis.sentiment_tokens, py_bind. rewrite Hp. reflexivity. }
  destruct (AnalysisProps.sentiment_run normalize word_tokenize persian_stopwords json_dumps
              i w news_item (PyStr.split processed) Hc Hitem Htext Htok)
    as (w' & row & E & Hc' & _ & _ & _ & _ & _ & Hrow & _).
  do 2 eexists. split; [exact E|]. split; [reflexivity|].
  intros sent offered.
  destruct (analyze_new_items_outcome broker (mk_state w' sent offered) Hc')
    as (r2 & s2 & new & E2 & _ & _ & Hs & _ & Hall & _).
  exists r2, s2, new. split; [exact E2|]. split; [exact Hs|].
  intros j Hj Hji. rewrite Forall_forall in Hall.
  destruct (Hall j Hj) as (i' & Hi' & x & Hx & Hid & Hun).
  assert (Hii : i' = i) by congruence. rewrite Hii in Hid.
  cbn [s_world] in Hun. unfold unanalyzed_since in Hun.
  apply andb_true_iff in Hun as [Hno _]. apply negb_true_iff in Hno.
  unfold first_result in Hrow. apply find_some in Hrow as [Hin Hm].
  apply andb_true_iff in Hm as [Hm _].
  assert (Hyes : existsb (fun r => AnalysisResult.news_item_id r =? NewsItem.id x)
                         (analysis_results (w_db w')) = true).
  { apply existsb_exists. exists row. split; [exact Hin|]. rewrite Hid. exact Hm. }
  congruence.
Qed.

End BatchAfterSentiment.

Lemma sentiment_takes_an_article_out_of_the_batch_witness :
  exists r w',
    Analysis.analyze_sentiment Analysis.plain_normalize Analysis.plain_tokenize []
                               (fun _ => [123; 125]) 1
                               (initial_world Analysis.db_single Analysis.noon_clock)
      = (Ok r, w') /\
    exists r2 s2 new,
      analyze_new_items broker_up (initial_state w') = (Ok r2, s2) /\
      s_sent s2 = new /\
      forall j, In j new -> job_item j <> Some 1.
Proof.
  destruct (sentiment_takes_an_article_out_of_the_batch
              Analysis.plain_normalize Analysis.plain_tokenize [] (fun _ => [123; 125])
              broker_up 1 (initial_world Analysis.db_single Analysis.noon_clock)
              (Analysis.article 1 Analysis.headline (Some Analysis.noon) false))
    as (r & w' & E & _ & H).
  - split; reflexivity.
  - reflexivity.
  - vm_compute. discriminate.
  - exists r, w'. split; [exact E|].
    destruct (H [] 0%nat) as (r2 & s2 & new & E2 & Hs & Hnot).
    exists r2, s2, new. split; [exact E2|]. split; [exact Hs|exact Hnot].
Defined.

End ScheduledProps.


(* ================================================================= *)
(** * Properties of the listing *)

Module ListingProps.
Import Time PyStr Scraper Listing.

Lemma determine_position_label (element : node) (selected : py (list node)) :
  exists label,
    _determine_position element selected = Ok label /\
    In label ["unknown"; "homepage_top"; "homepage_middle"; "homepage_bottom"]%string.
Proof.
  unfold _determine_position, try_except, py_bind.
  destruct selected as [[|c0 rest]|e].
  - eexists. split; [reflexivity|]. left. reflexivity.
  - eexists. split; [reflexivity|]. unfold position_of_index.
    destruct (_ =? -1); [left; reflexivity|].
    destruct (_ <? 3); [right; left; reflexivity|].
    destruct (_ <? _); [right; right; left; reflexivity|right; right; right; left; reflexivity].
  - eexists. split; [reflexivity|]. left. reflexivity.
Qed.

Section ScrapeFacts.

Variable response : Type.
Variable session_get : pystr -> nat -> py response.
Variable is_request_exception : exn -> bool.
Variable response_ok : response -> bool.
Variable BeautifulSoup : response -> py node.
Variable select : node -> pystr -> py (list node).
Variable select_one : node -> pystr -> py (option node).
Variable get_text : node -> py pystr.
Variable get : node -> pystr -> py (option pystr).
Variable urljoin : pystr -> pystr -> py pystr.
Variable date_parser_parse : pystr -> py datetime.
Variable int_max_str_digits : Z.
Variable tehran_tz : tz_rules.
Variable clock : clock_t.
Variable cfg : config.

Let _extract_full_text :=
  _extract_full_text response session_get is_request_exception response_ok BeautifulSoup
                     select get_text.
Let scrape_element :=
  scrape_element response session_get is_request_exception response_ok BeautifulSoup
                 select select_one get_text get urljoin date_parser_parse
                 int_max_str_digits tehran_tz clock cfg.
Let scrape_elements :=
  scrape_elements response session_get is_request_exception response_ok BeautifulSoup
                  select select_one get_text get urljoin date_parser_parse
                  int_max_str_digits tehran_tz clock cfg.
Let scrape_news_list :=
  scrape_news_list response session_get is_request_exception response_ok BeautifulSoup
                   select select_one get_text get urljoin date_parser_parse
                   int_max_str_digits tehran_tz clock cfg.

Lemma sending_request (url : pystr) (s : net) :
  exists r n',
    sending (_make_request response session_get is_request_exception url 3) s
      = (r, mk_net n' (readings s)) /\
    (requests s <= n' <= requests s + 3)%nat /\
    (all_failed response session_get is_request_exception url (requests s) (requests s + 3) ->
     n' = (requests s + 3)%nat /\ exists e, r = Raise e).
Proof.
  destruct (ScraperProps.make_request_outcome response session_get is_request_exception
              url 3 (requests s)) as (r & n' & E & Hle & Hr).
  exists r, n'. unfold sending. rewrite E. split; [reflexivity|].
  change (Z.to_nat 3) with 3%nat in *.
  split.
  - destruct r as [[resp|]|e]; [destruct Hr as [Hlt _]; lia|destruct Hr as [_ ->]; lia|
                                destruct Hr as [Hlt _]; lia].
  - intros Hall. destruct r as [[resp|]|e].
    + destruct Hr as (Hlt & Hget & _).
      destruct (Hall (Nat.pred n')) as (e & He & _); [lia|]. congruence.
    + destruct Hr as [Hz _]. lia.
    + destruct Hr as (Hlt & Hget & _ & Hcount).
      destruct (Hall (Nat.pred n')) as (e' & He & Hreq); [lia|].
      assert (e' = e) by congruence. subst e'.
      split; [apply Hcount; exact Hreq|exists e; reflexivity].
Qed.

Lemma extract_full_text_outcome (url full_text_selector : pystr) (s : net) :
  exists r n',
    _extract_full_text url full_text_selector s = (Ok r, mk_net n' (readings s)) /\
    (requests s <= n' <= requests s + 3)%nat.
Proof.
  unfold _extract_full_text, Listing._extract_full_text, st_try.
  unfold st_bind at 1.
  destruct (sending_request url s) as (r & n' & E & Hn & _). rewrite E.
  destruct r as [[resp|]|e]; [|eexists _, n'; split; [reflexivity|exact Hn]..].
  destruct (response_ok resp); cbn [negb];
    [|eexists _, n'; split; [reflexivity|exact Hn]].
  unfold st_bind at 1. unfold st_lift at 1.
  destruct (BeautifulSoup resp) as [soup|e];
    [|eexists _, n'; split; [reflexivity|exact Hn]].
  unfold st_bind at 1. unfold st_lift at 1.
  destruct (select soup full_text_selector) as [[|el els]|e];
    [eexists _, n'; split; [reflexivity|exact Hn]| |
     eexists _, n'; split; [reflexivity|exact Hn]].
  unfold st_bind at 1. unfold st_lift at 1.
  destruct (map_py get_text (el :: els)) as [texts|e];
    eexists _, n'; (split; [reflexivity|exact Hn]).
Qed.

Lemma scrape_element_outcome (base : pystr) (soup element : node) (s : net) :
  exists r s',
    scrape_element base soup element s = (Ok r, s') /\
    match r with
    | None => requests s' = requests s
    | Some it => well_formed it /\ (requests s <= requests s' <= requests s + 3)%nat
    end.
Proof.
  unfold scrape_element, Listing.scrape_element, st_try.
  destruct (_extract_text select_one get_text element (sel_title (the_selectors cfg)))
    as [[|c title]|]; [do 2 eexists; split; [reflexivity|reflexivity]| |
                       do 2 eexists; split; [reflexivity|reflexivity]].
  cbn [str_truthy negb].
  unfold st_bind at 1. unfold st_lift at 1.
  destruct (join_url urljoin base _) as [url|e];
    [|do 2 eexists; split; [reflexivity|reflexivity]].
  unfold st_bind at 1. unfold st_lift at 1.
  destruct (join_url urljoin base _) as [main_image|e];
    [|do 2 eexists; split; [reflexivity|reflexivity]].
  unfold st_bind at 1. unfold timing at 1.
  destruct (_parse_date date_parser_parse int_max_str_digits tehran_tz clock _ (readings s))
    as [[published|e] k]; [|do 2 eexists; split; [reflexivity|reflexivity]].
  unfold st_bind at 1. unfold st_lift at 1.
  destruct (determine_position_label element
              (select soup match news_list_selector cfg with Some s0 => s0 | None => [] end))
    as (label & Hpos & Hlabel).
  rewrite Hpos.
  assert (Hplain : forall url',
             exists r s',
               (st_bind (st_ret None)
                  (fun full_text : option pystr =>
                     st_ret (Some (Crawler.mk_item_data (c :: title) url' full_text published
                                     (_extract_text select_one get_text element
                                                    (sel_category (the_selectors cfg)))
                                     main_image label))))
                 (mk_net (requests s) k) = (Ok r, s') /\
               match r with
               | None => requests s' = requests s
               | Some it => well_formed it /\ (requests s <= requests s' <= requests s + 3)%nat
               end).
  { intros url'. do 2 eexists. split; [reflexivity|]. cbn [requests].
    split; [|lia]. split; [discriminate|]. split; [exact Hlabel|]. intros t. discriminate. }
  destruct url as [u|]; [|apply Hplain].
  destruct (sel_full_text (the_selectors cfg)) as [sel|]; [|apply Hplain].
  destruct (str_truthy u && str_truthy sel) eqn:Htruthy; [|apply Hplain].
  clear Hplain.
  destruct (extract_full_text_outcome u sel (mk_net (requests s) k)) as (ft & n' & E & Hn).
  unfold st_bind. fold _extract_full_text. rewrite E. unfold st_ret.
  do 2 eexists. split; [reflexivity|]. cbn [requests] in *.
  split; [|exact Hn]. split; [discriminate|]. split; [exact Hlabel|].
  intros t _. exists u. split; [reflexivity|].
  apply andb_true_iff in Htruthy as [Hu _]. destruct u; [discriminate|discriminate].
Qed.

Lemma scrape_elements_outcome (base : pystr) (soup : node) (news_elements : list node) :
  forall (news_items : list Crawler.item_data) (s : net),
  Forall well_formed news_items ->
  exists items s',
    scrape_elements base soup news_elements news_items s = (Ok items, s') /\
    Forall well_formed items /\
    (requests s <= requests s')%nat /\
    (requests s' + 3 * List.length news_items <= requests s + 3 * List.length items)%nat /\
    (List.length items <= List.length news_items + List.length news_elements)%nat.
Proof.
  induction news_elements as [|element rest IH]; intros news_items s Hwf.
  - exists news_items, s. split; [reflexivity|]. split; [exact Hwf|]. cbn. lia.
  - cbn [Listing.scrape_elements]. unfold scrape_elements. cbn [Listing.scrape_elements].
    unfold st_bind at 1. fold scrape_element.
    destruct (scrape_element_outcome base soup element s) as (r & s1 & E1 & Hr). rewrite E1.
    fold scrape_elements.
    destruct r as [it|].
    + destruct Hr as [Hit Hn].
      destruct (IH (news_items ++ [it]) s1) as (items & s' & E & Hall & Hmono & Hbound & Hlen).
      { apply Forall_app. split; [exact Hwf|constructor; [exact Hit|constructor]]. }
      exists items, s'. split; [exact E|]. split; [exact Hall|].
      rewrite length_app in *. cbn [List.length] in *. lia.
    + destruct (IH news_items s1 Hwf) as (items & s' & E & Hall & Hmono & Hbound & Hlen).
      exists items, s'. split; [exact E|]. split; [exact Hall|].
      cbn [List.length]. lia.
Qed.

(** [scrape_news_list] never raises.  Every dictionary it returns has a
    title that is not empty and one of the four position labels, and a full
    text only together with a url that is not empty.  Unless the
    configuration has no name, in which case the list is empty, the scrape
    has sent at most three requests for the listing and three for each
    returned dictionary. *)
Theorem scrape_returns_well_formed_items (s : net) :
  exists items s',
    scrape_news_list s = (Ok items, s') /\
    Forall well_formed items /\
    (requests s <= requests s')%nat /\
    (name cfg = None -> items = []) /\
    (name cfg <> None ->
     (requests s' <= requests s + 3 * S (List.length items))%nat).
Proof.
  assert (Hnone : forall n' k,
             (requests s <= n' <= requests s + 3)%nat ->
             exists items s',
               (@Ok (list Crawler.item_data) [], mk_net n' k) = (Ok items, s') /\
               Forall well_formed items /\
               (requests s <= requests s')%nat /\
               (name cfg = None -> items = []) /\
               (name cfg <> None ->
                (requests s' <= requests s + 3 * S (List.length items))%nat)).
  { intros n' k Hn. do 2 eexists. split; [reflexivity|]. cbn [requests List.length].
    split; [constructor|]. split; [lia|]. split; [reflexivity|]. intros _. lia. }
  unfold scrape_news_list, Listing.scrape_news_list, st_try.
  destruct (base_url cfg) as [base|].
  2:{ destruct s as [n k]. apply (Hnone n k). cbn. lia. }
  unfold st_bind at 1.
  destruct (sending_request base s) as (r & n' & E & Hn & _). rewrite E.
  destruct r as [[resp|]|e]; [|apply Hnone; exact Hn..].
  destruct (response_ok resp); cbn [negb]; [|apply Hnone; exact Hn].
  unfold st_bind at 1. unfold st_lift at 1.
  destruct (BeautifulSoup resp) as [soup|e]; [|apply Hnone; exact Hn].
  assert (Hloop : forall news_elements,
             exists items s',
               match
                 st_bind (scrape_elements base soup news_elements [])
                   (fun news_items =>
                      match name cfg with
                      | Some _ => st_ret news_items
                      | None => st_ret []
                      end) (mk_net n' (readings s))
               with
               | (Ok a, s'0) => (Ok a, s'0)
               | (Raise _, s'0) => st_ret [] s'0
               end = (Ok items, s') /\
               Forall well_formed items /\
               (requests s <= requests s')%nat /\
               (name cfg = None -> items = []) /\
               (name cfg <> None ->
                (requests s' <= requests s + 3 * S (List.length items))%nat)).
  { intros news_elements.
    destruct (scrape_elements_outcome base soup news_elements [] (mk_net n' (readings s)))
      as (items & s' & E' & Hall & Hmono & Hbound & _); [constructor|].
    unfold st_bind. rewrite E'. cbn [requests List.length] in *.
    destruct (name cfg) as [nm|]; unfold st_ret.
    - exists items, s'. split; [reflexivity|]. split; [exact Hall|].
      split; [lia|]. split; [discriminate|]. intros _. lia.
    - exists [], s'. split; [reflexivity|]. split; [constructor|].
      split; [lia|]. split; [reflexivity|]. intros H. congruence. }
  unfold st_bind at 1.
  destruct (news_list_selector cfg) as [[|c sel]|]; cbn [str_truthy].
  - unfold st_ret at 1. fold scrape_elements. apply Hloop.
  - unfold st_lift at 1. destruct (select soup (c :: sel)) as [news_elements|e].
    + fold scrape_elements. apply Hloop.
    + apply Hnone. exact Hn.
  - unfold st_ret at 1. fold scrape_elements. apply Hloop.
Qed.

(** When the listing cannot be fetched, because three requests in a row
    fail with a request exception, the scrape answers the empty list after
    exactly those three requests, without reading the clock. *)
Theorem unreachable_listing_gives_no_items (base : pystr) (s : net) :
  base_url cfg = Some base ->
  all_failed response session_get is_request_exception base (requests s) (requests s + 3) ->
  scrape_news_list s = (Ok [], mk_net (requests s + 3) (readings s)).
Proof.
  intros Hbase Hall.
  unfold scrape_news_list, Listing.scrape_news_list, st_try. rewrite Hbase.
  unfold st_bind at 1.
  destruct (sending_request base s) as (r & n' & E & _ & Hfail). rewrite E.
  destruct (Hfail Hall) as (-> & e & ->). reflexivity.
Qed.

End ScrapeFacts.

Lemma unreachable_listing_gives_no_items_witness :
  scrape_news_list unit unreachable any_request_exception (fun _ => true)
                   (fun _ => Raise ValueError) (fun _ _ => Ok []) (fun _ _ => Ok None)
                   (fun _ => Ok []) (fun _ _ => Ok None) (fun _ u => Ok u)
                   parser_rejects 4300 tehran_fixed frozen_clock sample_config
                   (mk_net 0 0)
    = (Ok [], mk_net 3 0).
Proof.
  apply (unreachable_listing_gives_no_items unit unreachable any_request_exception
           (fun _ => true) (fun _ => Raise ValueError) (fun _ _ => Ok []) (fun _ _ => Ok None)
           (fun _ => Ok []) (fun _ _ => Ok None) (fun _ u => Ok u)
           parser_rejects 4300 tehran_fixed frozen_clock sample_config
           [104; 116; 116; 112; 58; 47; 47; 97] (mk_net 0 0)).
  - reflexivity.
  - intros m _. exists (LibraryError 0). split; reflexivity.
Defined.

End ListingProps.
